(* ===== verification/_CoqProject ===== *)
-Q . S2P
Prelude.v
PyStr.v
PyRandom.v
PhoneGen.v
Sentiment.v
Gateway.v
Chat.v
Float64.v
Turn.v
Sessions.v
Catalog.v
Csv.v
MobileApp.v
