(* ===== verification/Prelude.v ===== *)
(** * A verification development for the "mobile info" chatbot scripts

    The repository holds two Streamlit scripts.

    - [src/main1.py] is a chat page. Its session ([st.session_state]) keeps
      a transcript ([chat_history]), at most one pending follow-up question
      ([pending_action]) and the phone last looked up ([current_phone]).
      Each run of the script draws the page (title, the transcript so far,
      the input widget) and, when a message was submitted, runs one turn of
      a small state machine:
      - with no pending action, it synthesises a phone record
        ([get_mobile_info], driven by Python's [random]), posts the
        transcript to a local Ollama server ([mistral_chat]), appends one of
        four follow-up questions and records it as pending;
      - with a pending action, it reads the message as yes or no and
        answers the question itself, without a network call.
      Every reply is drawn, then scored by [analyze_sentiment] (TextBlob
      polarity, thresholded at +-0.1) and the score drawn as a caption.
    - [src/mobile.py] is a lookup page over a CSV catalogue, read with
      [pd.read_csv] ([load_mobile_data]). Its [get_mobile_info] filters the
      rows whose [Model] equals the query case-insensitively, samples one,
      and adds a random IMEI and condition. The button handler shows the
      record or an error. The commented-out script at the end of the file
      generates the catalogue and writes it with [df.to_csv].

    ** Files, in dependency order

    - [Prelude] (this file): Python exceptions ([PyExc]), the
      state-and-exception monad [PyM S] in which Python code is modelled,
      with [try/except] ([py_catch]) and [try/finally] ([py_finally])
      (an exception keeps the state changes made before it, as in Python and
      in Streamlit's session state), lenses ([Lens], [zoom]) to run a
      component on part of a larger state, shared tactics, the [pym]
      hint database, and the laws that rearrange [for] loops ([py_mapM]
      over a concatenation, over a flattened nest of loops).
    - [PyStr]: the [str] methods the scripts call, on ASCII strings:
      [lower], [strip], [title], [in] ([contains]), [replace], [str(int)]
      ([str_of_Z]) and [int(str)] ([py_int]). Lemmas: decimal printing and
      parsing are inverse; printed lengths; [contains] against its
      specification.
    - [PyRandom]: the interface to Python's [random] module as a type class
      ([PyRandom]) whose methods are CPython's primitives [_randbelow] and
      [random()] (a 53-bit draw), with their range laws. It defines
      [randint], [choice] and [uniform] as [random.py] defines them
      (ValueError on an empty [randint] range, IndexError on an empty
      [choice]) and two instances: a replayable tape of draws, used by the
      witnesses, and a generator whose every draw is the same [k]
      ([ConstGen]), used to show that a branch is reachable.
    - [Sentiment]: [analyze_sentiment] over an abstract TextBlob scorer
      (class [TextScorer]): the threshold policy and its monotonicity.
    - [Gateway]: JSON values ([JVal]), the outcomes of the HTTP POST
      ([HttpOutcome]), [mistral_chat] with Python's semantics of [in] and
      subscripting on each JSON type, the [+=] of a string onto the value
      it returns ([py_iadd_str]), and Python's [repr]/[str] of a JSON value
      ([py_repr], [py_str]) for the f-strings that display it.
    - [PhoneGen] (Module [Main1]): the [series_to_brand] table and the
      random record generator [get_mobile_info] of [main1.py]; the record
      invariant [wf_phone] (15-digit IMEI, years, condition, price), that
      the generator never raises and always produces a well-formed record,
      first-match series resolution, and two behaviours the code has.
    - [Float64]: line 137's [int(int(price) * random.uniform(0.3, 0.7))]
      on the kernel's primitive IEEE-754 doubles ([resale_double]), next
      to the exact-rational computation the turn uses ([resale_exact]),
      and the theorem on the two ends of the draw range (C30).
    - [Chat]: the session data of [main1.py] ([Session]; [SessionState]
      and [init_session_state] for lines 90-102), the affirmation test
      [is_affirmative] with its theorem C25, the texts of the replies, and
      the page: the elements Streamlit draws ([Element]), the header
      (lines 85-87), the transcript view (lines 105-109), the input widget
      (line 112) and the reply and caption of a turn (lines 185 and 189).
    - [Turn]: the world of a run ([World]: session, random generator,
      network, and the elements drawn on the page) and the script body:
      [script_run] for a whole run (page, transcript, widget, turn),
      [handle_input] (lines 114-189) with its two branches
      [followup_reply] (118-150) and [new_phone_reply] (152-181), and
      [main_run] for [if user_input:]. Then the equations of each branch,
      the reachability relation [Reachable] over reruns of the script (any
      message, raising or not, and any change of the generator or the
      network between runs), the session invariant by rule induction, the
      abstract protocol of spec section 4.3 ([Phase], [SpecStep]), and the
      theorems C1-C11, C22, C23, C28, C31, C33 and C34.
    - [Sessions]: several browser sessions in one server process
      ([Server]: the sessions' states and pages by session id, the shared
      generator and network), one rerun of a session ([server_step],
      which shows an uncaught exception in an error box), and
      runs of any sessions in any order ([ServerReachable]); C32.
    - [Catalog]: Module [Mobile] holds the CSV rows ([CsvRow]), the
      catalogue lookup [get_mobile_info] of [mobile.py] (lines 18-40), the
      button handler [on_get_info] (lines 65-84), the page around it
      ([page_widgets], [mobile_page], lines 58-84), and the commented-out
      generator script of lines 88-118 ([generate_catalog]). Module
      [MobileProps] holds its lemmas and the theorems C16, C17, C19, C26
      and C29.
    - [Csv]: the file between the generator and the page: [to_csv]
      (QUOTE_MINIMAL quoting, header line, "\n" line ends) and [read_csv]
      ([pd.read_csv]) on the subset of files described in that file, the
      round trip through it (C35), and [mobile_script], the whole of
      mobile.py on the file's contents, with the end-to-end theorem from
      the generator to the page (C18).
    - [MobileApp]: mobile.py as a running app. The state shared by the
      reruns ([App]: file system, the cache of [@st.cache_data], the
      generators), [pd_read_csv] with its [FileNotFoundError],
      [load_mobile_data_cached], and one run of the script
      ([mobile_run]); C24 and C27.

    ** The theorems, by group

    - The turn of [main1.py] ([Turn], C1-C11, C22, C23, C28, C31, C33,
      C34; [Chat], C25):
      - the idle turn (C1);
      - the decline (C2);
      - the follow_up loop the code has (C3), and that it is no trap: from
        any state, at most two messages bring a fresh lookup (C34);
      - the invariant of reachable sessions (C4);
      - the absence of exceptions in follow-up turns (C5);
      - the bounds of the resale estimate (C6);
      - the refinement of the spec's state machine (C7);
      - the absence of network calls in follow-up turns (C8);
      - gateway failures that do not abort (C9);
      - malformed content that does abort (C10);
      - an append-only transcript (C11);
      - the other affirmative branches: show_imei (C22), compare and
        pros_cons (C23);
      - the converse of C7 from idle: each of the four actions is reached
        for some outcome of the generator (C28);
      - the payload of every idle turn in a reachable session: exactly
        the transcript held before the turn (which starts with the system
        instruction), then the message and the prompt built from the
        stored phone (C31);
      - the page a run draws: header, the transcript before the message,
        widget, reply and caption; the submitted message itself is drawn
        only by the next run (C33);
      - affirmation tokens matched inside words (C25).
    - Sessions ([Sessions], C32): the sessions share the module-level
      generator, so the order of two sessions' runs changes the phone a
      session gets. The lemmas show each session on its own stays a
      reachable single-session world, so C4 holds in each.
    - The generator of [main1.py] ([PhoneGen], C12-C15): well-formed records
      for every query and every random outcome; first-match resolution;
      the "Iphone" model and the shadowing "V" key.
    - The catalogue page ([Catalog], C16, C17, C19, C26, C29):
      lookup without a match, lookup with a match, the error paths and
      the found path of the button, and that every matching row can be
      the one sampled.
    - The catalogue file ([Csv], C18, C35): every generated catalogue
      written by [to_csv] is read back by [load_mobile_data] as the same
      rows; on that file the page shows exactly the row a query names,
      and the error for "Nonexistent Model 9999" (spec scenario 4).
    - The running app ([MobileApp], C24, C27): a cached catalogue is
      never refreshed, whatever happens to the file (C24); a missing file raises
      [FileNotFoundError], caches nothing and is read by the next run
      after it appears (C27).
    - Doubles ([Float64], C30): [uniform(0.3, 0.7)] returns exactly 0.3
      and 0.7 at the two ends of the draw range; the estimate stays
      within C6's bounds there for every price, and reaches 0.7 n.
    - Sentiment ([Sentiment], C20).
    - The gateway ([Gateway], C21): the value returned for each kind of
      answer.

    ** Modelling choices

    - Randomness is an explicit, injectable source (class [PyRandom]). All
      theorems hold for every source satisfying the range laws, so they
      hold for every outcome of the real generator.
    - [random.uniform(0.3, 0.7)] is modelled on the rationals as
      [0.3 + 0.4 * k / 2^53] for the 53-bit draw [k]. [int()] of the
      product truncates toward zero ([Z.quot]). [Float64] computes the
      same line on doubles; the theorems of the turn state the bound that
      also holds with rounding: C6 states [r <= 0.7 n], although the exact
      model gives [r < 0.7 n], because with doubles [uniform] returns 0.7
      at the top draw and [50000 * 0.7] rounds to 35000 (C30). Proving
      the double bounds for every draw needs the monotonicity of rounding,
      which no installed library provides, so the turn keeps the exact
      model and C30 checks the two ends exhaustively over the prices.
    - [pandas.DataFrame.sample] draws from numpy's generator, a second
      instance of the same interface kept beside Python's generator.
    - Strings are byte strings. UTF-8 characters such as the rupee sign
      are their byte sequences, and [in] and [replace] on bytes agree with
      Python on them. [lower], [title] and [strip] act on ASCII letters and
      ASCII whitespace, and agree with Python on ASCII text. On other text
      they leave non-ASCII letters and spaces alone, where Python would
      change case or strip them (for example 'É' or U+00A0). Theorems that
      speak of these functions therefore describe the code exactly on
      ASCII queries.
    - The language model and TextBlob are external: the HTTP outcomes (a
      queue in [Net]) and the polarity score are inputs of the model.
    - An exception ends the run of the script. The state then keeps every
      change made before it, as Streamlit keeps [st.session_state].
    - The page is the list of elements drawn in one run ([shown]); a rerun
      clears it and draws again. The spinner (lines 168-169) is drawn
      before the model call and removed after it, by a [try/finally]
      ([py_finally], [with_spinner]); an uncaught exception adds an error
      box to the session's page ([Sessions.error_view]).
    - [read_csv] is partial on purpose: [None] means "outside the subset
      the model describes", not "pandas fails".

    ** Fuel

    Two definitions of [PyStr] recurse with fuel, and both get enough of it.
    - [replace_from] gets [length s] steps: with a non-empty [old] each step
      consumes at least one character.
    - [digits_from] gets [log2 n + 1] steps, since [n < 2 ^ (log2 n + 1) <=
      10 ^ (log2 n + 1)].
    [replace_from_fuel] shows that any fuel of at least [length s] gives
    the same result. [digit_fuel_enough] shows that [n < 10 ^ fuel], so
    every digit is printed. Every other recursion is structural.

    ** Axioms

    Loading [Floats] brings the kernel's
    specification of primitive floats ([FloatAxioms]), which no proof of
    the development uses: C30 is proved by evaluation. The development
    adds no axiom of its own.

    ** Not modelled

    - pandas on files outside the subset of [Csv] (quoted fields, carriage
      returns, other columns, other types); the [Csv] model gives [None]
      there. [st.cache_data]'s copy of the cached DataFrame on each hit is
      not modelled: the rows are immutable values here.
    - How Streamlit lays the elements out on screen (widths, colours,
      the placement of the chat input at the bottom): the page is the
      ordered list of elements the run draws.
    - Double rounding between the two ends of the draw range (see
      Modelling choices).
*)

From stdpp Require Export base list strings.
From Stdlib Require Export ZArith Lia String Ascii.

Open Scope string_scope.
Open Scope list_scope.

(** stdpp marks string append [simpl never]; the models compute with it, so
    let [simpl] and [cbn] unfold it on a constructor. *)
#[global] Arguments String.append : simpl nomatch.

(** ** Python exceptions

    The exceptions the two scripts can raise or catch, each with the text
    [str(e)] gives. *)
Inductive PyExc :=
| ValueError (msg : string)
| TypeError (msg : string)
| KeyError (key : string)
| IndexError (msg : string)
| RequestError (msg : string)      (* requests.exceptions.RequestException *)
| JSONDecodeError (msg : string)
| FileNotFoundError (path : string)  (* OSError errno 2, raised by open() *)
| OverflowError (msg : string).

(** [str(e)]: a [KeyError] prints the [repr] of its key. *)
Definition exc_str (e : PyExc) : string :=
  match e with
  | KeyError k => "'" +:+ k +:+ "'"
  | ValueError m | TypeError m | IndexError m
  | RequestError m | JSONDecodeError m | OverflowError m => m
  | FileNotFoundError p => "[Errno 2] No such file or directory: '" +:+ p +:+ "'"
  end.

(** ** The state-and-exception monad

    [PyM S A] is a Python computation over a mutable state [S]: it returns
    a value or raises, and in both cases the state it leaves is what the
    code had mutated so far. *)
Definition PyM (S A : Type) : Type := S -> (PyExc + A) * S.

#[export] Instance PyM_ret {S} : MRet (PyM S) := fun A x s => (inr x, s).
#[export] Instance PyM_bind {S} : MBind (PyM S) :=
  fun A B f m s =>
    match m s with
    | (inl e, s') => (inl e, s')
    | (inr x, s') => f x s'
    end.

Definition py_raise {S A} (e : PyExc) : PyM S A := fun s => (inl e, s).
Definition py_get {S} : PyM S S := fun s => (inr s, s).
Definition py_put {S} (s : S) : PyM S unit := fun _ => (inr tt, s).
Definition py_modify {S} (f : S -> S) : PyM S unit := fun s => (inr tt, f s).
(** Lift a function with a Python-level error into the monad. *)
Definition py_lift {S A} (r : PyExc + A) : PyM S A := fun s => (r, s).

(** [try: m except Exception as e: h e] *)
Definition py_catch {S A} (m : PyM S A) (h : PyExc -> PyM S A) : PyM S A :=
  fun s => match m s with
           | (inl e, s') => h e s'
           | (inr x, s') => (inr x, s')
           end.

(** [try: m finally: cleanup]: the cleanup runs whether [m] returns or
    raises; an exception of the cleanup replaces [m]'s outcome. *)
Definition py_finally {S A} (m : PyM S A) (cleanup : PyM S unit) : PyM S A :=
  fun s => let '(r, s') := m s in
           match cleanup s' with
           | (inl e, s'') => (inl e, s'')
           | (inr _, s'') => (r, s'')
           end.

Declare Scope py_scope.
Delimit Scope py_scope with py.
Notation "'raise!' e" := (py_raise e) (at level 10, e at next level) : py_scope.
Notation "'try!' m 'except' h" := (py_catch m h) (at level 10, m at level 100, h at level 200) : py_scope.
Open Scope py_scope.

(** Running a computation: its result and its final state. *)
Definition run {S A} (m : PyM S A) (s : S) : (PyExc + A) * S := m s.

Lemma run_ret {S A} (x : A) (s : S) : run (mret x) s = (inr x, s).
Proof. reflexivity. Qed.

Lemma run_bind {S A B} (m : PyM S A) (f : A -> PyM S B) (s : S) :
  run (m ≫= f) s =
  match run m s with
  | (inl e, s') => (inl e, s')
  | (inr x, s') => run (f x) s'
  end.
Proof. reflexivity. Qed.

Lemma run_raise {S A} (e : PyExc) (s : S) : run (raise! e : PyM S A) s = (inl e, s).
Proof. reflexivity. Qed.

Lemma run_lift {S A} (r : PyExc + A) (s : S) : run (py_lift r) s = (r, s).
Proof. reflexivity. Qed.

Lemma run_modify {S} (f : S -> S) (s : S) : run (py_modify f) s = (inr tt, f s).
Proof. reflexivity. Qed.

Lemma run_get {S} (s : S) : run py_get s = (inr s, s).
Proof. reflexivity. Qed.

Lemma run_finally {S A} (m : PyM S A) (c : PyM S unit) (s : S) :
  run (py_finally m c) s =
  match run m s with
  | (r, s') => match run c s' with (inl e, s'') => (inl e, s'') | (inr _, s'') => (r, s'') end
  end.
Proof. reflexivity. Qed.

Lemma bind_ret_l {S A B} (x : A) (f : A -> PyM S B) : (mret x ≫= f) = f x.
Proof. reflexivity. Qed.

Lemma bind_assoc {S A B C} (m : PyM S A) (f : A -> PyM S B) (g : B -> PyM S C) s :
  run ((m ≫= f) ≫= g) s = run (m ≫= (fun x => f x ≫= g)) s.
Proof. unfold run, mbind, PyM_bind. destruct (m s) as [[e|x] s']; reflexivity. Qed.

(** A computation [m] returns [x] from [s] and ends in [s']. *)
Definition returns {S A} (m : PyM S A) (s : S) (x : A) (s' : S) : Prop :=
  run m s = (inr x, s').

(** [m] never raises from [s]. *)
Definition no_raise {S A} (m : PyM S A) (s : S) : Prop :=
  exists x s', returns m s x s'.

Lemma returns_det {S A} (m : PyM S A) s x1 s1 x2 s2 :
  returns m s x1 s1 -> returns m s x2 s2 -> x1 = x2 /\ s1 = s2.
Proof. unfold returns. intros -> [= -> ->]. auto. Qed.

(** A [for] loop collecting one result per element, in order. *)
Fixpoint py_mapM {S A B} (f : A -> PyM S B) (l : list A) : PyM S (list B) :=
  match l with
  | [] => mret []
  | x :: l' => y ← f x; ys ← py_mapM f l'; mret (y :: ys)
  end.

(** If every call returns a result related to its argument, the loop
    returns, with results related pointwise. *)
Lemma py_mapM_ok {S A B} (f : A -> PyM S B) (P : A -> B -> Prop) (l : list A) (s : S) :
  (forall x s0, In x l -> exists y s1, run (f x) s0 = (inr y, s1) /\ P x y) ->
  exists ys s', run (py_mapM f l) s = (inr ys, s') /\ Forall2 P l ys.
Proof.
  revert s; induction l as [|x l IH]; intros s Hf.
  - exists [], s. split; [reflexivity|constructor].
  - destruct (Hf x s (or_introl eq_refl)) as (y & s1 & E1 & P1).
    destruct (IH s1 (fun x' s0 H => Hf x' s0 (or_intror H))) as (ys & s' & E2 & P2).
    exists (y :: ys), s'. cbn [py_mapM]. rewrite run_bind, E1, run_bind, E2.
    split; [reflexivity|constructor; assumption].
Qed.

Lemma Forall2_map_eq {A B C} (g : B -> C) (h : A -> C) l ys :
  Forall2 (fun x y => g y = h x) l ys -> map g ys = map h l.
Proof. induction 1; cbn; congruence. Qed.

Lemma Forall2_r_Forall {A B} (P : A -> B -> Prop) (Q : B -> Prop) l ys :
  Forall2 P l ys -> (forall x y, P x y -> Q y) -> Forall Q ys.
Proof. induction 1; constructor; eauto. Qed.

(** Flattening a loop of loops, for the results' projections and facts. *)
Lemma Forall2_concat_map {A B C} (g : B -> C) (h : A -> list C) (Q : B -> Prop) l yss :
  Forall2 (fun x ys => map g ys = h x /\ Forall Q ys) l yss ->
  map g (List.concat yss) = List.concat (map h l) /\ Forall Q (List.concat yss).
Proof.
  induction 1 as [|x ys l yss [Hm Hq] _ [IH1 IH2]]; cbn; [split; constructor|].
  rewrite map_app, Hm, IH1. split; [reflexivity|]. apply Forall_app; split; assumption.
Qed.

(** ** Lenses: running a component on a part of the state *)
Record Lens (W G : Type) := { view : W -> G; update : G -> W -> W }.
Arguments view {W G} _ _.
Arguments update {W G} _ _ _.

Definition zoom {W G A} (l : Lens W G) (m : PyM G A) : PyM W A :=
  fun w => let '(r, g) := m (view l w) in (r, update l g w).

Lemma run_zoom {W G A} (l : Lens W G) (m : PyM G A) (w : W) :
  run (zoom l m) w = (fst (run m (view l w)), update l (snd (run m (view l w))) w).
Proof. unfold run, zoom. destruct (m (view l w)); reflexivity. Qed.

(** ** Python truthiness and [x or y] on strings *)
Definition str_truthy (s : string) : bool :=
  match s with EmptyString => false | _ => true end.

(** [a or b] for strings: [a] when it is non-empty, else [b]. *)
Definition str_or (a b : string) : string := if str_truthy a then a else b.

Lemma str_or_nonempty a b : b <> "" -> str_or a b <> "".
Proof. destruct a; cbn; congruence. Qed.

(** ** Automation *)
Create HintDb pym.
Create Rewrite HintDb pym.
#[export] Hint Rewrite @run_ret @run_bind @run_raise @run_lift @run_modify
  @run_get @run_zoom @run_finally : pym.

(** Unfold one step of a monadic run: rewrite with the [run] equations
    and reduce the matches that became concrete. *)
Ltac pym_simpl := repeat (autorewrite with pym; cbn [fst snd]).

(** Case on a [match run m s with ...] in the goal, keeping the equation. *)
Ltac case_run :=
  match goal with
  | |- context [match run ?m ?s with _ => _ end] =>
      let E := fresh "Erun" in destruct (run m s) as [[? | ?] ?] eqn:E
  end.

(** Shared list facts. *)
Lemma existsb_In_true {A} (f : A -> bool) (l : list A) x :
  In x l -> f x = true -> existsb f l = true.
Proof. intros Hin Hf. apply existsb_exists. eauto. Qed.

#[export] Hint Resolve existsb_In_true : pym.

(** ** Rearranging [for] loops *)

Lemma py_mapM_ext {S A B} (f g : A -> PyM S B) l s :
  (forall x s0, In x l -> run (f x) s0 = run (g x) s0) -> run (py_mapM f l) s = run (py_mapM g l) s.
Proof.
  revert s; induction l as [|x l IH]; intros s Hfg; [reflexivity|].
  cbn [py_mapM]. rewrite !run_bind, (Hfg x s (or_introl eq_refl)).
  case_run; [reflexivity|]. rewrite !run_bind, IH by (intros; apply Hfg; right; assumption). reflexivity.
Qed.

Lemma py_mapM_map {S A B C} (f : B -> PyM S C) (h : A -> B) l s :
  run (py_mapM f (map h l)) s = run (py_mapM (fun x => f (h x)) l) s.
Proof.
  revert s; induction l as [|x l IH]; intros s; cbn [py_mapM map]; [reflexivity|].
  rewrite !run_bind. case_run; [reflexivity|]. rewrite !run_bind, IH. reflexivity.
Qed.

(** A loop over [l1 ++ l2] is the loop over [l1], then the loop over [l2]. *)
Lemma py_mapM_app {S A B} (f : A -> PyM S B) l1 l2 s :
  run (py_mapM f (l1 ++ l2)) s = run (xs ← py_mapM f l1; ys ← py_mapM f l2; mret (xs ++ ys)) s.
Proof.
  revert s; induction l1 as [|x l1 IH]; intros s; cbn [py_mapM app]; pym_simpl.
  - case_run; reflexivity.
  - case_run; [reflexivity|]. pym_simpl. rewrite IH. pym_simpl.
    case_run; [reflexivity|]. pym_simpl. case_run; reflexivity.
Qed.

(** Nested loops whose results are flattened are one loop over the
    flattened list. *)
Lemma py_mapM_concat {S A B C} (g : A -> list C) (f : C -> PyM S B) l s :
  run (rss ← py_mapM (fun x => py_mapM f (g x)) l; mret (List.concat rss)) s =
  run (py_mapM f (List.concat (map g l))) s.
Proof.
  revert s; induction l as [|x l IH]; intros s; cbn [py_mapM map List.concat]; pym_simpl; [reflexivity|].
  rewrite py_mapM_app. pym_simpl. case_run; [reflexivity|]. pym_simpl.
  rewrite <- IH. pym_simpl. case_run; reflexivity.
Qed.
