(* ===== verification/PyStr.v ===== *)
(** * Python's [str] methods used by the two scripts

    ASCII models of [str.lower], [str.strip], [str.title], the [in]
    operator, [str.replace], [str(int)] and [int(str)], with the lemmas the
    components use: decimal printing and parsing are inverse, printed
    lengths, and the specification of [in]. Bytes outside ASCII are left
    alone by the case and space functions, as Python leaves non-letters. *)

From S2P Require Import Prelude.

Local Open Scope Z_scope.

(** ** Character classes (ASCII) *)
Definition code (c : ascii) : Z := Z.of_N (N_of_ascii c).

Definition is_upper (c : ascii) : bool := (65 <=? code c) && (code c <=? 90).
Definition is_lower (c : ascii) : bool := (97 <=? code c) && (code c <=? 122).
Definition is_alpha (c : ascii) : bool := is_upper c || is_lower c.
Definition is_digit (c : ascii) : bool := (48 <=? code c) && (code c <=? 57).

(** [str.isspace] on ASCII: \t \n \v \f \r, the separators \x1c-\x1f, space. *)
Definition is_space (c : ascii) : bool :=
  ((9 <=? code c) && (code c <=? 13)) || ((28 <=? code c) && (code c <=? 32)).

Definition char_of_code (n : Z) : ascii := ascii_of_N (Z.to_N n).

Definition to_lower (c : ascii) : ascii :=
  if is_upper c then char_of_code (code c + 32) else c.
Definition to_upper (c : ascii) : ascii :=
  if is_lower c then char_of_code (code c - 32) else c.

(** ** [str.lower], [str.strip], [str.title] *)
Fixpoint lower (s : string) : string :=
  match s with
  | EmptyString => EmptyString
  | String c r => String (to_lower c) (lower r)
  end.

Fixpoint lstrip (s : string) : string :=
  match s with
  | EmptyString => EmptyString
  | String c r => if is_space c then lstrip r else s
  end.

Fixpoint rstrip (s : string) : string :=
  match s with
  | EmptyString => EmptyString
  | String c r =>
      let r' := rstrip r in
      if is_space c && negb (str_truthy r') then EmptyString else String c r'
  end.

Definition strip (s : string) : string := rstrip (lstrip s).

(** [str.title]: a letter is upper-cased when the character before it is not
    cased, lower-cased otherwise (CPython's [do_title]). *)
Fixpoint title_from (prev_cased : bool) (s : string) : string :=
  match s with
  | EmptyString => EmptyString
  | String c r =>
      String (if prev_cased then to_lower c else to_upper c) (title_from (is_alpha c) r)
  end.

Definition title (s : string) : string := title_from false s.

(** ** [sub in s], [str.startswith] *)
Fixpoint startswith (s p : string) {struct p} : bool :=
  match p, s with
  | EmptyString, _ => true
  | String c p', String d s' => Ascii.eqb c d && startswith s' p'
  | String _ _, EmptyString => false
  end.

(** [contains sub s] is Python's [sub in s]. *)
Fixpoint contains (sub s : string) : bool :=
  startswith s sub ||
  match s with
  | EmptyString => false
  | String _ r => contains sub r
  end.

Fixpoint str_drop (n : nat) (s : string) : string :=
  match n, s with
  | O, _ => s
  | S n', String _ r => str_drop n' r
  | S _, EmptyString => EmptyString
  end.

(** ** [str.replace(old, new)]

    Left to right, non-overlapping. With a non-empty [old] each step
    consumes at least one character, so [length s] steps suffice; with an
    empty [old] Python inserts [new] around every character. *)
Fixpoint replace_from (fuel : nat) (old new s : string) : string :=
  match fuel with
  | O => s
  | S f =>
      match s with
      | EmptyString => EmptyString
      | String c r =>
          if startswith s old
          then new +:+ replace_from f old new (str_drop (length old) s)
          else String c (replace_from f old new r)
      end
  end.

Fixpoint replace_empty (new s : string) : string :=
  match s with
  | EmptyString => new
  | String c r => new +:+ String c (replace_empty new r)
  end.

Definition replace (s old new : string) : string :=
  if str_truthy old then replace_from (length s) old new s else replace_empty new s.

(** ** [str(n)] for an int *)
Definition digit_char (d : Z) : ascii := char_of_code (48 + d).
Definition digit_val (c : ascii) : Z := code c - 48.

(** Digits of [n > 0], most significant first, prepended to [acc]; [fuel]
    bounds the number of digits. *)
Fixpoint digits_from (fuel : nat) (n : Z) (acc : string) : string :=
  match fuel with
  | O => acc
  | S f =>
      if n <=? 0 then acc
      else digits_from f (n / 10) (String (digit_char (n mod 10)) acc)
  end.

(** Enough fuel: [n < 2 ^ (log2 n + 1) <= 10 ^ (log2 n + 1)]. *)
Definition digit_fuel (n : Z) : nat := S (Z.to_nat (Z.log2 n)).

Definition str_of_pos (n : Z) : string := digits_from (digit_fuel n) n EmptyString.

Definition str_of_Z (z : Z) : string :=
  if z =? 0 then "0"
  else if z <? 0 then "-" +:+ str_of_pos (- z)
  else str_of_pos z.

(** ** [int(s)] for a string

    Surrounding whitespace, an optional sign, then decimal digits with
    single underscores allowed between digits. [None] is the [ValueError]. *)
Fixpoint scan_digits (s : string) (acc : Z) (prev_digit : bool) : option Z :=
  match s with
  | EmptyString => if prev_digit then Some acc else None
  | String c r =>
      if is_digit c then scan_digits r (10 * acc + digit_val c) true
      else if Ascii.eqb c "_" && prev_digit then scan_digits r acc false
      else None
  end.

Definition py_int (s : string) : option Z :=
  match strip s with
  | String "-" r => option_map Z.opp (scan_digits r 0 false)
  | String "+" r => scan_digits r 0 false
  | t => scan_digits t 0 false
  end.

(** [all_chars f s]: every character of [s] satisfies [f]. *)
Fixpoint all_chars (f : ascii -> bool) (s : string) : bool :=
  match s with
  | EmptyString => true
  | String c r => f c && all_chars f r
  end.

(** ** Lemmas *)

Lemma code_range c : 0 <= code c < 256.
Proof.
  unfold code. pose proof (N_ascii_bounded c). lia.
Qed.

Lemma code_char_of_code n : 0 <= n < 256 -> code (char_of_code n) = n.
Proof.
  intros H. unfold code, char_of_code. rewrite N_ascii_embedding; lia.
Qed.

Lemma digit_val_char d : 0 <= d < 10 -> digit_val (digit_char d) = d.
Proof. intros H. unfold digit_val, digit_char. rewrite code_char_of_code; lia. Qed.

Lemma is_digit_char d : 0 <= d < 10 -> is_digit (digit_char d) = true.
Proof.
  intros H. unfold is_digit, digit_char. rewrite code_char_of_code by lia.
  apply andb_true_iff; split; apply Z.leb_le; lia.
Qed.

#[export] Hint Rewrite digit_val_char is_digit_char using lia : pym.

Lemma string_app_assoc (a b c : string) : (a +:+ b) +:+ c = a +:+ (b +:+ c).
Proof. induction a; cbn; congruence. Qed.

Lemma string_app_nil_r (a : string) : a +:+ "" = a.
Proof. induction a; cbn; congruence. Qed.

Lemma length_string_app (a b : string) : String.length (a +:+ b) = (String.length a + String.length b)%nat.
Proof. induction a; cbn; congruence. Qed.

(** Digits are produced in front of the accumulator. *)
Lemma digits_from_app f n acc : digits_from f n acc = digits_from f n "" +:+ acc.
Proof.
  revert n acc; induction f as [|f IH]; intros n acc; cbn; [reflexivity|].
  destruct (n <=? 0); [reflexivity|].
  rewrite IH, (IH _ (String _ "")). rewrite string_app_assoc. reflexivity.
Qed.

Lemma all_chars_app f a b : all_chars f (a +:+ b) = all_chars f a && all_chars f b.
Proof. induction a; cbn; [reflexivity|]. rewrite IHa, andb_assoc. reflexivity. Qed.

Lemma digits_from_all_digits f n : all_chars is_digit (digits_from f n "") = true.
Proof.
  revert n; induction f as [|f IH]; intros n; cbn; [reflexivity|].
  destruct (n <=? 0); [reflexivity|].
  rewrite digits_from_app, all_chars_app, IH. cbn.
  rewrite is_digit_char by (pose proof (Z.mod_pos_bound n 10); lia). reflexivity.
Qed.

(** Decimal value of a digit string read after [a]. *)
Fixpoint dec_value (s : string) (a : Z) : Z :=
  match s with
  | EmptyString => a
  | String c r => dec_value r (10 * a + digit_val c)
  end.

Lemma dec_value_app s t a : dec_value (s +:+ t) a = dec_value t (dec_value s a).
Proof. revert a; induction s as [|c s IH]; intros a; cbn; auto. Qed.

(** With enough fuel, the digits of [n] read back as [n] and there are
    [k] of them when [10^(k-1) <= n < 10^k]. *)
Lemma digits_from_value f n a :
  0 <= n < 10 ^ Z.of_nat f ->
  dec_value (digits_from f n "") a = a * 10 ^ Z.of_nat (String.length (digits_from f n "")) + n.
Proof.
  revert n a; induction f as [|f IH]; intros n a Hn.
  - cbn in *. lia.
  - cbn -[Z.pow]. destruct (Z.leb_spec n 0).
    + cbn. lia.
    + rewrite digits_from_app, dec_value_app, length_string_app, IH.
      2: { rewrite Nat2Z.inj_succ, Z.pow_succ_r in Hn by lia.
           split; [apply Z.div_pos|apply Z.div_lt_upper_bound]; lia. }
      cbn -[Z.pow]. pose proof (Z.mod_pos_bound n 10).
      rewrite digit_val_char by lia.
      rewrite Nat.add_1_r, Nat2Z.inj_succ, Z.pow_succ_r by lia.
      pose proof (Z.div_mod n 10). lia.
Qed.

Lemma digits_from_length f n k :
  0 <= n < 10 ^ Z.of_nat f -> 10 ^ Z.of_nat k <= n < 10 ^ Z.of_nat (S k) ->
  String.length (digits_from f n "") = S k.
Proof.
  revert n k; induction f as [|f IH]; intros n k Hn Hk.
  - cbn in Hn. pose proof (Z.pow_pos_nonneg 10 (Z.of_nat k)). lia.
  - cbn -[Z.pow]. pose proof (Z.pow_pos_nonneg 10 (Z.of_nat k)).
    destruct (Z.leb_spec n 0); [lia|].
    rewrite digits_from_app, length_string_app. cbn -[Z.pow].
    rewrite Nat2Z.inj_succ, Z.pow_succ_r in Hn, Hk by lia.
    destruct k as [|k].
    + replace (n / 10) with 0 by (symmetry; apply Z.div_small; lia).
      destruct f; reflexivity.
    + rewrite (IH _ k); [lia| |].
      * split; [apply Z.div_pos|apply Z.div_lt_upper_bound]; lia.
      * rewrite Nat2Z.inj_succ, Z.pow_succ_r in Hk |- * by lia.
        split; [apply Z.div_le_lower_bound|apply Z.div_lt_upper_bound]; lia.
Qed.

Lemma digit_fuel_enough n : 0 < n -> n < 10 ^ Z.of_nat (digit_fuel n).
Proof.
  intros Hn. unfold digit_fuel. pose proof (Z.log2_spec n Hn) as [_ H].
  pose proof (Z.log2_nonneg n).
  rewrite Nat2Z.inj_succ, Z2Nat.id by lia.
  eapply Z.lt_le_trans; [exact H|]. apply Z.pow_le_mono_l. lia.
Qed.

Lemma str_of_pos_value n a : 0 < n ->
  dec_value (str_of_pos n) a = a * 10 ^ Z.of_nat (String.length (str_of_pos n)) + n.
Proof. intros Hn. apply digits_from_value. pose proof (digit_fuel_enough n Hn). lia. Qed.

Lemma str_of_pos_digits n : all_chars is_digit (str_of_pos n) = true.
Proof. apply digits_from_all_digits. Qed.

Lemma str_of_pos_nonempty n : 0 < n -> str_of_pos n <> "".
Proof.
  intros Hn. unfold str_of_pos, digit_fuel. cbn -[Z.pow].
  destruct (Z.leb_spec n 0); [lia|]. rewrite digits_from_app.
  destruct (digits_from _ _ _); discriminate.
Qed.

(** Scanning a non-empty digit string yields its decimal value. *)
Lemma scan_digits_all s a p :
  all_chars is_digit s = true -> s <> "" -> scan_digits s a p = Some (dec_value s a).
Proof.
  revert a p; induction s as [|c r IH]; intros a p Hd Hne; [congruence|].
  cbn in Hd |- *. apply andb_true_iff in Hd as [Hc Hr]. rewrite Hc.
  destruct r as [|c' r']; [reflexivity|]. apply IH; [exact Hr|discriminate].
Qed.

Lemma strip_no_space s : all_chars (fun c => negb (is_space c)) s = true -> strip s = s.
Proof.
  intros H. unfold strip.
  assert (Hl : lstrip s = s).
  { destruct s as [|c r]; cbn in *; [reflexivity|].
    apply andb_true_iff in H as [Hc _]. destruct (is_space c); easy. }
  rewrite Hl. clear Hl. induction s as [|c r IH]; cbn in *; [reflexivity|].
  apply andb_true_iff in H as [Hc Hr]. rewrite (IH Hr).
  destruct (is_space c); easy.
Qed.

Lemma all_chars_impl (f g : ascii -> bool) s :
  (forall c, f c = true -> g c = true) -> all_chars f s = true -> all_chars g s = true.
Proof.
  intros Hfg. induction s; cbn; [done|].
  rewrite !andb_true_iff. intros [? ?]; split; auto.
Qed.

Lemma digit_not_space c : is_digit c = true -> negb (is_space c) = true.
Proof.
  unfold is_digit, is_space. rewrite andb_true_iff, !Z.leb_le. intros H.
  apply negb_true_iff, orb_false_iff; split; apply andb_false_iff;
    right; apply Z.leb_gt; lia.
Qed.

Lemma str_of_Z_nonneg_no_space n : 0 <= n ->
  all_chars (fun c => negb (is_space c)) (str_of_Z n) = true.
Proof.
  intros Hn. unfold str_of_Z. destruct (Z.eqb_spec n 0); [reflexivity|].
  destruct (Z.ltb_spec n 0); [lia|].
  eapply all_chars_impl; [apply digit_not_space|apply str_of_pos_digits].
Qed.

(** Round trip: [int(str(n)) == n] for [n >= 0]. *)
Lemma py_int_str_of_nonneg n : 0 <= n -> py_int (str_of_Z n) = Some n.
Proof.
  intros Hn. unfold py_int. rewrite strip_no_space by (apply str_of_Z_nonneg_no_space; lia).
  unfold str_of_Z. destruct (Z.eqb_spec n 0) as [->|]; [reflexivity|].
  destruct (Z.ltb_spec n 0); [lia|].
  pose proof (str_of_pos_digits n) as Hd.
  pose proof (str_of_pos_nonempty n ltac:(lia)) as Hne.
  destruct (str_of_pos n) as [|c r] eqn:E; [congruence|].
  assert (Hc : is_digit c = true) by (cbn in Hd; apply andb_true_iff in Hd; tauto).
  assert (Hval : scan_digits (String c r) 0 false = Some n).
  { rewrite scan_digits_all by (congruence || exact Hd).
    rewrite <- E, str_of_pos_value by lia. f_equal; lia. }
  destruct (Ascii.eqb_spec c "-") as [->|]; [discriminate|].
  destruct (Ascii.eqb_spec c "+") as [->|]; [discriminate|].
  destruct c as [[] [] [] [] [] [] [] []]; try exact Hval; congruence.
Qed.

(** [str(n)] of an [n] with [k+1] decimal digits has length [k+1], and is
    made of digits. *)
Lemma str_of_Z_length n k :
  10 ^ Z.of_nat k <= n < 10 ^ Z.of_nat (S k) ->
  String.length (str_of_Z n) = S k /\ all_chars is_digit (str_of_Z n) = true.
Proof.
  intros Hk. pose proof (Z.pow_pos_nonneg 10 (Z.of_nat k)).
  unfold str_of_Z. destruct (Z.eqb_spec n 0); [lia|]. destruct (Z.ltb_spec n 0); [lia|].
  split; [|apply str_of_pos_digits].
  apply digits_from_length; [|exact Hk]. pose proof (digit_fuel_enough n). lia.
Qed.

(** Round trip of the price text: for every integer [n], Python's
    [int(str(n))] gives back [n] (negative numbers included). *)
Theorem py_int_str_of_Z n : py_int (str_of_Z n) = Some n.
Proof.
  destruct (Z.leb_spec 0 n) as [Hn|Hn]; [apply py_int_str_of_nonneg, Hn|].
  unfold py_int, str_of_Z. destruct (Z.eqb_spec n 0); [lia|]. destruct (Z.ltb_spec n 0); [|lia].
  rewrite strip_no_space.
  - cbn [String.append]. pose proof (str_of_pos_digits (- n)) as Hd.
    pose proof (str_of_pos_nonempty (- n) ltac:(lia)) as Hne.
    rewrite scan_digits_all by assumption. cbn [option_map].
    rewrite str_of_pos_value by lia. f_equal. lia.
  - cbn. apply andb_true_iff. split; [reflexivity|].
    eapply all_chars_impl; [apply digit_not_space|apply str_of_pos_digits].
Qed.

(** [sub in s] holds exactly when [s] splits around [sub]. *)
Lemma startswith_spec s p : startswith s p = true <-> exists r, s = p +:+ r.
Proof.
  revert s; induction p as [|c p IH]; intros s; cbn.
  - split; [intros _; exists s; reflexivity|reflexivity].
  - destruct s as [|d s].
    + split; [discriminate|]. intros [r Hr]; discriminate.
    + rewrite andb_true_iff, IH. split.
      * intros [Hcd [r ->]]. apply Ascii.eqb_eq in Hcd as ->. eauto.
      * intros [r Hr]. injection Hr as -> ->. rewrite Ascii.eqb_refl. eauto.
Qed.

Theorem contains_spec sub s :
  contains sub s = true <-> exists pre post, s = pre +:+ sub +:+ post.
Proof.
  induction s as [|c r IH]; cbn; rewrite orb_true_iff, startswith_spec.
  - split.
    + intros [[post Hp]|]; [|discriminate]. exists "", post. exact Hp.
    + intros [[|] [post Hp]]; [left; eauto|discriminate].
  - rewrite IH. split.
    + intros [[post Hp]|[pre [post ->]]].
      * exists "", post. exact Hp.
      * exists (String c pre), post. reflexivity.
    + intros [[|d pre] [post Hp]]; [left; eauto|].
      injection Hp as -> ->. right. eauto.
Qed.

Lemma contains_app_r sub pre s : contains sub s = true -> contains sub (pre +:+ s) = true.
Proof.
  rewrite !contains_spec. intros [p [q ->]]. exists (pre +:+ p), q.
  rewrite string_app_assoc. reflexivity.
Qed.

(** ** Equations of [replace] with a non-empty [old] *)
Lemma length_str_drop n s : String.length (str_drop n s) = (String.length s - n)%nat.
Proof. revert s; induction n; intros [|c s]; cbn; auto; lia. Qed.

Lemma replace_from_fuel f1 f2 old new s :
  old <> "" -> (String.length s <= f1)%nat -> (String.length s <= f2)%nat ->
  replace_from f1 old new s = replace_from f2 old new s.
Proof.
  intros Hold. revert f2 s; induction f1 as [|f1 IH]; intros f2 s H1 H2.
  - destruct s; cbn in *; [destruct f2; reflexivity|lia].
  - destruct f2 as [|f2]; [destruct s; cbn in *; [reflexivity|lia]|].
    destruct s as [|c r]; cbn; [reflexivity|].
    destruct (startswith (String c r) old).
    + f_equal. apply IH; rewrite length_str_drop; destruct old; cbn in *; try congruence; lia.
    + f_equal. apply IH; cbn in *; lia.
Qed.

Lemma replace_cons_match old new s :
  old <> "" -> startswith s old = true -> s <> "" ->
  replace s old new = new +:+ replace (str_drop (String.length old) s) old new.
Proof.
  intros Hold Hs Hne. unfold replace.
  destruct old as [|o old']; [congruence|]. cbn [str_truthy].
  destruct s as [|c r]; [congruence|]. cbn [String.length replace_from]. rewrite Hs.
  f_equal. apply replace_from_fuel; [discriminate| |reflexivity].
  rewrite length_str_drop. cbn. lia.
Qed.

Lemma replace_cons_nomatch old new c r :
  old <> "" -> startswith (String c r) old = false ->
  replace (String c r) old new = String c (replace r old new).
Proof.
  intros Hold Hs. unfold replace. destruct old as [|o old']; [congruence|].
  cbn [str_truthy String.length replace_from]. rewrite Hs. reflexivity.
Qed.

(** [replace] leaves a string alone when the first character of [old]
    does not occur in it. *)
Lemma replace_absent old new o old' s :
  old = String o old' -> all_chars (fun c => negb (Ascii.eqb c o)) s = true ->
  replace s old new = s.
Proof.
  intros -> H. induction s as [|c r IH]; [reflexivity|].
  cbn in H. apply andb_true_iff in H as [Hc Hr].
  assert (Hs : startswith (String c r) (String o old') = false).
  { cbn. destruct (Ascii.eqb_spec o c) as [->|]; [|reflexivity].
    rewrite Ascii.eqb_refl in Hc. discriminate. }
  rewrite replace_cons_nomatch, IH by (discriminate || assumption). reflexivity.
Qed.

Lemma str_of_Z_digits n : 0 <= n -> all_chars is_digit (str_of_Z n) = true.
Proof.
  intros Hn. unfold str_of_Z. destruct (Z.eqb_spec n 0); [reflexivity|].
  destruct (Z.ltb_spec n 0); [lia|apply str_of_pos_digits].
Qed.

(** Removing a string that starts with a non-digit from a digit string. *)
Lemma replace_digits old new o old' s :
  old = String o old' -> is_digit o = false -> all_chars is_digit s = true ->
  replace s old new = s.
Proof.
  intros Ho Hd Hs. eapply replace_absent; [exact Ho|].
  eapply all_chars_impl; [|exact Hs]. intros c Hc.
  destruct (Ascii.eqb_spec c o) as [->|]; [congruence|reflexivity].
Qed.

Lemma lower_app a b : lower (a +:+ b) = lower a +:+ lower b.
Proof. induction a; cbn; congruence. Qed.
