(* ===== verification/PyRandom.v ===== *)
(** * Python's [random] module as an interface

    The scripts draw from [random.randint], [random.choice] and
    [random.uniform]; [random.py] builds all three on two primitives of the
    generator: [_randbelow(n)], uniform in [[0, n)], and [random()], which
    CPython computes as [k / 2^53] for a 53-bit draw [k]. The class
    [PyRandom] states these primitives and their range laws; every theorem
    of the development is proved against the class, so it holds for every
    outcome of the real generator. [Tape] is an instance that replays a
    list of draws, used to evaluate the model on chosen outcomes. *)

From S2P Require Import Prelude PyStr.
From Stdlib Require Import QArith.

Local Open Scope Z_scope.

Class PyRandom (G : Type) := {
  randbelow_draw : Z -> G -> Z * G;
  random_draw : G -> Z * G;
  randbelow_range : forall n g, 0 < n -> 0 <= fst (randbelow_draw n g) < n;
  random_range : forall g, 0 <= fst (random_draw g) < 2 ^ 53
}.

Section Random.
  Context {G : Type} `{PyRandom G}.

  (** [self._randbelow(n)] *)
Definition _randbelow (n : Z) : PyM G Z :=
    fun g => let '(x, g') := randbelow_draw n g in (inr x, g').

  (** The 53-bit integer [k] behind [self.random() == k / 2**53]. *)
Definition random_bits : PyM G Z :=
    fun g => let '(k, g') := random_draw g in (inr k, g').

  (** [randrange(start, stop)] with step 1. *)
Definition randrange (start stop : Z) : PyM G Z :=
    let width := stop - start in
    if 0 <? width then x ← _randbelow width; mret (start + x)
    else raise! (ValueError ("empty range in randrange(" +:+ str_of_Z start +:+ ", "
                              +:+ str_of_Z stop +:+ ")")).

  (** [randint(a, b) = randrange(a, b + 1)] *)
Definition randint (a b : Z) : PyM G Z := randrange a (b + 1).

  (** [choice(seq)] *)
Definition choice {A} (seq : list A) : PyM G A :=
    match seq with
    | [] => raise! (IndexError "Cannot choose from an empty sequence")
    | _ =>
        i ← _randbelow (Z.of_nat (List.length seq));
        match nth_error seq (Z.to_nat i) with
        | Some x => mret x
        | None => raise! (IndexError "list index out of range")
        end
    end.

  (** [uniform(a, b) = a + (b - a) * random()], on the rationals. *)
Definition uniform (a b : Q) : PyM G Q :=
    k ← random_bits; mret (a + (b - a) * (inject_Z k / inject_Z (2 ^ 53)))%Q.

  (** ** Specifications *)

Lemma randint_ok a b g : a <= b ->
    exists x g', run (randint a b) g = (inr x, g') /\ a <= x <= b.
  Proof.
    intros Hab. unfold randint, randrange.
    destruct (Z.ltb_spec 0 (b + 1 - a)); [|lia].
    pose proof (randbelow_range (b + 1 - a) g ltac:(lia)) as Hr.
    unfold run, mbind, PyM_bind, _randbelow.
    destruct (randbelow_draw (b + 1 - a) g) as [x g'].
    exists (a + x), g'. cbn in *. split; [reflexivity|lia].
  Qed.

Lemma randint_empty a b g : b < a ->
    run (randint a b) g =
      (inl (ValueError ("empty range in randrange(" +:+ str_of_Z a +:+ ", "
                        +:+ str_of_Z (b + 1) +:+ ")")), g).
  Proof.
    intros Hab. unfold randint, randrange.
    destruct (Z.ltb_spec 0 (b + 1 - a)); [lia|reflexivity].
  Qed.

Lemma choice_ok {A} (seq : list A) g : seq <> [] ->
    exists x g', run (choice seq) g = (inr x, g') /\ In x seq.
  Proof.
    intros Hne. destruct seq as [|y ys]; [congruence|].
    pose proof (randbelow_range (Z.of_nat (List.length (y :: ys))) g) as Hr.
    specialize (Hr ltac:(cbn; lia)).
    unfold choice, run, mbind, PyM_bind, _randbelow.
    destruct (randbelow_draw (Z.of_nat (List.length (y :: ys))) g) as [i g']. cbn in Hr.
    destruct (nth_error (y :: ys) (Z.to_nat i)) as [x|] eqn:Ex.
    - exists x, g'. split; [reflexivity|]. eapply nth_error_In; eauto.
    - apply nth_error_None in Ex. cbn in Ex. lia.
  Qed.

Lemma choice_nil {A} g :
    run (choice (@nil A)) g = (inl (IndexError "Cannot choose from an empty sequence"), g).
  Proof. reflexivity. Qed.

Lemma uniform_ok a b g : (a <= b)%Q ->
    exists u g', run (uniform a b) g = (inr u, g') /\ (a <= u)%Q /\ (u < b \/ a == b)%Q.
  Proof.
    intros Hab. unfold uniform, run, mbind, PyM_bind, random_bits.
    pose proof (random_range g) as Hk.
    destruct (random_draw g) as [k g']. cbn in Hk.
    eexists _, g'. split; [reflexivity|].
    assert (Hf : (0 <= inject_Z k / inject_Z (2 ^ 53) < 1)%Q).
    { split.
      - apply Qle_shift_div_l; [reflexivity|]. rewrite Qmult_0_l.
        change 0%Q with (inject_Z 0). rewrite <- Zle_Qle. lia.
      - apply Qlt_shift_div_r; [reflexivity|]. rewrite Qmult_1_l. rewrite <- Zlt_Qlt. lia. }
    destruct Hf as [Hf0 Hf1]. split.
    - rewrite <- (Qplus_0_r a) at 1. apply Qplus_le_r.
      apply Qmult_le_0_compat; [|exact Hf0]. rewrite <- (Qplus_opp_r a).
      apply Qplus_le_l. exact Hab.
    - destruct (Qeq_dec a b) as [Heq|Hne]; [right; exact Heq|left].
      assert (Hd : (0 < b - a)%Q).
      { apply Qle_lt_or_eq in Hab as [Hlt|Heq]; [|contradiction].
        apply Qlt_minus_iff in Hlt. exact Hlt. }
      apply Qlt_le_trans with (a + (b - a) * 1)%Q.
      + apply Qplus_lt_r. apply Qmult_lt_l; assumption.
      + apply Qle_lteq. right. ring.
  Qed.
End Random.

(** Run [randint] / [choice] inside a proof: replace the call by its
    result, introducing the range or membership fact. *)
Ltac rand_step :=
  lazymatch goal with
  | |- context [run (randint ?a ?b) ?g] =>
      let x := fresh "x" in let g' := fresh "g" in let Hx := fresh "Hx" in
      destruct (randint_ok a b g ltac:(lia)) as (x & g' & -> & Hx)
  | |- context [run (choice ?l) ?g] =>
      let x := fresh "x" in let g' := fresh "g" in let Hx := fresh "Hx" in
      destruct (choice_ok l g ltac:(discriminate)) as (x & g' & -> & Hx)
  end.

(** ** A replayable tape of draws

    [_randbelow(n)] returns the next draw modulo [n], [random()] the next
    draw modulo [2^53]; an exhausted tape returns 0. *)
Record Tape := mkTape { draws : list Z }.

Definition tape_next (m : Z) (t : Tape) : Z * Tape :=
  match draws t with
  | d :: r => (d mod m, mkTape r)
  | [] => (0, t)
  end.

Lemma tape_next_range m t : 0 < m -> 0 <= fst (tape_next m t) < m.
Proof.
  intros Hm. unfold tape_next. destruct (draws t); cbn; [lia|].
  apply Z.mod_pos_bound. exact Hm.
Qed.

#[export] Program Instance tape_random : PyRandom Tape := {
  randbelow_draw n t := tape_next n t;
  random_draw t := tape_next (2 ^ 53) t
}.
Next Obligation. apply tape_next_range. assumption. Qed.
Next Obligation. apply tape_next_range. lia. Qed.

(** ** A generator with a constant draw

    [_randbelow(n)] always returns [k mod n] and the state never changes:
    the outcome of the real generator in which every draw is [k]. It
    realises a chosen branch of a computation whatever the number of draws
    before it. *)
Record ConstGen := mkConst { const_draw : Z }.

#[export] Program Instance const_random : PyRandom ConstGen := {
  randbelow_draw n g := (const_draw g mod n, g);
  random_draw g := (const_draw g mod 2 ^ 53, g)
}.
Next Obligation. apply Z.mod_pos_bound. assumption. Qed.
Next Obligation. apply Z.mod_pos_bound. lia. Qed.

Lemma const_randint_ok a b k : a <= b ->
  exists x, run (randint a b) (mkConst k) = (inr x, mkConst k) /\ a <= x <= b.
Proof.
  intros Hab. destruct (randint_ok a b (mkConst k) Hab) as (x & g' & E & Hx).
  enough (g' = mkConst k) as -> by eauto.
  revert E. unfold randint, randrange. destruct (Z.ltb_spec 0 (b + 1 - a)); [|lia].
  intros [= _ <-]. reflexivity.
Qed.

Lemma const_choice_ok {A} (l : list A) k : l <> [] ->
  exists x, run (choice l) (mkConst k) = (inr x, mkConst k) /\ In x l.
Proof.
  intros Hl. destruct (choice_ok l (mkConst k) Hl) as (x & g' & E & Hx).
  enough (g' = mkConst k) as -> by eauto.
  revert E. destruct l as [|y l]; [congruence|].
  unfold choice, run, mbind, PyM_bind, _randbelow. cbn.
  destruct (nth_error _ _); intros [= _ <-]; reflexivity.
Qed.

(** [rand_step] for the constant generator: the state stays. *)
Ltac const_step :=
  lazymatch goal with
  | |- context [run (randint ?a ?b) (mkConst ?k)] =>
      let x := fresh "x" in let Hx := fresh "Hx" in
      destruct (const_randint_ok a b k ltac:(lia)) as (x & -> & Hx)
  | |- context [run (choice ?l) (mkConst ?k)] =>
      let x := fresh "x" in let Hx := fresh "Hx" in
      destruct (const_choice_ok l k ltac:(discriminate)) as (x & -> & Hx)
  end.

(** The constant draw [i] picks the [i]-th element. *)
Lemma const_choice_nth {A} (l : list A) i x :
  nth_error l i = Some x -> run (choice l) (mkConst (Z.of_nat i)) = (inr x, mkConst (Z.of_nat i)).
Proof.
  intros Hi. assert (Hlt : (i < List.length l)%nat) by (apply nth_error_Some; congruence).
  destruct l as [|y l]; [cbn in Hlt; lia|].
  unfold choice, run, mbind, PyM_bind, _randbelow. cbn [randbelow_draw const_random const_draw].
  rewrite Z.mod_small by lia. rewrite Nat2Z.id. cbn. rewrite Hi. reflexivity.
Qed.
