(* ===== verification/PhoneGen.v ===== *)
(** * The phone record generator of [main1.py]

    [PhoneInfo] is the dict both scripts build for a phone. Module [Main1]
    holds the [series_to_brand] table (main1.py lines 26-38) and the
    generator [get_mobile_info] (lines 40-67): it resolves the series as
    the first key, in table order, whose lower-cased name occurs in the
    lower-cased query (else a random key), derives the model from the
    title-cased query, and draws the years, condition, price and IMEI.

    Theorems: the generator never raises and always yields a record
    satisfying [wf_phone]; series resolution is deterministic and
    first-match; the model field is computed as the code computes it,
    which keeps the series name when title-casing changes its case. *)

From S2P Require Import Prelude PyStr PyRandom.

Local Open Scope Z_scope.

Record PhoneInfo := mkPhone {
  make : string;
  series : string;
  model : string;
  launch_year : Z;
  purchased_year : option Z;   (* present in main1.py's records only *)
  condition : string;
  price : string;
  imei_number : string
}.

Definition rupee : string := "₹".

(** [d[k]] on a dict given as its list of items, keys unique. *)
Fixpoint dict_getitem {V} (d : list (string * V)) (k : string) : PyExc + V :=
  match d with
  | [] => inl (KeyError k)
  | (k', v) :: d' => if String.eqb k' k then inr v else dict_getitem d' k
  end.

Lemma dict_getitem_In {V} (d : list (string * V)) k v :
  dict_getitem d k = inr v -> In (k, v) d.
Proof.
  induction d as [|[k' v'] d IH]; cbn; [discriminate|].
  destruct (String.eqb_spec k' k) as [->|]; [intros [= ->]; auto|auto].
Qed.

Lemma dict_getitem_key {V} (d : list (string * V)) k :
  In k (map fst d) -> exists v, dict_getitem d k = inr v.
Proof.
  induction d as [|[k' v'] d IH]; cbn; [tauto|].
  destruct (String.eqb_spec k' k); [eauto|]. intros [->|]; [congruence|auto].
Qed.

Module Main1.

Definition series_to_brand : list (string * string) :=
    [("iPhone", "Apple"); ("Galaxy S", "Samsung"); ("Galaxy Note", "Samsung");
     ("OnePlus", "OnePlus"); ("Redmi Note", "Xiaomi"); ("V", "Vivo");
     ("Realme", "Realme"); ("Oppo", "Oppo"); ("Motorola", "Motorola");
     ("Poco", "Poco"); ("Nothing", "Nothing")].

Definition series_keys : list string := map fst series_to_brand.

  (** The [for series in series_to_brand.keys(): if series.lower() in
      mobile_name: ... break] loop. *)
Fixpoint find_series (mobile_name : string) (keys : list string) : option string :=
    match keys with
    | [] => None
    | k :: ks => if contains (lower k) mobile_name then Some k else find_series mobile_name ks
    end.

Definition conditions : list string := ["New"; "Used"; "Refurbished"].

  Section Gen.
    Context {G : Type} `{PyRandom G}.

    (** Lines 42-48: the loop, then [if not series_found: random.choice]. *)
Definition resolve_series (mobile_name : string) : PyM G string :=
      match find_series mobile_name series_keys with
      | Some s => if str_truthy s then mret s else choice series_keys
      | None => choice series_keys
      end.

Definition get_mobile_info (mobile_name : string) : PyM G PhoneInfo :=
      let mobile_name := lower (strip mobile_name) in
      series_found ← resolve_series mobile_name;
      make ← py_lift (dict_getitem series_to_brand series_found);
      let model := str_or (strip (replace (title mobile_name) series_found "")) "Standard" in
      launch_year ← randint 2018 2025;
      purchased_year ← randint launch_year 2025;
      condition ← choice conditions;
      p ← randint 8000 100000;
      let price := rupee +:+ str_of_Z p in
      i ← randint 100000000000000 999999999999999;
      let imei := str_of_Z i in
      mret {| make := make; series := series_found; model := model;
              launch_year := launch_year; purchased_year := Some purchased_year;
              condition := condition; price := price; imei_number := imei |}.
  End Gen.

  (** The record invariant of main1.py's records (spec, section 3). *)
Definition wf_phone (p : PhoneInfo) : Prop :=
    String.length (imei_number p) = 15%nat /\ all_chars is_digit (imei_number p) = true /\
    2018 <= launch_year p <= 2025 /\
    (exists y, purchased_year p = Some y /\ launch_year p <= y <= 2025) /\
    In (condition p) conditions /\
    (exists n, 8000 <= n <= 100000 /\ price p = rupee +:+ str_of_Z n) /\
    In (series p, make p) series_to_brand.

  (** The model field main1.py derives from the query and the series. *)
Definition model_of (query series_found : string) : string :=
    str_or (strip (replace (title (lower (strip query))) series_found "")) "Standard".

  (** ** Lemmas *)

Lemma find_series_In name keys s :
    find_series name keys = Some s -> In s keys /\ contains (lower s) name = true.
  Proof.
    induction keys as [|k ks IH]; cbn; [discriminate|].
    destruct (contains (lower k) name) eqn:E; [intros [= <-]; auto|].
    intros H. destruct (IH H). auto.
  Qed.

  (** The loop returns the first key, in table order, that occurs. *)
Lemma find_series_first name pre s post :
    Forall (fun k => contains (lower k) name = false) pre ->
    contains (lower s) name = true ->
    find_series name (pre ++ s :: post) = Some s.
  Proof.
    induction 1 as [|k ks Hk _ IH]; intros Hs; cbn; [rewrite Hs; reflexivity|].
    rewrite Hk. apply IH, Hs.
  Qed.

Lemma series_keys_nonempty s : In s series_keys -> str_truthy s = true.
  Proof. cbn. intros Hs. repeat destruct Hs as [<-|Hs]; try reflexivity. destruct Hs. Qed.

  (** Keys are unique: a table pair is what [d[k]] returns. *)
Lemma brand_of_series s m : In (s, m) series_to_brand -> dict_getitem series_to_brand s = inr m.
  Proof. cbn. intros H. repeat destruct H as [[= <- <-]|H]; try reflexivity. destruct H. Qed.

  Section GenLemmas.
    Context {G : Type} `{PyRandom G}.

Lemma resolve_series_ok name (g : G) :
      exists s g', run (resolve_series name) g = (inr s, g') /\ In s series_keys /\
        (forall s0, find_series name series_keys = Some s0 -> s = s0 /\ g' = g).
    Proof.
      unfold resolve_series. destruct (find_series name series_keys) as [s0|] eqn:E.
      - destruct (find_series_In _ _ _ E) as [Hin _].
        rewrite (series_keys_nonempty _ Hin). exists s0, g.
        split; [reflexivity|]. split; [exact Hin|]. intros ? [= ->]. auto.
      - rand_step. exists x, g0. split; [reflexivity|]. split; [exact Hx|discriminate].
    Qed.

    (** Everything the generator guarantees, in one run. *)
Lemma get_mobile_info_desc name (g : G) :
      exists p g', run (get_mobile_info name) g = (inr p, g') /\ wf_phone p /\
        model p = model_of name (series p) /\
        (forall s, find_series (lower (strip name)) series_keys = Some s ->
                   series p = s).
    Proof.
      unfold get_mobile_info. pym_simpl.
      destruct (resolve_series_ok (lower (strip name)) g) as (s & g1 & -> & Hs & Hfirst).
      pym_simpl. destruct (dict_getitem_key series_to_brand s Hs) as [b Hb]. rewrite Hb.
      pym_simpl. do 5 (rand_step; pym_simpl).
      eexists _, _. split; [reflexivity|].
      destruct (str_of_Z_length x3 14) as [Hl Hd]; [cbn; lia|].
      unfold wf_phone; cbn [make series model launch_year purchased_year condition
                            price imei_number].
      split.
      - split; [exact Hl|]. split; [exact Hd|]. split; [lia|].
        split; [exists x0; split; [reflexivity|lia]|]. split; [exact Hx1|].
        split; [exists x2; split; [lia|reflexivity]|]. apply dict_getitem_In, Hb.
      - split; [reflexivity|]. intros s0 Hs0. apply (Hfirst s0 Hs0).
    Qed.
    (** A query whose series the loop resolves to [s]. *)
Lemma get_mobile_info_resolved name s (g : G) :
      find_series (lower (strip name)) series_keys = Some s ->
      exists p g', returns (get_mobile_info name) g p g' /\ wf_phone p /\ series p = s /\
        dict_getitem series_to_brand s = inr (make p) /\ model p = model_of name s.
    Proof.
      intros Hf. destruct (get_mobile_info_desc name g) as (p & g' & E & W & M & F).
      specialize (F s Hf). exists p, g'. split; [exact E|]. split; [exact W|].
      split; [exact F|]. split; [|rewrite M, F; reflexivity].
      destruct W as (_ & _ & _ & _ & _ & _ & Hin). rewrite F in Hin.
      apply brand_of_series, Hin.
    Qed.

    (** C12: For every query and every outcome of the random source,
        main1.py's [get_mobile_info] returns (it never raises) a record
        with a 15-digit IMEI, [2018 <= launch_year <= purchased_year <=
        2025], a condition among New/Used/Refurbished, a price "₹n" with
        [8000 <= n <= 100000], and a (series, make) pair of the table. *)
Theorem get_mobile_info_wf name (g : G) :
      exists p g', returns (get_mobile_info name) g p g' /\ wf_phone p.
    Proof. destruct (get_mobile_info_desc name g) as (p & g' & E & W & _). eauto. Qed.

    (** C13: Series resolution is first-match in table order: if [s] is the
        first key whose lower-cased name occurs in the stripped, lower-cased
        query, the record has series [s], the make the table gives [s], and
        the model computed from the title-cased query with [s] removed. *)
Theorem get_mobile_info_first_match name pre s post p (g g' : G) :
      series_keys = pre ++ s :: post ->
      Forall (fun k => contains (lower k) (lower (strip name)) = false) pre ->
      contains (lower s) (lower (strip name)) = true ->
      returns (get_mobile_info name) g p g' ->
      series p = s /\ dict_getitem series_to_brand s = inr (make p) /\
      model p = model_of name s.
    Proof.
      intros Hk Hpre Hs Hr.
      destruct (get_mobile_info_resolved name s g) as (p' & g'' & E & _ & S & B & M).
      { rewrite Hk. apply find_series_first; assumption. }
      destruct (returns_det _ _ _ _ _ _ Hr E) as [-> _]. auto.
    Qed.

    (** C14: Querying "iPhone 15" gives series "iPhone" and make "Apple",
        but the model stays "Iphone 15": the code removes the series from
        the title-cased query, and [title] turns "iPhone" into "Iphone", so
        [replace] finds nothing to remove (likewise "OnePlus" and
        "Oneplus"). *)
Theorem iphone_model_keeps_series (g : G) :
      exists p g', returns (get_mobile_info "iPhone 15") g p g' /\
        series p = "iPhone" /\ make p = "Apple" /\ model p = "Iphone 15".
    Proof.
      destruct (get_mobile_info_resolved "iPhone 15" "iPhone" g) as (p & g' & E & _ & S & B & M);
        [vm_compute; reflexivity|].
      exists p, g'. split; [exact E|]. split; [exact S|].
      split; [cbn in B; congruence|]. rewrite M. vm_compute. reflexivity.
    Qed.

    (** C15: The one-letter key "V" (Vivo) comes before "Realme", "Oppo",
        "Motorola", "Poco" and "Nothing" in the table and occurs in any
        query containing a "v": "Oppo Reno Vivid" resolves to make "Vivo",
        and the model loses its capital V ("Oppo Reno ivid"). *)
Theorem v_series_shadows (g : G) :
      exists p g', returns (get_mobile_info "Oppo Reno Vivid") g p g' /\
        series p = "V" /\ make p = "Vivo" /\ model p = "Oppo Reno ivid".
    Proof.
      destruct (get_mobile_info_resolved "Oppo Reno Vivid" "V" g) as (p & g' & E & _ & S & B & M);
        [vm_compute; reflexivity|].
      exists p, g'. split; [exact E|]. split; [exact S|].
      split; [cbn in B; congruence|]. rewrite M. vm_compute. reflexivity.
    Qed.
  End GenLemmas.

(** With the constant generator the generator's state is unchanged. *)
Lemma get_mobile_info_const name k :
  exists p, run (get_mobile_info name) (mkConst k) = (inr p, mkConst k).
Proof.
  unfold get_mobile_info. pym_simpl.
  assert (Hs : exists s, run (resolve_series (lower (strip name))) (mkConst k) = (inr s, mkConst k) /\
                         In s series_keys).
  { unfold resolve_series. destruct (find_series _ series_keys) as [s|] eqn:E.
    - destruct (find_series_In _ _ _ E) as [Hin _]. rewrite (series_keys_nonempty _ Hin).
      exists s. split; [reflexivity|exact Hin].
    - apply const_choice_ok. discriminate. }
  destruct Hs as (s & -> & Hin). pym_simpl.
  destruct (dict_getitem_key series_to_brand s Hin) as [b ->]. pym_simpl.
  do 5 (const_step; pym_simpl). eexists. reflexivity.
Qed.

Lemma get_mobile_info_first_match_witness :
    exists p g', returns (get_mobile_info "galaxy s23 ultra") (mkTape []) p g' /\
      series p = "Galaxy S" /\ model p = "23 Ultra".
  Proof.
    destruct (get_mobile_info_desc "galaxy s23 ultra" (mkTape [])) as (p & g' & E & _).
    exists p, g'. split; [exact E|].
    destruct (get_mobile_info_first_match "galaxy s23 ultra" ["iPhone"] "Galaxy S"
                (skipn 2 series_keys) p (mkTape []) g') as (S & _ & M).
    - reflexivity.
    - repeat constructor.
    - vm_compute; reflexivity.
    - exact E.
    - split; [exact S|]. rewrite M. vm_compute. reflexivity.
  Defined.

End Main1.
