(* ===== verification/Sentiment.v ===== *)
(** * Sentiment of a text ([analyze_sentiment], main1.py 72-80, mobile.py 45-53)

    TextBlob's polarity scorer is external: the class [TextScorer] gives
    the score of a text. A score is a Python float, i.e. a dyadic rational;
    the literals [0.1] and [-0.1] of the code are the doubles nearest to
    one tenth, written here as the exact rationals [tenth]. The code's
    policy: above [0.1] is positive, below [-0.1] negative, else neutral.
    Theorems: the three classes are exactly the three intervals, and the
    classification is monotone in the score. *)

From S2P Require Import Prelude.
From Stdlib Require Import QArith Lqa.

(** [TextBlob(text).sentiment.polarity] *)
Class TextScorer := { polarity : string -> Q }.

(** The double [0.1] is [3602879701896397 / 2^55]. *)
Definition tenth : Q := 3602879701896397 # 36028797018963968.

Inductive Sentiment := Positive | Negative | Neutral.

#[export] Instance Sentiment_eq_dec : EqDecision Sentiment.
Proof. solve_decision. Defined.

Definition sentiment_label (x : Sentiment) : string :=
  match x with
  | Positive => "Positive 😊"
  | Negative => "Negative 😞"
  | Neutral => "Neutral 😐"
  end.

(** The [if polarity > 0.1 ... elif polarity < -0.1 ... else] chain. *)
Definition classify (p : Q) : Sentiment :=
  if Qlt_le_dec tenth p then Positive
  else if Qlt_le_dec p (- tenth) then Negative
  else Neutral.

Definition analyze_sentiment `{TextScorer} (text : string) : string :=
  sentiment_label (classify (polarity text)).

(** Order of the labels. *)
Definition rank (x : Sentiment) : nat :=
  match x with Negative => 0 | Neutral => 1 | Positive => 2 end.

Lemma sentiment_label_inj x y : sentiment_label x = sentiment_label y -> x = y.
Proof. destruct x, y; cbn; congruence. Qed.

(** C20: The classification is exactly the three intervals of the code:
    positive above the double 0.1, negative below -0.1, neutral in
    between (both ends included). *)
Theorem classify_spec p :
  (classify p = Positive <-> tenth < p)%Q /\
  (classify p = Negative <-> p < - tenth)%Q /\
  (classify p = Neutral <-> - tenth <= p /\ p <= tenth)%Q.
Proof.
  unfold classify.
  destruct (Qlt_le_dec tenth p); [|destruct (Qlt_le_dec p (- tenth))];
    unfold tenth in *; repeat (split || intros); try discriminate; try reflexivity;
    try lra; exfalso; lra.
Qed.

(** A higher score never gets a lower label. *)
Theorem classify_monotone p q : (p <= q)%Q -> (rank (classify p) <= rank (classify q))%nat.
Proof.
  intros Hpq. unfold classify.
  destruct (Qlt_le_dec tenth p), (Qlt_le_dec tenth q);
    try destruct (Qlt_le_dec p (- tenth)); try destruct (Qlt_le_dec q (- tenth));
    cbn; unfold tenth in *; try lia; lra.
Qed.

