(* ===== verification/Gateway.v ===== *)
(** * The language-model gateway ([mistral_chat], main1.py lines 9-21)

    [mistral_chat] posts the transcript to Ollama's chat endpoint and reads
    [data["message"]["content"]] from the JSON answer; every exception is
    caught and turned into a warning string. The server is external: the
    network is a state [Net] holding the payloads sent so far and the
    outcomes still to come, one per POST. JSON values are [JVal]; [in] and
    subscripting follow Python on each JSON type (a dict from [json.loads]
    keeps the last of duplicate keys). The function returns whatever
    [content] holds, which need not be a string: [py_iadd_str] is the
    [ai_reply += "..."] main1.py applies to it next.

    Theorems: [mistral_chat] never raises and sends exactly one payload;
    a well-formed answer yields its content; each failure yields the
    corresponding warning text. *)

From S2P Require Import Prelude PyStr.

(** JSON values as [json.loads] returns them (numbers: integers). *)
#[warnings="-register-all"]
Inductive JVal :=
| JNull
| JBool (b : bool)
| JNum (n : Z)
| JStr (s : string)
| JArr (xs : list JVal)
| JObj (kvs : list (string * JVal)).

(** The transcript entries: [{"role": ..., "content": ...}]. *)
Inductive Role := RSystem | RUser | RAssistant.

#[export] Instance Role_eq_dec : EqDecision Role.
Proof. solve_decision. Defined.

Definition role_name (r : Role) : string :=
  match r with RSystem => "system" | RUser => "user" | RAssistant => "assistant" end.

Record Message := mkMsg { role : Role; content : JVal }.

Definition message_json (m : Message) : JVal :=
  JObj [("role", JStr (role_name (role m))); ("content", content m)].

Definition py_type_name (v : JVal) : string :=
  match v with
  | JNull => "NoneType" | JBool _ => "bool" | JNum _ => "int"
  | JStr _ => "str" | JArr _ => "list" | JObj _ => "dict"
  end.

(** [key in v] *)
Definition py_contains (key : string) (v : JVal) : PyExc + bool :=
  match v with
  | JObj kvs => inr (existsb (fun kv => String.eqb (fst kv) key) kvs)
  | JArr xs => inr (existsb (fun x => match x with JStr s => String.eqb s key | _ => false end) xs)
  | JStr s => inr (contains key s)
  | _ => inl (TypeError ("argument of type '" +:+ py_type_name v +:+ "' is not iterable"))
  end.

(** The value of the last binding of [k]. *)
Definition obj_get (kvs : list (string * JVal)) (k : string) : option JVal :=
  fold_left (fun acc kv => if String.eqb (fst kv) k then Some (snd kv) else acc) kvs None.

(** [v[key]] with a string key *)
Definition py_getitem (v : JVal) (key : string) : PyExc + JVal :=
  match v with
  | JObj kvs => match obj_get kvs key with Some x => inr x | None => inl (KeyError key) end
  | JArr _ => inl (TypeError "list indices must be integers or slices, not str")
  | JStr _ => inl (TypeError "string indices must be integers, not 'str'")
  | _ => inl (TypeError ("'" +:+ py_type_name v +:+ "' object is not subscriptable"))
  end.

(** What happens to one POST: [requests.post] raises, or a response
    arrives whose [.json()] raises or gives a value. *)
Inductive HttpOutcome :=
| PostFailed (e : PyExc)
| Responded (body : PyExc + JVal).

Record Net := mkNet { sent : list (string * JVal); outcomes : list HttpOutcome }.

(** [requests.post(url, json=payload)]: the payload is sent, the next
    outcome is consumed; with none left the connection is refused. *)
Definition requests_post (url : string) (payload : JVal) : PyM Net (PyExc + JVal) :=
  fun n =>
    let n' := mkNet (sent n ++ [(url, payload)]) (tail (outcomes n)) in
    match outcomes n with
    | [] => (inl (RequestError "Connection refused"), n')
    | PostFailed e :: _ => (inl e, n')
    | Responded b :: _ => (inr b, n')
    end.

Definition ollama_url : string := "http://localhost:11434/api/chat".

Definition chat_payload (messages : list Message) : JVal :=
  JObj [("model", JStr "mistral"); ("messages", JArr (map message_json messages))].

Definition warning_sign : string := "⚠️".

Definition invalid_response_text : string :=
  warning_sign +:+ " Mistral returned an invalid response. Please ensure it's running.".

Definition mistral_error_text (e : PyExc) : string :=
  warning_sign +:+ " Mistral Error: " +:+ exc_str e.

Definition mistral_chat (messages : list Message) : PyM Net JVal :=
  try!
    (response ← requests_post ollama_url (chat_payload messages);
     data ← py_lift (S:=Net) response;
     has_message ← py_lift (S:=Net) (py_contains "message" data);
     if (has_message : bool) then
       msg ← py_lift (S:=Net) (py_getitem data "message");
       py_lift (S:=Net) (py_getitem msg "content")
     else mret (JStr invalid_response_text))
  except (fun e => mret (JStr (mistral_error_text e))).

(** [ai_reply += s] for a string [s]: a str concatenates, a list is
    extended by the characters of [s], other types raise. *)
Definition py_iadd_str (v : JVal) (s : string) : PyExc + JVal :=
  match v with
  | JStr t => inr (JStr (t +:+ s))
  | JArr xs => inr (JArr (xs ++ map (fun c => JStr (String c EmptyString)) (list_ascii_of_string s)))
  | _ => inl (TypeError ("unsupported operand type(s) for +=: '" +:+ py_type_name v +:+ "' and 'str'"))
  end.

(** What [mistral_chat] computes from one outcome. *)
Definition chat_result (o : option HttpOutcome) : JVal :=
  let body :=
    match o with
    | None => inl (RequestError "Connection refused")
    | Some (PostFailed e) => inl e
    | Some (Responded (inl e)) => inl e
    | Some (Responded (inr data)) =>
        match py_contains "message" data with
        | inl e => inl e
        | inr true =>
            match py_getitem data "message" with
            | inl e => inl e
            | inr msg => py_getitem msg "content"
            end
        | inr false => inr (JStr invalid_response_text)
        end
    end in
  match body with inl e => JStr (mistral_error_text e) | inr v => v end.

(** ** [str()] and [repr()] of a JSON value, for f-strings

    CPython's [repr] of a str: single quotes unless the text has a single
    quote and no double quote; backslash, the quote, tab, newline and
    carriage return are escaped, other control characters as [\xhh].
    Bytes of non-ASCII characters are kept, as Python keeps printable
    non-ASCII characters. *)
Definition dquote : ascii := ascii_of_nat 34.
Definition backslash : ascii := ascii_of_nat 92.

Definition hex_digit (d : Z) : ascii := if (d <? 10)%Z then digit_char d else char_of_code (87 + d)%Z.

Definition repr_char (q c : ascii) : string :=
  let n := code c in
  (if Ascii.eqb c backslash || Ascii.eqb c q then String backslash (String c EmptyString)
  else if n =? 9 then String backslash "t"
  else if n =? 10 then String backslash "n"
  else if n =? 13 then String backslash "r"
  else if (n <? 32) || (n =? 127) then
    String backslash (String "x" (String (hex_digit (n / 16)) (String (hex_digit (n mod 16)) EmptyString)))
  else String c EmptyString)%Z.

Fixpoint repr_body (q : ascii) (s : string) : string :=
  match s with
  | EmptyString => EmptyString
  | String c r => repr_char q c +:+ repr_body q r
  end.

Definition repr_str (s : string) : string :=
  let q := if contains "'" s && negb (contains (String dquote EmptyString) s) then dquote else "'"%char in
  String q (repr_body q s +:+ String q EmptyString).

(** [", ".join(xs)] *)
Fixpoint join_comma (xs : list string) : string :=
  match xs with
  | [] => ""
  | [x] => x
  | x :: xs' => x +:+ ", " +:+ join_comma xs'
  end.

(** The items of the dict [json.loads] builds from a list of bindings: a
    repeated key keeps its first position and its last value. *)
Fixpoint dict_set {V} (items : list (string * V)) (k : string) (v : V) : list (string * V) :=
  match items with
  | [] => [(k, v)]
  | (k', v') :: r => if String.eqb k' k then (k', v) :: r else (k', v') :: dict_set r k v
  end.

Definition dict_items {V} (kvs : list (string * V)) : list (string * V) :=
  fold_left (fun acc kv => dict_set acc (fst kv) (snd kv)) kvs [].

Fixpoint py_repr (v : JVal) : string :=
  match v with
  | JNull => "None"
  | JBool b => if b then "True" else "False"
  | JNum n => str_of_Z n
  | JStr s => repr_str s
  | JArr xs => "[" +:+ join_comma (map py_repr xs) +:+ "]"
  | JObj kvs =>
      "{" +:+ join_comma (map (fun kv => repr_str (fst kv) +:+ ": " +:+ snd kv)
                             (dict_items (map (fun kv => (fst kv, py_repr (snd kv))) kvs))) +:+ "}"
  end.

(** [f"{v}"], i.e. [str(v)]: a str is itself, anything else its repr. *)
Definition py_str (v : JVal) : string :=
  match v with JStr s => s | _ => py_repr v end.

Lemma obj_get_key kvs k v :
  obj_get kvs k = Some v -> existsb (fun kv => String.eqb (fst kv) k) kvs = true.
Proof.
  unfold obj_get.
  enough (Hgen : forall acc, fold_left (fun acc kv => if String.eqb (fst kv) k then Some (snd kv) else acc) kvs acc = Some v ->
            acc = Some v \/ existsb (fun kv => String.eqb (fst kv) k) kvs = true).
  { intros H. destruct (Hgen None H) as [[=]|Hk]; exact Hk. }
  induction kvs as [|[k' v'] kvs IH]; intros acc H; cbn in *; [auto|].
  destruct (String.eqb k' k); [auto|]. apply IH, H.
Qed.

(** [mistral_chat] consumes one outcome, sends one payload and never raises. *)
Lemma mistral_chat_run messages n :
  run (mistral_chat messages) n =
    (inr (chat_result (head (outcomes n))),
     mkNet (sent n ++ [(ollama_url, chat_payload messages)]) (tail (outcomes n))).
Proof.
  unfold mistral_chat, run, py_catch, mbind, PyM_bind, requests_post, py_lift, chat_result.
  destruct (outcomes n) as [|[e|[e|data]] os]; cbn; try reflexivity.
  destruct (py_contains "message" data) as [e|[|]]; cbn; try reflexivity.
  destruct (py_getitem data "message") as [e|m]; cbn; try reflexivity.
  destruct (py_getitem m "content"); reflexivity.
Qed.

(** C21: A well-formed answer, whose JSON has [message.content = c],
    yields [c] as it is (any JSON value); a failed POST yields the text
    "⚠️ Mistral Error: " followed by [str(e)]; an answer without a
    "message" key yields the invalid-response warning. *)
Theorem mistral_chat_outcomes messages n :
  (forall kvs m c, head (outcomes n) = Some (Responded (inr (JObj kvs))) ->
     obj_get kvs "message" = Some (JObj m) -> obj_get m "content" = Some c ->
     fst (run (mistral_chat messages) n) = inr c) /\
  (forall e, head (outcomes n) = Some (PostFailed e) ->
     fst (run (mistral_chat messages) n) = inr (JStr (mistral_error_text e))) /\
  (forall kvs, head (outcomes n) = Some (Responded (inr (JObj kvs))) ->
     existsb (fun kv => String.eqb (fst kv) "message") kvs = false ->
     fst (run (mistral_chat messages) n) = inr (JStr invalid_response_text)).
Proof.
  rewrite mistral_chat_run. cbn [fst]. unfold chat_result.
  repeat split; intros * Ho; rewrite Ho; cbn; [|reflexivity|intros Hk; rewrite Hk; reflexivity].
  intros Hm Hc. pose proof (obj_get_key _ _ _ Hm) as Hk.
  rewrite Hk. cbn. rewrite Hm. cbn. rewrite Hc. reflexivity.
Qed.

Lemma mistral_chat_outcomes_witness :
  fst (run (mistral_chat []) (mkNet [] [Responded (inr (JObj [("message", JObj [("content", JStr "Hi")])]))]))
    = inr (JStr "Hi").
Proof.
  destruct (mistral_chat_outcomes [] (mkNet [] [Responded (inr (JObj [("message", JObj [("content", JStr "Hi")])]))]))
    as [H _].
  apply (H [("message", JObj [("content", JStr "Hi")])] [("content", JStr "Hi")]); reflexivity.
Defined.

(** The gateway's contract (spec section 6): [mistral_chat] never
    raises, whatever the server does or does not answer; it posts the
    whole transcript, untruncated, to Ollama's chat endpoint exactly once
    and consumes exactly one outcome. *)
Theorem mistral_chat_total messages n :
  exists v, run (mistral_chat messages) n =
    (inr v, mkNet (sent n ++ [(ollama_url, JObj [("model", JStr "mistral");
                                               ("messages", JArr (map message_json messages))])])
                  (tail (outcomes n))).
Proof. rewrite mistral_chat_run. eexists. reflexivity. Qed.

(** An answer that is JSON but not an object never yields content:
    null, a boolean or a number makes ["message" in data] raise, a string
    or a list containing "message" makes [data["message"]] raise, and the
    handler turns either into "⚠️ Mistral Error: ..."; any other string or
    list yields the invalid-response warning. *)
Theorem non_object_answer_warns messages n v :
  head (outcomes n) = Some (Responded (inr v)) -> (forall kvs, v <> JObj kvs) ->
  fst (run (mistral_chat messages) n) = inr (JStr invalid_response_text) \/
  exists e, fst (run (mistral_chat messages) n) = inr (JStr (mistral_error_text e)).
Proof.
  intros Ho Hv. rewrite mistral_chat_run. cbn [fst]. unfold chat_result. rewrite Ho.
  destruct v as [| | |s|xs|kvs]; [| | | | |exfalso; exact (Hv kvs eq_refl)];
    cbn -[mistral_error_text invalid_response_text];
    try destruct (contains "message" s); try destruct (existsb _ xs);
    first [left; reflexivity | right; eexists; reflexivity].
Qed.

Lemma non_object_answer_warns_example :
  fst (run (mistral_chat []) (mkNet [] [Responded (inr (JArr [JStr "message"]))])) =
    inr (JStr invalid_response_text) \/
  exists e, fst (run (mistral_chat []) (mkNet [] [Responded (inr (JArr [JStr "message"]))])) =
    inr (JStr (mistral_error_text e)).
Proof. apply (non_object_answer_warns [] _ (JArr [JStr "message"])); [reflexivity|discriminate]. Defined.
