(* ===== verification/Chat.v ===== *)
(** * The session data of [main1.py] (lines 89-189)

    The session state holds [chat_history], [pending_action] and
    [current_phone] ([Session]); [init_session_state] is the
    initialisation of lines 90-102. This file holds that data and the
    texts of the replies; [Turn] holds the turn itself. One submitted
    message runs [handle_input]:
    - the user's message is appended to the transcript;
    - with no pending action, [new_phone_reply] (lines 152-181) generates a
      record, stores it as [current_phone], calls [mistral_chat] with the
      transcript plus a prompt turn, draws one of four follow-up actions,
      appends its question to the reply and makes it pending;
    - with a pending action, [followup_reply] (lines 118-150) answers it
      when the message contains an affirmation, else clears it;
    - the reply is appended to the transcript and scored.
    An exception leaves the session as the code had mutated it, as
    Streamlit keeps [st.session_state] across a failed run. *)

From Stdlib Require Import QArith.
From S2P Require Import Prelude PyStr PyRandom PhoneGen Sentiment Gateway.
Import Main1.

Local Open Scope Z_scope.

(** The values [pending_action] takes: the strings "show_imei",
    "compare", "resale", "pros_cons", "follow_up". *)
Inductive Action := show_imei | compare | resale | pros_cons | follow_up.

#[export] Instance Action_eq_dec : EqDecision Action.
Proof. solve_decision. Defined.

Definition action_name (a : Action) : string :=
  match a with
  | show_imei => "show_imei" | compare => "compare" | resale => "resale"
  | pros_cons => "pros_cons" | follow_up => "follow_up"
  end.

Record Session := mkSession {
  chat_history : list Message;
  pending_action : option Action;
  current_phone : option PhoneInfo
}.

Definition nl : string := String (ascii_of_nat 10) EmptyString.

Definition system_prompt : string :=
  "You are a friendly and intelligent mobile expert chatbot. " +:+
  "When a user mentions a mobile model, respond naturally and give useful information. " +:+
  "After providing info, ask a logical follow-up question — like showing IMEI, comparing models, " +:+
  "discussing resale value, or asking if the user wants pros and cons.".

Definition system_msg : Message := mkMsg RSystem (JStr system_prompt).
Definition user_msg (u : string) : Message := mkMsg RUser (JStr u).
Definition assistant_msg (v : JVal) : Message := mkMsg RAssistant v.

(** [st.session_state] as a dict: each key absent ([None]) or present. *)
Record SessionState := mkSessionState {
  ss_chat_history : option (list Message);
  ss_pending_action : option (option Action);
  ss_current_phone : option (option PhoneInfo)
}.

(** Lines 90-102: set each key that is not yet in the session state. *)
Definition init_session_state (ss : SessionState) : Session :=
  {| chat_history := default [system_msg] (ss_chat_history ss);
     pending_action := default None (ss_pending_action ss);
     current_phone := default None (ss_current_phone ss) |}.

Definition empty_session_state : SessionState := mkSessionState None None None.

Definition session_state_of (s : Session) : SessionState :=
  mkSessionState (Some (chat_history s)) (Some (pending_action s)) (Some (current_phone s)).

(** ** Texts of the replies *)
Definition affirmations : list string := ["yes"; "yeah"; "sure"; "ok"; "of course"].

(** [any(w in user_input.lower() for w in [...])] *)
Definition is_affirmative (user_input : string) : bool :=
  existsb (fun w => contains w (lower user_input)) affirmations.

Definition imei_next_questions : list string :=
  ["Would you like me to tell you its resale value?";
   "Would you like to compare it with a similar model?";
   "Do you want to know its top 3 pros and cons?"].

Definition imei_text (p : PhoneInfo) : string :=
  "The IMEI number for " +:+ make p +:+ " " +:+ series p +:+ " " +:+ model p +:+
  " is **" +:+ imei_number p +:+ "**.".

Definition compare_text (c : string) : string :=
  "This model is comparable to the **" +:+ c +:+ "** series in performance and pricing.".

Definition resale_text (r : Z) : string :=
  "The estimated resale value is around " +:+ rupee +:+ str_of_Z r +:+ ".".

Definition pros_cons_text : string :=
  "Pros:" +:+ nl +:+ "- Great performance" +:+ nl +:+ "- Good camera" +:+ nl +:+
  "- Reliable brand" +:+ nl +:+ nl +:+
  "Cons:" +:+ nl +:+ "- Slightly high price" +:+ nl +:+ "- Average battery life".

Definition okay_text : string := "Okay!".
Definition skip_text : string := "Alright, skipping that step.".

Definition followup_texts : list (string * string) :=
  [("show_imei", "Would you like me to show its IMEI number?");
   ("compare", "Would you like me to compare it with a similar model?");
   ("resale", "Do you want to know its resale value?");
   ("pros_cons", "Would you like me to tell you its top pros and cons?")].

Definition next_actions : list Action := [show_imei; compare; resale; pros_cons].

(** Lines 158-167: the prompt turn sent with the transcript. *)
Definition phone_details (p : PhoneInfo) : string :=
  "Make: " +:+ make p +:+ nl +:+ "Series: " +:+ series p +:+ nl +:+
  "Model: " +:+ model p +:+ nl +:+ "Launch Year: " +:+ str_of_Z (launch_year p) +:+ nl +:+
  "Condition: " +:+ condition p +:+ nl +:+ "Price: " +:+ price p +:+ nl.

Definition ai_prompt (user_input : string) (p : PhoneInfo) : string :=
  user_input +:+ nl +:+ nl +:+ "Here are the phone details:" +:+ nl +:+ phone_details p +:+ nl +:+
  "Give a friendly review and ask one realistic follow-up question.".

(** [phone_info['...']] on the stored phone, which may be [None]. *)
Definition need_phone (o : option PhoneInfo) : PyExc + PhoneInfo :=
  match o with
  | Some p => inr p
  | None => inl (TypeError "'NoneType' object is not subscriptable")
  end.

(** [int(s)] raising [ValueError] on a malformed literal. *)
Definition py_int_or_raise (s : string) : PyExc + Z :=
  match py_int s with
  | Some n => inr n
  | None => inl (ValueError ("invalid literal for int() with base 10: '" +:+ s +:+ "'"))
  end.

(** [int(x)] of a non-integral number truncates toward zero. *)
Definition py_trunc (q : Q) : Z := Z.quot (Qnum q) (Zpos (Qden q)).

(** [TextBlob(text)] accepts only a str. *)
Definition analyze_sentiment_py `{TextScorer} (v : JVal) : PyExc + string :=
  match v with
  | JStr t => inr (analyze_sentiment t)
  | _ => inl (TypeError ("The `text` argument passed to `__init__(text)` must be a string, not <class '"
                          +:+ py_type_name v +:+ "'>"))
  end.

Record TurnOut := mkTurnOut { reply : JVal; sentiment : string }.

(** ** The page

    What a run of the script puts on the page, in order: Streamlit clears
    the page at every rerun and draws the elements the run calls. The
    spinner of line 168 is drawn when its [with] block starts and removed
    when it ends; [ErrorBox] is what Streamlit draws below the page when
    the script raises. *)
Inductive Element :=
| SetPageConfig (page_title page_icon : string)
| Title (s : string)
| Write (s : string)
| Markdown (s : string)
| Caption (s : string)
| ChatInput (placeholder : string)
| Spinner (text : string)
| ErrorBox (e : PyExc).  (* the traceback Streamlit shows for an uncaught exception *)

(** Lines 85-87. *)
Definition page_header : list Element :=
  [SetPageConfig "📱 Smart Mistral Mobile Chatbot" "🤖";
   Title "📱 Smart Mobile Chatbot — Powered by Mistral 🤖";
   Write "Chat about mobile phones — now with realistic follow-up questions!"].

(** Line 112. *)
Definition chat_input_widget : Element := ChatInput "Ask about a mobile phone...".

Definition mistral_line (v : JVal) : Element := Markdown ("🤖 **Mistral:** " +:+ py_str v).

(** Lines 105-109: one transcript entry. *)
Definition message_view (m : Message) : Element :=
  if String.eqb (role_name (role m)) "user" then Markdown ("🧑‍💻 **You:** " +:+ py_str (content m))
  else mistral_line (content m).

(** [for msg in st.session_state.chat_history[1:]] *)
Definition history_view (h : list Message) : list Element := map message_view (tail h).

(** Line 189. *)
Definition sentiment_caption (s : string) : Element := Caption ("📊 Sentiment of AI Response: " +:+ s).

(** The two elements a completed turn adds (lines 185 and 189). *)
Definition turn_view (o : TurnOut) : list Element := [mistral_line (reply o); sentiment_caption (sentiment o)].

(** ** The affirmation test *)

(** C25: An affirmation token anywhere in the message, even inside
    another word, makes it affirmative: "looking" contains "ok" and
    "yesterday" contains "yes", so both count as yes. *)
Theorem affirmation_substring tok pre post :
  In tok affirmations -> is_affirmative (pre +:+ tok +:+ post) = true.
Proof.
  intros Htok. unfold is_affirmative. apply existsb_exists. exists tok. split; [exact Htok|].
  assert (Hl : lower tok = tok)
    by (repeat destruct Htok as [<-|Htok]; [reflexivity..|destruct Htok]).
  rewrite !lower_app, Hl. apply contains_spec. eauto.
Qed.

Lemma affirmation_substring_witness :
  is_affirmative "looking" = true /\ is_affirmative "yesterday" = true.
Proof.
  split.
  - change "looking" with ("lo" +:+ "ok" +:+ "ing"). apply affirmation_substring. cbn; tauto.
  - change "yesterday" with ("" +:+ "yes" +:+ "terday"). apply affirmation_substring. cbn; tauto.
Defined.
