(* ===== verification/Float64.v ===== *)
(** * The resale estimate in double precision

    Line 137 of main1.py computes
    [int(int(price) * random.uniform(0.3, 0.7))] on IEEE-754 doubles:
    [random()] is CPython's [(a*67108864.0+b)*(1.0/9007199254740992.0)]
    for the 27-bit [a] and 26-bit [b] of a 53-bit draw [k];
    [uniform(a, b)] is [a + (b-a) * random()], the literals 0.3 and 0.7
    are the nearest doubles, [int * float] converts the int to a double,
    and [int()] truncates toward zero. The turn of [Turn] models this on
    the rationals ([PyRandom.uniform], [Chat.py_trunc]); this file
    computes it with the kernel's primitive doubles ([PrimFloat]), whose
    operations round to nearest, ties to even, as the hardware does.

    Theorems: at both ends of the draw range, [uniform(0.3, 0.7)] returns
    exactly the doubles 0.3 and 0.7, and for every price the generators
    write (8000 to 100000) the double estimate stays within the bounds of
    C6; at the top draw it exceeds the exact-rational value for some
    prices (50000 gives 35000, not 34999). What lies between the two ends
    needs the monotonicity of rounding, which the Standard Library does
    not prove; C6 states the bound [r <= 0.7 n] that this file shows to
    be reached. *)

From Stdlib Require Import QArith Floats.
From S2P Require Import Prelude PyStr PyRandom Chat.

Set Warnings "-inexact-float".
Local Open Scope Z_scope.

(** [float(n)] for [|n| < 2^63]; exact for [|n| <= 2^53]. *)
Definition float_of_Z (n : Z) : float :=
  if n <? 0 then (- of_uint63 (Uint63.of_Z (- n)))%float else of_uint63 (Uint63.of_Z n).

(** [int(f)]: truncation toward zero; NaN and the infinities raise. *)
Definition float_to_int (f : float) : PyExc + Z :=
  match Prim2SF f with
  | S754_zero _ => inr 0
  | S754_finite s m e =>
      let z := if 0 <=? e then Z.pos m * 2 ^ e else Z.pos m / 2 ^ (- e) in
      inr (if s then - z else z)
  | S754_infinity _ => inl (OverflowError "cannot convert float infinity to integer")
  | S754_nan => inl (ValueError "cannot convert float NaN to integer")
  end.

(** CPython's [random_random]: [a = k >> 26], [b = k & (2^26 - 1)]. *)
Definition random_double (k : Z) : float :=
  ((float_of_Z (Z.shiftr k 26) * 67108864 + float_of_Z (Z.land k (2 ^ 26 - 1))) *
   (1 / 9007199254740992))%float.

(** [random.uniform(a, b)] *)
Definition uniform_double (a b : float) (k : Z) : float := (a + (b - a) * random_double k)%float.

(** Line 137 on the double of the draw [k]. *)
Definition resale_double (n k : Z) : PyExc + Z :=
  float_to_int (float_of_Z n * uniform_double 0.3 0.7 k)%float.

(** The same line in the exact-rational model of [Turn]. *)
Definition resale_exact (n k : Z) : Z :=
  py_trunc (inject_Z n * ((3 # 10) + ((7 # 10) - (3 # 10)) * (inject_Z k / inject_Z (2 ^ 53))))%Q.

(** [range(lo, lo + n)] *)
Fixpoint z_range (lo : Z) (n : nat) : list Z :=
  match n with
  | O => []
  | S n' => lo :: z_range (lo + 1) n'
  end.

(** Every price the generators write: [randint(8000, 100000)]. *)
Definition prices : list Z := z_range 8000 (Z.to_nat 92001).

(** Executable checks of the two ends of the draw range. *)
Definition bottom_ok (n : Z) : bool :=
  match resale_double n 0 with inr r => r =? resale_exact n 0 | inl _ => false end.

Definition top_ok (n : Z) : bool :=
  match resale_double n (2 ^ 53 - 1) with
  | inr r => (3 * n - 10 <? 10 * r) && (10 * r <=? 7 * n) &&
             (resale_exact n (2 ^ 53 - 1) <=? r) && (r <=? resale_exact n (2 ^ 53 - 1) + 1)
  | inl _ => false
  end.

Lemma z_range_In lo k n : lo <= n < lo + Z.of_nat k -> In n (z_range lo k).
Proof.
  revert lo. induction k as [|k IH]; intros lo Hn; cbn; [lia|].
  destruct (Z.eq_dec lo n) as [->|Hne]; [left; reflexivity|right; apply IH; lia].
Qed.

Lemma forallb_prices f : forallb f prices = true -> forall n, 8000 <= n <= 100000 -> f n = true.
Proof.
  intros Hall n Hn. apply (proj1 (forallb_forall f prices) Hall). apply z_range_In.
  rewrite Z2Nat.id by lia. lia.
Qed.

(** C30: The two ends of [random.uniform(0.3, 0.7)] in double precision.
    The smallest draw gives exactly the double 0.3 and the largest exactly
    the double 0.7 (the sum rounds up). For every price from 8000 to
    100000, the estimate at the smallest draw equals the exact-rational
    model's; at the largest draw it satisfies [0.3 n - 1 < r <= 0.7 n]
    and is the exact model's value or one more. For 50000 it is 35000,
    exactly 0.7 n, where the exact model gives 34999. *)
Theorem resale_double_ends :
  uniform_double 0.3 0.7 0 = 0.3%float /\ uniform_double 0.3 0.7 (2 ^ 53 - 1) = 0.7%float /\
  (forall n, 8000 <= n <= 100000 ->
     resale_double n 0 = inr (resale_exact n 0) /\
     exists r, resale_double n (2 ^ 53 - 1) = inr r /\ 3 * n - 10 < 10 * r /\ 10 * r <= 7 * n /\
       resale_exact n (2 ^ 53 - 1) <= r <= resale_exact n (2 ^ 53 - 1) + 1) /\
  resale_double 50000 (2 ^ 53 - 1) = inr 35000 /\ resale_exact 50000 (2 ^ 53 - 1) = 34999.
Proof.
  assert (Hb : forallb bottom_ok prices = true) by (vm_compute; reflexivity).
  assert (Ht : forallb top_ok prices = true) by (vm_compute; reflexivity).
  split; [vm_compute; reflexivity|]. split; [vm_compute; reflexivity|].
  split; [|split; vm_compute; reflexivity].
  intros n Hn. pose proof (forallb_prices _ Hb n Hn) as B. pose proof (forallb_prices _ Ht n Hn) as T.
  unfold bottom_ok in B. unfold top_ok in T.
  destruct (resale_double n 0) as [|r0]; [discriminate|]. apply Z.eqb_eq in B as ->.
  split; [reflexivity|].
  destruct (resale_double n (2 ^ 53 - 1)) as [|r]; [discriminate|].
  rewrite !andb_true_iff, Z.ltb_lt, !Z.leb_le in T. exists r. split; [reflexivity|lia].
Qed.

Lemma resale_double_ends_witness :
  resale_double 8000 0 = inr (resale_exact 8000 0) /\ (8000 <= 8000 <= 100000).
Proof. split; [apply (proj1 (proj1 (proj2 (proj2 resale_double_ends)) 8000 ltac:(lia)))|lia]. Defined.
