(* ===== verification/Turn.v ===== *)
(** * The turn of [main1.py] and its properties

    The world of a turn ([World]) holds the session, the random generator
    and the network; the components run on their part of it through
    lenses. [followup_reply] (lines 118-150), [new_phone_reply] (lines
    152-181), [handle_input] (lines 114-189) and [main_run] (line 114) are
    the script body for one message.

    Then come the equations of each branch of [handle_input], the
    reachability relation [Reachable] over runs of the script, the session
    invariant and its preservation by rule induction, safety of the
    follow-up branch, bounds of the resale estimate, the abstract protocol
    of the spec ([SpecStep]) with the refinement theorem relating the code
    to it, and the places where the code departs from the spec. *)

From Stdlib Require Import QArith Lqa.
From S2P Require Import Prelude PyStr PyRandom PhoneGen Sentiment Gateway Chat.
Import Main1.

Local Open Scope Z_scope.

Section Turn.
  Context {G : Type} `{PyRandom G} `{TextScorer}.

  (** [shown] is the page drawn so far by the current run. *)
Record World := mkWorld { session : Session; rng : G; net : Net; shown : list Element }.

Definition rng_lens : Lens World G :=
    {| view := rng; update g w := mkWorld (session w) g (net w) (shown w) |}.
Definition net_lens : Lens World Net :=
    {| view := net; update n w := mkWorld (session w) (rng w) n (shown w) |}.

Definition get_session : PyM World Session := fun w => (inr (session w), w).
Definition modify_session (f : Session -> Session) : PyM World unit :=
    py_modify (fun w => mkWorld (f (session w)) (rng w) (net w) (shown w)).

  (** [st.title], [st.write], [st.markdown], ...: draw on the page. *)
Definition draw_all (es : list Element) : PyM World unit :=
    py_modify (fun w => mkWorld (session w) (rng w) (net w) (shown w ++ es)).
Definition draw (e : Element) : PyM World unit := draw_all [e].

(** [with st.spinner(text):]: the spinner is drawn when the block starts
    and removed when it ends, whether the block returns or raises. *)
Definition with_spinner {A} (text : string) (m : PyM World A) : PyM World A :=
    draw (Spinner text);;
    py_finally m (py_modify (fun w => mkWorld (session w) (rng w) (net w) (removelast (shown w)))).

Definition append_message (m : Message) : PyM World unit :=
    modify_session (fun s => mkSession (chat_history s ++ [m]) (pending_action s) (current_phone s)).
Definition set_pending (a : option Action) : PyM World unit :=
    modify_session (fun s => mkSession (chat_history s) a (current_phone s)).
Definition set_current_phone (p : option PhoneInfo) : PyM World unit :=
    modify_session (fun s => mkSession (chat_history s) (pending_action s) p).

  (** Lines 119-150: answering the pending question. *)
Definition followup_reply (action : Action) (user_input : string) : PyM World JVal :=
    s ← get_session;
    let phone_info := current_phone s in
    if is_affirmative user_input then
      match action with
      | show_imei =>
          info ← py_lift (need_phone phone_info);
          let ai_reply := imei_text info in
          next_question ← zoom rng_lens (choice imei_next_questions);
          set_pending (Some follow_up);;
          mret (JStr (ai_reply +:+ nl +:+ nl +:+ next_question))
      | compare =>
          compare_phone ← zoom rng_lens (choice series_keys);
          set_pending None;;
          mret (JStr (compare_text compare_phone))
      | resale =>
          info ← py_lift (need_phone phone_info);
          n ← py_lift (py_int_or_raise (replace (price info) rupee ""));
          u ← zoom rng_lens (uniform (3 # 10) (7 # 10));
          let resale_value := py_trunc (inject_Z n * u) in
          set_pending None;;
          mret (JStr (resale_text resale_value))
      | pros_cons =>
          set_pending None;;
          mret (JStr pros_cons_text)
      | follow_up => mret (JStr okay_text)
      end
    else
      set_pending None;;
      mret (JStr skip_text).

  (** Lines 153-181: a new phone. *)
Definition new_phone_reply (user_input : string) : PyM World JVal :=
    phone_info ← zoom rng_lens (get_mobile_info user_input);
    set_current_phone (Some phone_info);;
    s ← get_session;
    let prompt := ai_prompt user_input phone_info in
    ai_reply ← with_spinner "🤖 Thinking..." (zoom net_lens (mistral_chat (chat_history s ++ [user_msg prompt])));
    next_action ← zoom rng_lens (choice next_actions);
    followup_text ← py_lift (dict_getitem followup_texts (action_name next_action));
    ai_reply ← py_lift (py_iadd_str ai_reply (nl +:+ nl +:+ followup_text));
    set_pending (Some next_action);;
    mret ai_reply.

  (** Lines 114-189: one submitted message. *)
Definition handle_input (user_input : string) : PyM World TurnOut :=
    append_message (user_msg user_input);;
    s ← get_session;
    ai_reply ←
      match pending_action s with
      | Some action => followup_reply action user_input
      | None => new_phone_reply user_input
      end;
    append_message (assistant_msg ai_reply);;
    draw (mistral_line ai_reply);;
    sentiment ← py_lift (analyze_sentiment_py ai_reply);
    draw (sentiment_caption sentiment);;
    mret (mkTurnOut ai_reply sentiment).

  (** Line 114: [if user_input:] *)
Definition main_run (user_input : option string) : PyM World (option TurnOut) :=
    match user_input with
    | Some u => if str_truthy u then out ← handle_input u; mret (Some out) else mret None
    | None => mret None
    end.

  (** A whole run of the script: Streamlit starts from an empty page; lines
      85-87 draw the header, lines 104-109 the transcript without its
      system turn, line 112 the input box, then lines 114-189 handle the
      submitted message. The session initialisation of lines 89-102 is
      [init_session_state], the identity on a session already set. *)
Definition script_run (user_input : option string) : PyM World (option TurnOut) :=
    py_modify (fun w => mkWorld (session w) (rng w) (net w) []);;
    draw_all page_header;;
    s ← get_session;
    draw_all (history_view (chat_history s));;
    draw chat_input_widget;;
    main_run user_input.
End Turn.

Arguments World G : clear implicits.

Section Props.
  Context {G : Type} `{PyRandom G} `{TextScorer}.

Lemma run_get_session (w : World G) : run get_session w = (inr (session w), w).
  Proof. reflexivity. Qed.

  #[local] Hint Rewrite run_get_session : pym.

  (** Unfold the turn and simplify the session records. *)
Ltac turn_simpl :=
    repeat (pym_simpl; cbn [view update rng_lens net_lens session rng net shown
                            chat_history pending_action current_phone need_phone
                            analyze_sentiment_py py_iadd_str] in *;
            try rewrite removelast_last in *).

Ltac turn_unfold :=
    unfold handle_input, new_phone_reply, followup_reply, append_message, set_pending,
      set_current_phone, modify_session, with_spinner, draw, draw_all; turn_simpl.

  (** Case on every intermediate result, for properties of all paths. *)
Ltac turn_cases :=
    repeat (turn_simpl; first
      [ match goal with
        | |- context [if ?b then _ else _] => let E := fresh "E" in destruct b eqn:E
        end
      | match goal with
        | |- context [match ?r with inl _ => _ | inr _ => _ end] =>
            let E := fresh "E" in destruct r eqn:E
        end
      | match goal with
        | |- context [match run ?m ?s with _ => _ end] =>
            lazymatch m with
            | mbind _ _ => fail
            | _ => let E := fresh "E" in destruct (run m s) as [[? | ?] ?] eqn:E
            end
        end ]).

Lemma followup_text_ok a : In a next_actions ->
    exists t, dict_getitem followup_texts (action_name a) = inr t.
  Proof. cbn. intros Ha. repeat destruct Ha as [<-|Ha]; eauto. destruct Ha. Qed.

  (** ** The branch with no pending action *)

  (** The idle turn, given the record the generator draws. *)
(** The spinner around a network call leaves no trace on the page,
    whether the call returns or raises. *)
Lemma with_spinner_net {A} text (m : PyM Net A) (w : World G) :
    run (with_spinner text (zoom net_lens m)) w =
    (fst (run m (net w)), mkWorld (session w) (rng w) (snd (run m (net w))) (shown w)).
  Proof.
    unfold with_spinner, draw, draw_all. turn_simpl.
    destruct (run m (net w)) as [[e|x] n']; reflexivity.
  Qed.

Lemma handle_input_idle_at (w : World G) u p g1 :
    pending_action (session w) = None -> run (get_mobile_info u) (rng w) = (inr p, g1) ->
    exists a t g2,
      run (choice next_actions) g1 = (inr a, g2) /\
      In a next_actions /\ dict_getitem followup_texts (action_name a) = inr t /\
      let hist1 := chat_history (session w) ++ [user_msg u] in
      let net' := mkNet (sent (net w) ++ [(ollama_url, chat_payload (hist1 ++ [user_msg (ai_prompt u p)]))])
                        (tail (outcomes (net w))) in
      run (handle_input u) w =
        match py_iadd_str (chat_result (head (outcomes (net w)))) (nl +:+ nl +:+ t) with
        | inl e => (inl e, mkWorld (mkSession hist1 None (Some p)) g2 net' (shown w))
        | inr v =>
            let s' := mkSession (hist1 ++ [assistant_msg v]) (Some a) (Some p) in
            match analyze_sentiment_py v with
            | inl e => (inl e, mkWorld s' g2 net' (shown w ++ [mistral_line v]))
            | inr lab => (inr (mkTurnOut v lab), mkWorld s' g2 net' (shown w ++ turn_view (mkTurnOut v lab)))
            end
        end.
  Proof.
    intros Hp Ep.
    destruct (choice_ok next_actions g1 ltac:(discriminate)) as (a & g2 & Ea & Ha).
    destruct (followup_text_ok a Ha) as [t Et].
    exists a, t, g2. split; [exact Ea|]. split; [exact Ha|]. split; [exact Et|].
    turn_unfold. rewrite Hp. turn_simpl. rewrite Ep. turn_simpl.
    rewrite mistral_chat_run. turn_simpl. rewrite Ea. turn_simpl. rewrite Et. turn_simpl.
    destruct (py_iadd_str _ _) as [e|v]; turn_simpl; [reflexivity|].
    destruct (analyze_sentiment_py v); turn_simpl; [reflexivity|].
    unfold turn_view. cbn [reply sentiment]. rewrite <- (app_assoc (shown w)). reflexivity.
  Qed.

Lemma handle_input_idle (w : World G) u :
    pending_action (session w) = None ->
    exists p a t g2,
      wf_phone p /\ In a next_actions /\ dict_getitem followup_texts (action_name a) = inr t /\
      let hist1 := chat_history (session w) ++ [user_msg u] in
      let net' := mkNet (sent (net w) ++ [(ollama_url, chat_payload (hist1 ++ [user_msg (ai_prompt u p)]))])
                        (tail (outcomes (net w))) in
      run (handle_input u) w =
        match py_iadd_str (chat_result (head (outcomes (net w)))) (nl +:+ nl +:+ t) with
        | inl e => (inl e, mkWorld (mkSession hist1 None (Some p)) g2 net' (shown w))
        | inr v =>
            let s' := mkSession (hist1 ++ [assistant_msg v]) (Some a) (Some p) in
            match analyze_sentiment_py v with
            | inl e => (inl e, mkWorld s' g2 net' (shown w ++ [mistral_line v]))
            | inr lab => (inr (mkTurnOut v lab), mkWorld s' g2 net' (shown w ++ turn_view (mkTurnOut v lab)))
            end
        end.
  Proof.
    intros Hp. destruct (get_mobile_info_desc u (rng w)) as (p & g1 & Ep & Wp & _).
    destruct (handle_input_idle_at w u p g1 Hp Ep) as (a & t & g2 & _ & Ha & Et & E).
    exists p, a, t, g2. auto.
  Qed.

  (** ** The branch with a pending action *)

  (** The session after a follow-up turn that set [pending] and replied [v]. *)
Definition after_followup (w : World G) u (pending : option Action) (v : JVal) : Session :=
    mkSession (chat_history (session w) ++ [user_msg u; assistant_msg v]) pending
              (current_phone (session w)).

  (** The world after a completed follow-up turn that returned [o]. *)
Definition after_world (w : World G) u (pending : option Action) (g : G) (o : TurnOut) : World G :=
    mkWorld (after_followup w u pending (reply o)) g (net w) (shown w ++ turn_view o).

Lemma app_two {A} (l : list A) x y : (l ++ [x]) ++ [y] = l ++ [x; y].
  Proof. rewrite <- app_assoc. reflexivity. Qed.

Lemma handle_input_decline (w : World G) a u :
    pending_action (session w) = Some a -> is_affirmative u = false ->
    let o := mkTurnOut (JStr skip_text) (analyze_sentiment skip_text) in
    run (handle_input u) w = (inr o, after_world w u None (rng w) o).
  Proof.
    intros Hp Ha. turn_unfold. rewrite Hp, Ha. turn_simpl.
    unfold after_world, after_followup, turn_view. cbn [reply sentiment]. rewrite !app_two. reflexivity.
  Qed.

Lemma handle_input_show_imei (w : World G) p u :
    pending_action (session w) = Some show_imei -> current_phone (session w) = Some p ->
    is_affirmative u = true ->
    exists q g', In q imei_next_questions /\
      let o := mkTurnOut (JStr (imei_text p +:+ nl +:+ nl +:+ q))
                         (analyze_sentiment (imei_text p +:+ nl +:+ nl +:+ q)) in
      run (handle_input u) w = (inr o, after_world w u (Some follow_up) g' o).
  Proof.
    intros Hp Hc Ha. destruct (choice_ok imei_next_questions (rng w) ltac:(discriminate)) as (q & g' & Eq & Hq).
    exists q, g'. split; [exact Hq|]. turn_unfold. rewrite Hp, Ha, Hc. turn_simpl. rewrite Eq.
    turn_simpl. unfold after_world, after_followup, turn_view. cbn [reply sentiment]. rewrite !app_two, Hc. reflexivity.
  Qed.

Lemma handle_input_compare (w : World G) u :
    pending_action (session w) = Some compare -> is_affirmative u = true ->
    exists c g', In c series_keys /\
      let o := mkTurnOut (JStr (compare_text c)) (analyze_sentiment (compare_text c)) in
      run (handle_input u) w = (inr o, after_world w u None g' o).
  Proof.
    intros Hp Ha. destruct (choice_ok series_keys (rng w) ltac:(discriminate)) as (c & g' & Ec & Hc).
    exists c, g'. split; [exact Hc|]. turn_unfold. rewrite Hp, Ha. turn_simpl. rewrite Ec.
    turn_simpl. unfold after_world, after_followup, turn_view. cbn [reply sentiment]. rewrite !app_two. reflexivity.
  Qed.

  (** The stored price parses back to its amount. *)
Lemma price_parses n : 0 <= n ->
    py_int_or_raise (replace (rupee +:+ str_of_Z n) rupee "") = inr n.
  Proof.
    intros Hn. unfold py_int_or_raise.
    rewrite replace_cons_match; [| discriminate | apply startswith_spec; eauto | cbn; discriminate].
    change (str_drop (String.length rupee) (rupee +:+ str_of_Z n)) with (str_of_Z n).
    rewrite (replace_digits rupee "" _ _ (str_of_Z n) eq_refl eq_refl (str_of_Z_digits n Hn)).
    cbn [String.append]. rewrite py_int_str_of_nonneg by exact Hn. reflexivity.
  Qed.

Lemma handle_input_resale (w : World G) p n u :
    pending_action (session w) = Some resale -> current_phone (session w) = Some p ->
    price p = rupee +:+ str_of_Z n -> 0 <= n -> is_affirmative u = true ->
    exists q g', (3 # 10 <= q)%Q /\ (q < 7 # 10)%Q /\
      let t := resale_text (py_trunc (inject_Z n * q)) in
      let o := mkTurnOut (JStr t) (analyze_sentiment t) in
      run (handle_input u) w = (inr o, after_world w u None g' o).
  Proof.
    intros Hp Hc Hpr Hn Ha.
    destruct (uniform_ok (3 # 10) (7 # 10) (rng w)) as (q & g' & Eu & Hlo & Hhi); [lra|].
    exists q, g'. split; [exact Hlo|]. split; [destruct Hhi; [assumption|lra]|].
    turn_unfold. rewrite Hp, Ha, Hc. turn_simpl. rewrite Hpr, price_parses by exact Hn.
    turn_simpl. rewrite Eu. turn_simpl. unfold after_world, after_followup, turn_view. cbn [reply sentiment]. rewrite !app_two, Hc. reflexivity.
  Qed.

Lemma handle_input_pros_cons (w : World G) u :
    pending_action (session w) = Some pros_cons -> is_affirmative u = true ->
    let o := mkTurnOut (JStr pros_cons_text) (analyze_sentiment pros_cons_text) in
    run (handle_input u) w = (inr o, after_world w u None (rng w) o).
  Proof.
    intros Hp Ha. turn_unfold. rewrite Hp, Ha. turn_simpl.
    unfold after_world, after_followup, turn_view. cbn [reply sentiment]. rewrite !app_two. reflexivity.
  Qed.

Lemma handle_input_follow_up (w : World G) u :
    pending_action (session w) = Some follow_up -> is_affirmative u = true ->
    let o := mkTurnOut (JStr okay_text) (analyze_sentiment okay_text) in
    run (handle_input u) w = (inr o, after_world w u (Some follow_up) (rng w) o).
  Proof.
    intros Hp Ha. turn_unfold. rewrite Hp, Ha. turn_simpl.
    unfold after_world, after_followup, turn_view. cbn [reply sentiment]. rewrite !app_two. reflexivity.
  Qed.

  (** On every path of the follow-up branch, raising or not: the network
      is untouched, the stored phone is kept, and the transcript grows
      by the user's message and whatever follows it. *)
Lemma followup_frame (w : World G) a u r w' :
    pending_action (session w) = Some a -> run (handle_input u) w = (r, w') ->
    net w' = net w /\ current_phone (session w') = current_phone (session w) /\
    exists ext, chat_history (session w') = chat_history (session w) ++ user_msg u :: ext /\
                (List.length ext <= 1)%nat.
  Proof.
    intros Hp. turn_unfold. rewrite Hp. destruct a; turn_cases; intros Ew;
      injection Ew as <- <-; cbn; (split; [reflexivity|]); (split; [reflexivity|]);
      eexists; (split; [rewrite <- ?app_assoc; reflexivity|cbn; lia]).
  Qed.

  (** The pending action after a completed follow-up turn. *)
Lemma followup_pending_after (w : World G) a u out w' :
    pending_action (session w) = Some a -> run (handle_input u) w = (inr out, w') ->
    pending_action (session w') =
      if is_affirmative u then
        match a with show_imei | follow_up => Some follow_up | _ => None end
      else None.
  Proof.
    intros Hp. turn_unfold. rewrite Hp. destruct a; turn_cases; intros Ew;
      inversion Ew; subst; cbn; congruence.
  Qed.

  (** The float-to-int conversion [int(q)] of a non-negative [q]. *)
Lemma py_trunc_bounds q : (0 <= q)%Q ->
    (inject_Z (py_trunc q) <= q)%Q /\ (q < inject_Z (py_trunc q + 1))%Q.
  Proof.
    destruct q as [num den]. unfold py_trunc, Qle, Qlt. cbn. intros Hq.
    rewrite Z.quot_div_nonneg by lia.
    pose proof (Z.mul_div_le num (Zpos den) ltac:(lia)).
    pose proof (Z.mul_succ_div_gt num (Zpos den) ltac:(lia)). lia.
  Qed.

  (** The resale estimate [int(n * u)] for [0.3 <= u < 0.7]. *)
Lemma resale_value_bounds n u : 0 < n -> (3 # 10 <= u)%Q -> (u < 7 # 10)%Q ->
    3 * n < 10 * (py_trunc (inject_Z n * u) + 1) /\ 10 * py_trunc (inject_Z n * u) < 7 * n.
  Proof.
    intros Hn Hlo Hhi.
    assert (Hn' : (0 < inject_Z n)%Q) by (change 0%Q with (inject_Z 0); rewrite <- Zlt_Qlt; lia).
    destruct (py_trunc_bounds (inject_Z n * u)) as [Hr1 Hr2]; [nra|].
    assert (H1 : (inject_Z n * (3 # 10) <= inject_Z n * u)%Q) by (apply Qmult_le_l; assumption).
    assert (H2 : (inject_Z n * u < inject_Z n * (7 # 10))%Q) by (apply Qmult_lt_l; assumption).
    set (r := py_trunc (inject_Z n * u)) in *.
    split; rewrite Zlt_Qlt; rewrite ?inject_Z_mult, ?inject_Z_plus in *;
      change (inject_Z 1) with 1%Q in *; change (inject_Z 3) with 3%Q;
      change (inject_Z 7) with 7%Q; change (inject_Z 10) with 10%Q;
      set (m := (inject_Z n * u)%Q) in *; set (N := inject_Z n) in *;
      set (R := inject_Z r) in *; lra.
  Qed.

  (** ** Runs of the script and the session invariant *)

Inductive Reachable : World G -> Prop :=
  | reach_start g n o : Reachable (mkWorld (init_session_state empty_session_state) g n o)
  | reach_run w u r w' : Reachable w -> run (main_run u) w = (r, w') -> Reachable w'
  | reach_env w g n o : Reachable w -> Reachable (mkWorld (session w) g n o).

Definition session_inv (s : Session) : Prop :=
    (exists rest, chat_history s = system_msg :: rest) /\
    (forall p, current_phone s = Some p -> wf_phone p) /\
    (pending_action s <> None -> exists p, current_phone s = Some p).

Lemma main_run_cases (w : World G) u r w' :
    run (main_run u) w = (r, w') -> w' = w \/ exists s r', run (handle_input s) w = (r', w').
  Proof.
    unfold main_run. destruct u as [s|]; [destruct (str_truthy s)|]; pym_simpl; try (intros [= _ <-]; auto).
    destruct (run (handle_input s) w) as [[e|o] w''] eqn:E; intros [= _ <-]; right; eauto.
  Qed.

Lemma handle_input_inv (w : World G) u r w' :
    session_inv (session w) -> run (handle_input u) w = (r, w') -> session_inv (session w').
  Proof.
    intros (Hh & Hc & Hpc) Hrun. destruct (pending_action (session w)) as [a|] eqn:Hp.
    - destruct (followup_frame w a u r w' Hp Hrun) as (_ & Ec & ext & Eh & _).
      destruct Hh as [rest Hh]. unfold session_inv. rewrite Ec. split; [|split].
      + rewrite Eh, Hh. eexists. reflexivity.
      + exact Hc.
      + intros _. apply Hpc. congruence.
    - destruct (handle_input_idle w u Hp) as (p & a & t & g2 & Wp & _ & _ & E).
      rewrite E in Hrun. destruct Hh as [rest Hh].
      destruct (py_iadd_str _ _) as [e|v]; [|destruct (analyze_sentiment_py v)];
        injection Hrun as _ <-; cbn; rewrite Hh;
        (split; [eexists; reflexivity|]); (split; [intros ? [= <-]; exact Wp|eauto]).
  Qed.

(** The script run over a sequence of submitted messages, in order. *)
Fixpoint handle_inputs (us : list string) : PyM (World G) (list TurnOut) :=
  match us with
  | [] => mret []
  | u :: us' => o ← handle_input u; os ← handle_inputs us'; mret (o :: os)
  end.

Lemma reachable_inv w : Reachable w -> session_inv (session w).
Proof.
  induction 1 as [g n o| w u r w' _ IH Hrun| w g n o _ IH].
  - unfold session_inv; cbn. split; [eexists; reflexivity|].
    split; [discriminate|]. intros []; reflexivity.
  - destruct (main_run_cases w u r w' Hrun) as [->|(s & r' & E)]; [exact IH|].
    eapply handle_input_inv; eauto.
  - exact IH.
Qed.

(** ** The follow-up protocol of the spec (section 4.3) *)

Inductive Phase := Idle | Awaiting (a : Action).

Definition phase_of (s : Session) : Phase :=
  match pending_action s with None => Idle | Some a => Awaiting a end.

(** The spec's state machine: from idle any message leads to one of the
    four actions; a decline returns to idle; yes to show_imei leads to
    follow_up; yes to any other action returns to idle. *)
Inductive SpecStep : Phase -> string -> Phase -> Prop :=
| spec_new u a : In a next_actions -> SpecStep Idle u (Awaiting a)
| spec_decline a u : is_affirmative u = false -> SpecStep (Awaiting a) u Idle
| spec_show_imei u : is_affirmative u = true -> SpecStep (Awaiting show_imei) u (Awaiting follow_up)
| spec_answer a u : In a [compare; resale; pros_cons; follow_up] -> is_affirmative u = true ->
    SpecStep (Awaiting a) u Idle.

(** C1: From the idle state (no pending action), a turn whose model call
    yields a string [t] (an answer, or one of the caught-failure warnings)
    completes: the session stores a generated well-formed record as the
    current phone, one of the four actions show_imei, compare, resale,
    pros_cons becomes pending, the reply is [t] followed by that action's
    question, the transcript gains the user's message and the reply, and
    exactly one payload is posted: the transcript with the user's message
    and the prompt turn built from the record. *)
Theorem idle_turn_sets_pending (w : World G) u t :
  pending_action (session w) = None ->
  chat_result (head (outcomes (net w))) = JStr t ->
  exists p a q out w',
    run (handle_input u) w = (inr out, w') /\ wf_phone p /\ In a next_actions /\
    dict_getitem followup_texts (action_name a) = inr q /\
    reply out = JStr (t +:+ nl +:+ nl +:+ q) /\
    session w' = mkSession (chat_history (session w) ++ [user_msg u; assistant_msg (reply out)])
                           (Some a) (Some p) /\
    sent (net w') = sent (net w) ++
      [(ollama_url, chat_payload (chat_history (session w) ++ [user_msg u; user_msg (ai_prompt u p)]))].
Proof.
  intros Hp Hc. destruct (handle_input_idle w u Hp) as (p & a & q & g2 & Wp & Ha & Eq & E).
  rewrite Hc in E. cbn [py_iadd_str analyze_sentiment_py] in E.
  eexists p, a, q, _, _. split; [exact E|]. cbn. rewrite <- !app_assoc. auto 7.
Qed.

(** C2: Whatever action is pending, a message without an affirmation
    ("yes", "yeah", "sure", "ok", "of course", case-insensitive, as
    substrings) gets the fixed reply "Alright, skipping that step.",
    clears the pending action, keeps the stored phone, and neither draws
    a random number nor calls the model. *)
Theorem decline_resets (w : World G) a u :
  pending_action (session w) = Some a -> is_affirmative u = false ->
  exists out w', run (handle_input u) w = (inr out, w') /\ reply out = JStr skip_text /\
    pending_action (session w') = None /\
    current_phone (session w') = current_phone (session w) /\ rng w' = rng w /\ net w' = net w.
Proof.
  intros Hp Ha. rewrite (handle_input_decline w a u Hp Ha). eexists _, _. repeat split.
Qed.

(** C3: Once "follow_up" is pending, affirmative messages never leave it:
    every one gets "Okay!", the pending action stays "follow_up", and no
    model call or random draw happens, however many there are. The spec
    (section 4.3) says the turn falls through to a generic reply and goes
    back to idle; in the code the [else] branch does not reset
    [pending_action], so a user who keeps answering "yes" never reaches a
    new phone lookup. *)
Theorem followup_affirm_stuck (w : World G) us :
  pending_action (session w) = Some follow_up ->
  Forall (fun u => is_affirmative u = true) us ->
  exists outs w', run (handle_inputs us) w = (inr outs, w') /\
    Forall (fun o => reply o = JStr okay_text) outs /\ List.length outs = List.length us /\
    pending_action (session w') = Some follow_up /\ net w' = net w /\ rng w' = rng w.
Proof.
  intros Hp Hall. revert w Hp. induction Hall as [|u us Hu _ IH]; intros w Hp.
  - exists [], w. split; [reflexivity|]. split; [constructor|]. auto.
  - cbn [handle_inputs]. rewrite run_bind, (handle_input_follow_up w u Hp Hu), run_bind.
    destruct (IH (after_world w u (Some follow_up) (rng w) (mkTurnOut (JStr okay_text) (analyze_sentiment okay_text)))
                eq_refl) as (outs & w' & E & Ho & Hl & Hp' & Hn & Hr).
    rewrite E. eexists _, w'. split; [reflexivity|]. cbn in *.
    split; [constructor; [reflexivity|exact Ho]|]. split; [cbn; congruence|]. auto.
Qed.

(** C4: In every session reachable by runs of the script (from the first
    run, through any submitted messages, raising or not, and any change of
    the random generator or the network), the transcript starts with the
    fixed system message, a stored phone satisfies the record invariant,
    and a pending action always has a stored phone to refer to. *)
Theorem reachable_session_inv w :
  Reachable w ->
  (exists rest, chat_history (session w) = system_msg :: rest) /\
  (forall p, current_phone (session w) = Some p -> wf_phone p) /\
  (pending_action (session w) <> None -> exists p, current_phone (session w) = Some p).
Proof. intros Hr. exact (reachable_inv w Hr). Qed.

(** C5: In a reachable session with a pending action, the follow-up turn
    never raises, whatever the message: the stored phone exists when
    show_imei or resale reads it, and its price "₹n" parses back with
    [int(...replace('₹', ''))] (the spec's open question on malformed
    prices, section 7, cannot arise in main1.py). *)
Theorem reachable_followup_no_raise w a u :
  Reachable w -> pending_action (session w) = Some a ->
  exists out w', run (handle_input u) w = (inr out, w').
Proof.
  intros Hr Hp. destruct (reachable_inv w Hr) as (_ & Hc & Hpc).
  destruct (Hpc ltac:(congruence)) as [p Ep].
  destruct (is_affirmative u) eqn:Ha; [|rewrite (handle_input_decline w a u Hp Ha); eauto].
  destruct a.
  - destruct (handle_input_show_imei w p u Hp Ep Ha) as (q & g' & _ & E). eauto.
  - destruct (handle_input_compare w u Hp Ha) as (c & g' & _ & E). eauto.
  - destruct (Hc p Ep) as (_ & _ & _ & _ & _ & (n & Hn & Hpr) & _).
    destruct (handle_input_resale w p n u Hp Ep Hpr ltac:(lia) Ha) as (q & g' & _ & _ & E). eauto.
  - rewrite (handle_input_pros_cons w u Hp Ha). eauto.
  - rewrite (handle_input_follow_up w u Hp Ha). eauto.
Qed.

(** C6: Answering yes to the resale question for a phone priced "₹n"
    ([n > 0]) replies "The estimated resale value is around ₹r." with
    [r = int(n * uniform(0.3, 0.7))], so [0.3 n - 1 < r <= 0.7 n]
    (for n = 50000: 15000 <= r <= 35000, spec scenario 2), and clears the
    pending action. The model computes on exact rationals, where
    [r < 0.7 n]; the bound stated is the one that also holds with double
    rounding, where [uniform] can return the double 0.7 and
    [50000 * 0.7] rounds to 35000. *)
Theorem resale_bounds (w : World G) p n u :
  pending_action (session w) = Some resale -> current_phone (session w) = Some p ->
  price p = rupee +:+ str_of_Z n -> 0 < n -> is_affirmative u = true ->
  exists r out w', run (handle_input u) w = (inr out, w') /\ reply out = JStr (resale_text r) /\
    3 * n < 10 * (r + 1) /\ 10 * r <= 7 * n /\ pending_action (session w') = None.
Proof.
  intros Hp Hc Hpr Hn Ha.
  destruct (handle_input_resale w p n u Hp Hc Hpr ltac:(lia) Ha) as (q & g' & Hlo & Hhi & E).
  destruct (resale_value_bounds n q Hn Hlo Hhi) as [B1 B2].
  eexists _, _, _. split; [exact E|]. cbn. split; [reflexivity|].
  split; [exact B1|]. split; [lia|reflexivity].
Qed.

(** C7: Refinement of the spec's protocol. Every completed turn moves
    the abstract phase (idle, or awaiting an action) by a step of
    [SpecStep], the state machine of spec section 4.3, except an
    affirmative answer while "follow_up" is pending, where the code stays
    put (see C3). *)
Theorem turn_refines_spec (w : World G) u out w' :
  run (handle_input u) w = (inr out, w') ->
  ~ (pending_action (session w) = Some follow_up /\ is_affirmative u = true) ->
  SpecStep (phase_of (session w)) u (phase_of (session w')).
Proof.
  intros Hrun Hnot. unfold phase_of. destruct (pending_action (session w)) as [a|] eqn:Hp.
  - rewrite (followup_pending_after w a u out w' Hp Hrun).
    destruct (is_affirmative u) eqn:Ha; [|constructor; exact Ha].
    destruct a; try (apply spec_answer; [cbn; tauto|exact Ha]).
    + apply spec_show_imei, Ha.
    + exfalso. auto.
  - destruct (handle_input_idle w u Hp) as (p & a & t & g2 & _ & Ha & _ & E).
    rewrite E in Hrun.
    destruct (py_iadd_str _ _) as [e|v]; [discriminate|].
    destruct (analyze_sentiment_py v); [discriminate|].
    injection Hrun as _ <-. constructor. exact Ha.
Qed.

(** C8: A turn with a pending action, whatever its outcome (including a
    raised exception), makes no request to the model, keeps the stored
    phone, and adds to the transcript the user's message and at most one
    reply. *)
Theorem followup_no_gateway_call (w : World G) a u r w' :
  pending_action (session w) = Some a -> run (handle_input u) w = (r, w') ->
  sent (net w') = sent (net w) /\ outcomes (net w') = outcomes (net w) /\
  current_phone (session w') = current_phone (session w).
Proof.
  intros Hp Hrun. destruct (followup_frame w a u r w' Hp Hrun) as (En & Ec & _). rewrite En. auto.
Qed.

(** C9: A failure of the model call from the idle state (the POST raises,
    the answer is not JSON, or no server answers) does not abort the turn:
    the reply is the warning "⚠️ Mistral Error: ..." followed by the
    follow-up question, and the drawn action becomes pending. *)
Theorem gateway_fault_no_abort (w : World G) u e :
  pending_action (session w) = None ->
  head (outcomes (net w)) = Some (PostFailed e) \/
  head (outcomes (net w)) = Some (Responded (inl e)) \/
  (outcomes (net w) = [] /\ e = RequestError "Connection refused") ->
  exists a q out w', run (handle_input u) w = (inr out, w') /\ In a next_actions /\
    reply out = JStr (mistral_error_text e +:+ nl +:+ nl +:+ q) /\
    pending_action (session w') = Some a.
Proof.
  intros Hp Ho. destruct (handle_input_idle w u Hp) as (p & a & q & g2 & _ & Ha & _ & E).
  assert (Hc : chat_result (head (outcomes (net w))) = JStr (mistral_error_text e)).
  { destruct Ho as [Ho|[Ho|[Ho ->]]]; rewrite Ho; reflexivity. }
  rewrite Hc in E. cbn [py_iadd_str analyze_sentiment_py] in E.
  eexists a, q, _, _. split; [exact E|]. auto.
Qed.

(** C10: The spec says a gateway failure never aborts the turn, but an
    answer of the right shape whose "content" is neither a string nor a
    list (a number, a boolean, null or an object) makes [ai_reply += ...]
    raise TypeError: the turn aborts after the user's message was appended
    and the new phone stored, no reply is recorded, and no action becomes
    pending. *)
Theorem malformed_content_aborts (w : World G) u kvs m c :
  pending_action (session w) = None ->
  head (outcomes (net w)) = Some (Responded (inr (JObj kvs))) ->
  obj_get kvs "message" = Some (JObj m) -> obj_get m "content" = Some c ->
  (forall t, c <> JStr t) -> (forall xs, c <> JArr xs) ->
  exists e p w', run (handle_input u) w = (inl e, w') /\ wf_phone p /\
    session w' = mkSession (chat_history (session w) ++ [user_msg u]) None (Some p).
Proof.
  intros Hp Ho Hm Hc Hs Ha. destruct (handle_input_idle w u Hp) as (p & a & q & g2 & Wp & _ & _ & E).
  assert (Hr : chat_result (head (outcomes (net w))) = c).
  { rewrite Ho. cbv beta iota zeta delta [chat_result py_contains py_getitem].
    rewrite (obj_get_key _ _ _ Hm), Hm, Hc. reflexivity. }
  rewrite Hr in E.
  destruct c as [| | |t|xs|]; [| | |exfalso; exact (Hs t eq_refl)|exfalso; exact (Ha xs eq_refl)|];
    cbn in E; (eexists _, p, _; split; [exact E|split; [exact Wp|reflexivity]]).
Qed.

(** C11: The transcript is append-only: every turn, completed or raising,
    keeps the previous transcript (and so the system message) as a prefix
    and appends the user's message and at most one reply. *)
Theorem history_append_only (w : World G) u r w' :
  run (handle_input u) w = (r, w') ->
  exists ext, chat_history (session w') = chat_history (session w) ++ user_msg u :: ext /\
    (List.length ext <= 1)%nat.
Proof.
  intros Hrun. destruct (pending_action (session w)) as [a|] eqn:Hp.
  - destruct (followup_frame w a u r w' Hp Hrun) as (_ & _ & H2). exact H2.
  - destruct (handle_input_idle w u Hp) as (p & a & t & g2 & _ & _ & _ & E).
    rewrite E in Hrun.
    destruct (py_iadd_str _ _) as [e|v]; [|destruct (analyze_sentiment_py v)];
      injection Hrun as _ <-; cbn; eexists; (split; [rewrite <- ?app_assoc; reflexivity|cbn; lia]).
Qed.

(** C22: Yes to the IMEI question replies "The IMEI number for <make>
    <series> <model> is **<imei>**." followed by one of the three further
    questions, makes "follow_up" pending (not the action the question is
    about), keeps the stored phone and calls no model. *)
Theorem show_imei_affirm (w : World G) p u :
  pending_action (session w) = Some show_imei -> current_phone (session w) = Some p ->
  is_affirmative u = true ->
  exists q out w', run (handle_input u) w = (inr out, w') /\ In q imei_next_questions /\
    reply out = JStr (imei_text p +:+ nl +:+ nl +:+ q) /\
    pending_action (session w') = Some follow_up /\ current_phone (session w') = Some p /\
    net w' = net w.
Proof.
  intros Hp Hc Ha. destruct (handle_input_show_imei w p u Hp Hc Ha) as (q & g' & Hq & E).
  eexists q, _, _. split; [exact E|]. cbn. auto.
Qed.

(** C23: Yes to the compare question names a series of the table as
    comparable; yes to the pros-and-cons question gives the fixed text
    and draws nothing. Both clear the pending action and call no model. *)
Theorem compare_pros_cons_affirm (w : World G) u :
  is_affirmative u = true ->
  (pending_action (session w) = Some compare ->
   exists c out w', run (handle_input u) w = (inr out, w') /\ In c series_keys /\
     reply out = JStr (compare_text c) /\ pending_action (session w') = None /\ net w' = net w) /\
  (pending_action (session w) = Some pros_cons ->
   exists out w', run (handle_input u) w = (inr out, w') /\ reply out = JStr pros_cons_text /\
     pending_action (session w') = None /\ net w' = net w /\ rng w' = rng w).
Proof.
  intros Ha. split; intros Hp.
  - destruct (handle_input_compare w u Hp Ha) as (c & g' & Hc & E).
    eexists c, _, _. split; [exact E|]. cbn. auto.
  - rewrite (handle_input_pros_cons w u Hp Ha). eexists _, _. split; [reflexivity|]. cbn. auto.
Qed.

(** Spec scenario 1 at the level of the turn: from the idle state,
    "iPhone 15" stores a phone of series "iPhone" and make "Apple" and
    makes one of the four actions pending, whenever the model call yields
    a string. *)
Theorem iphone_turn_scenario (w : World G) t :
  pending_action (session w) = None -> chat_result (head (outcomes (net w))) = JStr t ->
  exists p a out w', run (handle_input "iPhone 15") w = (inr out, w') /\
    current_phone (session w') = Some p /\ series p = "iPhone" /\ make p = "Apple" /\
    pending_action (session w') = Some a /\ In a next_actions.
Proof.
  intros Hp Hc.
  destruct (get_mobile_info_resolved "iPhone 15" "iPhone" (rng w)) as (p & g1 & E & _ & S & B & _);
    [vm_compute; reflexivity|].
  destruct (handle_input_idle_at w "iPhone 15" p g1 Hp E) as (a & q & g2 & _ & Ha & _ & Erun).
  rewrite Hc in Erun. cbn [py_iadd_str analyze_sentiment_py] in Erun.
  eexists p, a, _, _. split; [exact Erun|]. cbn. split; [reflexivity|]. split; [exact S|].
  split; [cbn in B; congruence|]. auto.
Qed.

(** C31: Spec section 4.4: in every reachable session, an idle turn,
    completed or raising, posts exactly one payload: the transcript the
    session held before the turn, entry for entry and with no truncation
    (it starts with the system instruction), followed by the user's
    message and the prompt turn built from the phone the turn stores. *)
Theorem reachable_payload_has_system (w : World G) u r w' :
  Reachable w -> pending_action (session w) = None -> run (handle_input u) w = (r, w') ->
  (exists rest, chat_history (session w) = system_msg :: rest) /\
  exists p, current_phone (session w') = Some p /\
    sent (net w') = sent (net w) ++
      [(ollama_url, chat_payload (chat_history (session w) ++ [user_msg u; user_msg (ai_prompt u p)]))].
Proof.
  intros Hr Hp Hrun. destruct (reachable_inv w Hr) as (Hh & _ & _). split; [exact Hh|].
  destruct (handle_input_idle w u Hp) as (p & a & t & g2 & _ & _ & _ & E).
  rewrite E in Hrun. exists p.
  destruct (py_iadd_str _ _) as [e|v]; [|destruct (analyze_sentiment_py v)];
    injection Hrun as _ <-; cbn; rewrite <- app_assoc; split; reflexivity.
Qed.

(** What a completed turn leaves: the transcript and the page each grow
    by the two entries of the turn, in order. *)
Lemma completed_turn_frame (w : World G) u out w' :
  run (handle_input u) w = (inr out, w') ->
  chat_history (session w') = chat_history (session w) ++ [user_msg u; assistant_msg (reply out)] /\
  shown w' = shown w ++ turn_view out.
Proof.
  destruct (pending_action (session w)) as [a|] eqn:Hp.
  - turn_unfold. rewrite Hp. destruct a; turn_cases; intros Ew;
      first [discriminate Ew | injection Ew as <- <-; cbn; rewrite <- !app_assoc; split; reflexivity].
  - destruct (handle_input_idle w u Hp) as (p & a & t & g2 & _ & _ & _ & E). rewrite E.
    destruct (py_iadd_str _ _) as [e|v]; [discriminate|].
    destruct (analyze_sentiment_py v); [discriminate|].
    intros Ew. injection Ew as <- <-. cbn. rewrite <- app_assoc. split; reflexivity.
Qed.

(** A completed turn appends to the transcript exactly two entries:
    the user's message and the reply the turn returns (the reply shown is
    the reply recorded). *)
Theorem completed_turn_history (w : World G) u out w' :
  run (handle_input u) w = (inr out, w') ->
  chat_history (session w') = chat_history (session w) ++ [user_msg u; assistant_msg (reply out)].
Proof. intros E. apply (completed_turn_frame w u out w' E). Qed.

(** [chat_history[1:]] of a transcript that has its first entry. *)
Lemma history_view_app h l : h <> [] -> history_view (h ++ l) = history_view h ++ map message_view l.
Proof. destruct h; [congruence|]. intros _. unfold history_view. cbn. apply map_app. Qed.

(** C33: The page of a run with a submitted message: the header, the
    transcript as it was before the message (without the system turn, each
    entry tagged "You" or "Mistral"), the input box, then the reply and its
    sentiment. The message itself is not drawn in that run (line 115
    appends it after the history was drawn); the next run draws it, with
    the reply, at the end of the history. *)
Theorem script_run_page (w : World G) u out w' :
  str_truthy u = true -> chat_history (session w) <> [] ->
  run (script_run (Some u)) w = (inr (Some out), w') ->
  shown w' = page_header ++ history_view (chat_history (session w)) ++ chat_input_widget :: turn_view out /\
  history_view (chat_history (session w')) =
    history_view (chat_history (session w)) ++ [Markdown ("🧑‍💻 **You:** " +:+ u); mistral_line (reply out)].
Proof.
  intros Hu Hh. unfold script_run, main_run, draw, draw_all. rewrite Hu. turn_simpl.
  match goal with |- context [run (handle_input u) ?w1] =>
    destruct (run (handle_input u) w1) as [[e|o] w2] eqn:E end; pym_simpl; [discriminate|].
  intros [= <- <-]. destruct (completed_turn_frame _ u o w2 E) as [Eh Es]. cbn in Eh, Es.
  rewrite Es, Eh, history_view_app by exact Hh. rewrite <- !app_assoc. split; reflexivity.
Qed.

(** C34: The follow_up loop of C3 is no trap. From any state, at most two
    messages, a decline and then the query [u], make the script look up
    a new phone: a well-formed record for [u] becomes the current phone
    and the model is called exactly once, whatever the server answers. *)
Theorem new_lookup_within_two (w : World G) u :
  exists us r w' p, run (handle_inputs us) w = (r, w') /\ (List.length us <= 2)%nat /\
    last us = Some u /\ current_phone (session w') = Some p /\ wf_phone p /\
    exists payload, sent (net w') = sent (net w) ++ [(ollama_url, payload)].
Proof.
  assert (Hidle : forall w0 : World G, pending_action (session w0) = None ->
            exists r w' p, run (handle_inputs [u]) w0 = (r, w') /\ current_phone (session w') = Some p /\
              wf_phone p /\ exists payload, sent (net w') = sent (net w0) ++ [(ollama_url, payload)]).
  { intros w0 Hp. destruct (handle_input_idle w0 u Hp) as (p & a & t & g2 & Wp & _ & _ & E).
    cbn [handle_inputs]. rewrite run_bind, E.
    destruct (py_iadd_str _ _) as [e|v]; [|destruct (analyze_sentiment_py v)]; pym_simpl;
      eexists _, _, p; (split; [reflexivity|]); cbn; eauto. }
  destruct (pending_action (session w)) as [a|] eqn:Hp.
  - destruct (Hidle (after_world w "no" None (rng w) (mkTurnOut (JStr skip_text) (analyze_sentiment skip_text)))
                eq_refl) as (r & w' & p & E & Hc & Wp & pl & Hs).
    exists ["no"; u]. cbn [handle_inputs] in *.
    rewrite run_bind, (handle_input_decline w a "no" Hp eq_refl). cbv zeta. rewrite run_bind, E.
    destruct r; eexists _, _, p; (split; [reflexivity|]); (split; [cbn; lia|]); (split; [reflexivity|]); eauto.
  - destruct (Hidle w Hp) as (r & w' & p & E & Hc & Wp & pl & Hs).
    exists [u], r, w', p. split; [exact E|]. split; [cbn; lia|]. split; [reflexivity|]. eauto.
Qed.

End Props.



Section Adequacy.
Context `{TextScorer}.

(** C28: The converse of C7 on the idle state: every step the spec's
    machine allows from idle is taken by the code for some outcome of the
    random generator. For each of the four actions there is a generator
    (every draw equal to some [k]) with which the turn, given a string
    from the model, ends awaiting that action. *)
Theorem idle_step_adequate (s : Session) (n : Net) (o : list Element) u t a :
  pending_action s = None -> chat_result (head (outcomes n)) = JStr t -> In a next_actions ->
  exists k out w', run (handle_input u) (mkWorld s (mkConst k) n o) = (inr out, w') /\
    SpecStep Idle u (phase_of (session w')) /\ phase_of (session w') = Awaiting a.
Proof.
  intros Hp Hc Ha.
  assert (Hk : exists k, run (choice next_actions) (mkConst k) = (inr a, mkConst k))
    by (repeat destruct Ha as [<-|Ha]; [exists 0|exists 1|exists 2|exists 3|destruct Ha]; reflexivity).
  destruct Hk as [k Ek]. destruct (get_mobile_info_const u k) as [p Ep].
  destruct (handle_input_idle_at (mkWorld s (mkConst k) n o) u p (mkConst k) Hp Ep)
    as (a' & t' & g2 & Ec & _ & _ & E).
  rewrite Ek in Ec. injection Ec as <- <-. cbn in E. rewrite Hc in E. cbn in E.
  eexists k, _, _. split; [exact E|]. cbn. split; [constructor; exact Ha|reflexivity].
Qed.
End Adequacy.

(** ** Concrete runs

    A replayed tape of random draws, scripted answers of the server, and a
    scorer that rates every text 0. *)
#[local] Instance neutral_scorer : TextScorer := {| polarity _ := 0%Q |}.

Definition demo_answer (content : JVal) : HttpOutcome :=
  Responded (inr (JObj [("message", JObj [("content", content)])])).

Definition idle_world (o : HttpOutcome) : World Tape :=
  mkWorld (init_session_state empty_session_state)
          (mkTape [3; 5; 1; 40000; 123456789; 2]%Z) (mkNet [] [o]) [].

Definition w_idle : World Tape := idle_world (demo_answer (JStr "Nice phone!")).

Definition demo_phone : PhoneInfo :=
  mkPhone "Apple" "iPhone" "Iphone 15" 2021 (Some 2021%Z) "Used" (rupee +:+ "50000") "100000123456789".

Definition w_await (a : Action) : World Tape :=
  mkWorld (mkSession [system_msg; user_msg "iPhone 15"; assistant_msg (JStr "Nice phone!")]
                     (Some a) (Some demo_phone))
          (mkTape [7]%Z) (mkNet [] []) [].

Definition turn1 := run (handle_input "iPhone 15") w_idle.
Definition turn1_out : TurnOut :=
  match fst turn1 with inr o => o | inl _ => mkTurnOut JNull "" end.

Lemma idle_turn_sets_pending_witness :
  exists a out w', run (handle_input "iPhone 15") w_idle = (inr out, w') /\
    pending_action (session w') = Some a /\ In a next_actions.
Proof.
  destruct (idle_turn_sets_pending w_idle "iPhone 15" "Nice phone!" eq_refl eq_refl)
    as (p & a & q & out & w' & E & _ & Ha & _ & _ & S & _).
  exists a, out, w'. rewrite S. auto.
Defined.

Lemma decline_resets_witness :
  exists out w', run (handle_input "no thanks") (w_await show_imei) = (inr out, w') /\
    pending_action (session w') = None.
Proof.
  destruct (decline_resets (w_await show_imei) show_imei "no thanks" eq_refl eq_refl)
    as (out & w' & E & _ & P & _). eauto.
Defined.

Lemma followup_affirm_stuck_witness :
  exists outs w', run (handle_inputs ["yes"; "OK, sure"; "yeah"]) (w_await follow_up) = (inr outs, w') /\
    pending_action (session w') = Some follow_up.
Proof.
  destruct (followup_affirm_stuck (w_await follow_up) ["yes"; "OK, sure"; "yeah"] eq_refl
              ltac:(repeat constructor)) as (outs & w' & E & _ & _ & P & _). eauto.
Defined.

Lemma reachable_after_turn1 : Reachable (snd (run (main_run (Some "iPhone 15")) w_idle)).
Proof.
  apply (reach_run w_idle (Some "iPhone 15") (fst (run (main_run (Some "iPhone 15")) w_idle))).
  - apply reach_start.
  - vm_compute. reflexivity.
Qed.

Lemma reachable_session_inv_witness :
  exists rest, chat_history (session (snd (run (main_run (Some "iPhone 15")) w_idle))) = system_msg :: rest.
Proof. apply (reachable_session_inv _ reachable_after_turn1). Defined.

Lemma reachable_followup_no_raise_witness :
  exists out w', run (handle_input "yes") (snd (run (main_run (Some "iPhone 15")) w_idle)) = (inr out, w').
Proof. apply (reachable_followup_no_raise _ resale "yes" reachable_after_turn1). reflexivity. Defined.

Lemma resale_bounds_witness :
  exists r out w', run (handle_input "yes") (w_await resale) = (inr out, w') /\
    reply out = JStr (resale_text r) /\ 15000 <= r <= 35000.
Proof.
  destruct (resale_bounds (w_await resale) demo_phone 50000 "yes" eq_refl eq_refl eq_refl
              ltac:(lia) eq_refl) as (r & out & w' & E & R & B1 & B2 & _).
  exists r, out, w'. split; [exact E|]. split; [exact R|lia].
Defined.

Lemma turn_refines_spec_witness :
  SpecStep (phase_of (session w_idle)) "iPhone 15" (phase_of (session (snd turn1))).
Proof.
  apply (turn_refines_spec w_idle "iPhone 15" turn1_out (snd turn1)).
  - vm_compute. reflexivity.
  - intros [Hp _]. discriminate Hp.
Defined.

Lemma followup_no_gateway_call_witness :
  sent (net (snd (run (handle_input "sure") (w_await compare)))) = [].
Proof.
  assert (E : run (handle_input "sure") (w_await compare) =
              (fst (run (handle_input "sure") (w_await compare)),
               snd (run (handle_input "sure") (w_await compare)))) by (vm_compute; reflexivity).
  destruct (followup_no_gateway_call (w_await compare) compare "sure" _ _ eq_refl E) as [S _].
  exact S.
Defined.

Lemma gateway_fault_no_abort_witness :
  exists a out w', run (handle_input "iPhone 15") (idle_world (PostFailed (RequestError "Connection refused")))
    = (inr out, w') /\ pending_action (session w') = Some a.
Proof.
  destruct (gateway_fault_no_abort (idle_world (PostFailed (RequestError "Connection refused")))
              "iPhone 15" (RequestError "Connection refused") eq_refl (or_introl eq_refl))
    as (a & q & out & w' & E & _ & _ & P). eauto.
Defined.

Lemma malformed_content_aborts_witness :
  exists e w', run (handle_input "iPhone 15") (idle_world (demo_answer (JNum 5))) = (inl e, w') /\
    pending_action (session w') = None.
Proof.
  destruct (malformed_content_aborts (idle_world (demo_answer (JNum 5))) "iPhone 15"
              [("message", JObj [("content", JNum 5)])] [("content", JNum 5)] (JNum 5)
              eq_refl eq_refl eq_refl eq_refl ltac:(discriminate) ltac:(discriminate))
    as (e & p & w' & E & _ & S). exists e, w'. rewrite S. auto.
Defined.

Lemma history_append_only_witness :
  exists ext, chat_history (session (snd turn1)) = chat_history (session w_idle) ++ user_msg "iPhone 15" :: ext.
Proof.
  assert (E : run (handle_input "iPhone 15") w_idle = (fst turn1, snd turn1)) by (vm_compute; reflexivity).
  destruct (history_append_only w_idle "iPhone 15" (fst turn1) (snd turn1) E) as (ext & E' & _).
  eauto.
Defined.

Lemma show_imei_affirm_witness :
  exists out w', run (handle_input "yes") (w_await show_imei) = (inr out, w') /\
    pending_action (session w') = Some follow_up.
Proof.
  destruct (show_imei_affirm (w_await show_imei) demo_phone "yes" eq_refl eq_refl eq_refl)
    as (q & out & w' & E & _ & _ & P & _). eauto.
Defined.

Lemma compare_pros_cons_affirm_witness :
  exists c out w', run (handle_input "sure") (w_await compare) = (inr out, w') /\
    reply out = JStr (compare_text c).
Proof.
  destruct (compare_pros_cons_affirm (w_await compare) "sure" eq_refl) as [Hc _].
  destruct (Hc eq_refl) as (c & out & w' & E & _ & R & _). eauto.
Defined.

Lemma iphone_turn_scenario_example :
  exists p a out w', run (handle_input "iPhone 15") w_idle = (inr out, w') /\
    series p = "iPhone" /\ pending_action (session w') = Some a.
Proof.
  destruct (iphone_turn_scenario w_idle "Nice phone!" eq_refl eq_refl)
    as (p & a & out & w' & E & _ & S & _ & P & _). exists p, a, out, w'. auto.
Defined.

Lemma idle_step_adequate_witness :
  exists k out w', run (handle_input "iPhone 15") (mkWorld (session w_idle) (mkConst k) (net w_idle) [])
    = (inr out, w') /\ phase_of (session w') = Awaiting resale.
Proof.
  destruct (idle_step_adequate (session w_idle) (net w_idle) [] "iPhone 15" "Nice phone!" resale
              eq_refl eq_refl ltac:(cbn; tauto)) as (k & out & w' & E & _ & P).
  eauto.
Defined.

Lemma reachable_payload_has_system_witness :
  exists p, current_phone (session (snd (run (handle_input "Pixel 8") w_idle))) = Some p /\
    sent (net (snd (run (handle_input "Pixel 8") w_idle))) =
      [(ollama_url, chat_payload ([system_msg] ++ [user_msg "Pixel 8"; user_msg (ai_prompt "Pixel 8" p)]))].
Proof.
  assert (E : run (handle_input "Pixel 8") w_idle =
              (fst (run (handle_input "Pixel 8") w_idle), snd (run (handle_input "Pixel 8") w_idle)))
    by (vm_compute; reflexivity).
  destruct (reachable_payload_has_system w_idle "Pixel 8" _ _ (reach_start _ _ _) eq_refl E)
    as (_ & p & Hp & S). exists p. split; [exact Hp|exact S].
Defined.

Lemma completed_turn_history_example :
  chat_history (session (snd turn1)) =
    chat_history (session w_idle) ++ [user_msg "iPhone 15"; assistant_msg (reply turn1_out)].
Proof.
  apply (completed_turn_history w_idle "iPhone 15" turn1_out (snd turn1)). vm_compute. reflexivity.
Defined.

Lemma script_run_page_witness :
  shown (snd (run (script_run (Some "no thanks")) (w_await show_imei))) =
    page_header ++ history_view (chat_history (session (w_await show_imei))) ++
    chat_input_widget :: turn_view (mkTurnOut (JStr skip_text) (analyze_sentiment skip_text)).
Proof.
  assert (E : run (script_run (Some "no thanks")) (w_await show_imei) =
              (inr (Some (mkTurnOut (JStr skip_text) (analyze_sentiment skip_text))),
               snd (run (script_run (Some "no thanks")) (w_await show_imei)))) by (vm_compute; reflexivity).
  destruct (script_run_page (w_await show_imei) "no thanks" _ _ eq_refl ltac:(discriminate) E) as [S _].
  exact S.
Defined.
