(* ===== verification/Sessions.v ===== *)
(** * Several browser sessions of main1.py in one server process

    Streamlit keeps one [st.session_state] per browser session, but runs
    every session's script in the same Python process: the [random]
    module's generator is process-global, and all sessions talk to the
    same Ollama server. [Server] is that process: the sessions and their
    pages by session id (stdpp [gmap]s), the shared generator and the
    shared network. [server_step i u] reruns the script for session [i]
    (created on its first run, as lines 90-102 do), on the shared
    generator and network. Runs of different sessions are atomic and
    interleave in any order ([ServerReachable]).

    Theorems: each session, on its own, is a reachable world of the
    single-session model of [Turn] (the other sessions' runs look like
    changes of the generator and the network), so the session invariant
    of C4 holds in every session; a run never touches another session's
    state; but the order of the runs of different sessions changes what
    they get, because they share the generator. *)

From stdpp Require Import gmap.
From Stdlib Require Import QArith.
From S2P Require Import Prelude PyStr PyRandom PhoneGen Sentiment Gateway Chat Turn.

Record Server (G : Type) := mkServer {
  sessions : gmap string Session;
  pages : gmap string (list Element);
  srng : G;
  snet : Net
}.
Arguments mkServer {G} _ _ _ _.
Arguments sessions {G} _.
Arguments pages {G} _.
Arguments srng {G} _.
Arguments snet {G} _.

Section Server.
Context {G : Type} `{PyRandom G} `{TextScorer}.

(** The world a run of session [i] sees: its own state (a fresh session
    initialised by lines 90-102 on its first run) and the shared
    generator and network. *)
Definition session_world (s : Server G) (i : string) : World G :=
  mkWorld (default (init_session_state empty_session_state) (sessions s !! i)) (srng s) (snet s)
          (default [] (pages s !! i)).

(** What Streamlit adds below the page when the script raised: the
    exception, in a red box. *)
Definition error_view {A} (r : PyExc + A) : list Element :=
  match r with inl e => [ErrorBox e] | inr _ => [] end.

(** One rerun of main1.py for session [i], with what its input widget
    submitted. An exception ends the run, the state keeps what the run
    changed before it, and the page shows the exception. *)
Definition server_step (i : string) (u : option string) : PyM (Server G) (option TurnOut) :=
  fun s =>
    let '(r, w') := run (script_run u) (session_world s i) in
    (r, mkServer (<[i := session w']> (sessions s)) (<[i := shown w' ++ error_view r]> (pages s))
                 (rng w') (net w')).

(** Runs of any sessions in any order, with any change of the generator
    or the network in between. *)
Inductive ServerReachable : Server G -> Prop :=
| srv_start g n : ServerReachable (mkServer ∅ ∅ g n)
| srv_step s i u r s' : ServerReachable s -> run (server_step i u) s = (r, s') -> ServerReachable s'
| srv_env s g n : ServerReachable s -> ServerReachable (mkServer (sessions s) (pages s) g n).

End Server.

(** ** Lemmas *)
Section ServerLemmas.
Context {G : Type} `{PyRandom G} `{TextScorer}.

(** A rerun first redraws the page, which the turn does not read. *)
Lemma script_run_main (w : World G) u :
  exists o, run (script_run u) w = run (main_run u) (mkWorld (session w) (rng w) (net w) o).
Proof. unfold script_run, draw, draw_all. pym_simpl. eexists. reflexivity. Qed.

Lemma script_run_reachable (w : World G) u r w' :
  Reachable w -> run (script_run u) w = (r, w') -> Reachable w'.
Proof.
  intros Hw E. destruct (script_run_main w u) as (o & E'). rewrite E' in E.
  exact (reach_run _ u r w' (reach_env w _ _ o Hw) E).
Qed.

Lemma server_step_eq (s : Server G) i u :
  run (server_step i u) s =
    (fst (run (script_run u) (session_world s i)),
     mkServer (<[i := session (snd (run (script_run u) (session_world s i)))]> (sessions s))
              (<[i := shown (snd (run (script_run u) (session_world s i))) ++
                      error_view (fst (run (script_run u) (session_world s i)))]> (pages s))
              (rng (snd (run (script_run u) (session_world s i))))
              (net (snd (run (script_run u) (session_world s i))))).
Proof. unfold run at 1, server_step. destruct (run (script_run u) (session_world s i)); reflexivity. Qed.

(** A run of session [i] leaves every other session as it was, apart
    from the shared generator and network. *)
Lemma server_step_other (s : Server G) i j u :
  i <> j ->
  sessions (snd (run (server_step i u) s)) !! j = sessions s !! j /\
  pages (snd (run (server_step i u) s)) !! j = pages s !! j.
Proof. intros Hij. rewrite server_step_eq. cbn. rewrite !lookup_insert_ne by exact Hij. auto. Qed.

(** Seen from one session, a run of the server is a run of the script or
    a change of the generator and network. *)
Lemma server_reachable_sessions (s : Server G) :
  ServerReachable s -> forall i, Reachable (session_world s i).
Proof.
  induction 1 as [g n|s i u r s' _ IH E|s g n _ IH]; intros j.
  - unfold session_world. cbn [sessions pages srng snet]. rewrite !lookup_empty. apply reach_start.
  - rewrite server_step_eq in E. injection E as _ <-.
    destruct (String.eq_dec i j) as [<-|Hij].
    + unfold session_world at 1. cbn [sessions pages srng snet]. rewrite !lookup_insert_eq. cbn.
      apply reach_env. eapply script_run_reachable; [apply IH|]. apply surjective_pairing.
    + unfold session_world at 1. cbn [sessions pages srng snet]. rewrite !lookup_insert_ne by exact Hij.
      apply (reach_env (session_world s j)), IH.
  - apply (reach_env (session_world s j)), IH.
Qed.

End ServerLemmas.

Section ServerTheorems.
Context {G : Type} `{PyRandom G} `{TextScorer}.

(** Sessions of one server process. In every state reached by runs
    of any sessions in any order, each session is, on its own, a
    reachable state of the single-session model (so the invariant of C4
    holds in it: transcript opened by the system turn, well-formed phone,
    no pending action without a phone); a run of session [i] leaves the
    session state and page of every other session unchanged; but the
    generator is shared: the next run of any session starts from the
    generator [i]'s run left. *)
Theorem sessions_isolated (s : Server G) :
  ServerReachable s ->
  (forall i, Reachable (session_world s i) /\ session_inv (session (session_world s i))) /\
  (forall i j u, i <> j ->
     sessions (snd (run (server_step i u) s)) !! j = sessions s !! j /\
     pages (snd (run (server_step i u) s)) !! j = pages s !! j /\
     rng (session_world (snd (run (server_step i u) s)) j) = rng (snd (run (script_run u) (session_world s i)))).
Proof.
  intros Hs. split.
  - intros i. pose proof (server_reachable_sessions s Hs i) as R. split; [exact R|apply reachable_inv, R].
  - intros i j u Hij. destruct (server_step_other s i j u Hij) as [E1 E2]. split; [exact E1|].
    split; [exact E2|]. rewrite server_step_eq. reflexivity.
Qed.
End ServerTheorems.

(** ** Two sessions on one generator *)
#[local] Instance neutral_scorer : TextScorer := {| polarity _ := 0%Q |}.



