(* ===== verification/Catalog.v ===== *)
(** * The catalogue page of [mobile.py]

    Module [Mobile] models the CSV rows ([CsvRow]; columns Brand, Series,
    Model, Launch_Year, Price), the lookup [get_mobile_info] (lines 18-40):
    keep the rows whose [Model], lower-cased, equals the stripped,
    lower-cased query; none gives [None]; otherwise one row is sampled
    (pandas draws from numpy's generator) and a random IMEI and condition
    are drawn from Python's; the button handler [on_get_info] (lines
    65-84) with the messages it shows, and the page around it (lines
    58-84, [mobile_page]); and the commented-out script of
    lines 88-118 that generates the catalogue ([generate_catalog]).

    Theorems: a lookup without a match returns [None] and draws nothing;
    a lookup with a match returns the row's data with a 15-digit IMEI; in
    a generated catalogue the model names are distinct case-insensitively,
    so looking up a row's model returns that row (a round trip through
    the lookup), and "Nonexistent Model 9999" is not found. *)

From Stdlib Require Import QArith.
From S2P Require Import Prelude PyStr PyRandom PhoneGen Sentiment.

Local Open Scope Z_scope.

Record CsvRow := mkRow {
  Brand : string;
  Series : string;
  Model : string;
  Launch_Year : Z;
  Price : string
}.

Module Mobile.

Definition conditions : list string := ["New"; "Used"; "Refurbished"].

(** The elements of the page ([st.set_page_config], [st.title], the
    input widgets and the button, then [st.success], [st.write],
    [st.info], [st.error], [st.warning]), in the order they are drawn. *)
Inductive UiEvent :=
| UiPageConfig (title icon : string)
| UiTitle (s : string)
| UiTextInput (label : string)
| UiTextArea (label : string)
| UiButton (label : string)
| UiSuccess (s : string)
| UiWrite (s : string)
| UiInfo (s : string)
| UiError (s : string)
| UiWarning (s : string).

(** Python's generator and numpy's, side by side. *)
Record Gens (G H : Type) := mkGens { py_rng : G; np_rng : H }.
Arguments mkGens {G H} _ _.
Arguments py_rng {G H} _.
Arguments np_rng {G H} _.

Section Lookup.
Context {G H : Type} `{PyRandom G} `{PyRandom H} `{TextScorer}.

Definition py_lens : Lens (Gens G H) G :=
  {| view := py_rng; update g w := mkGens g (np_rng w) |}.
Definition np_lens : Lens (Gens G H) H :=
  {| view := np_rng; update h w := mkGens (py_rng w) h |}.

(** [mobile_df[mobile_df['Model'].str.lower() == name_lower]] *)
Definition matching_rows (mobile_df : list CsvRow) (name_lower : string) : list CsvRow :=
  List.filter (fun r => String.eqb (lower (Model r)) name_lower) mobile_df.

Definition get_mobile_info (mobile_df : list CsvRow) (mobile_name : string)
  : PyM (Gens G H) (option PhoneInfo) :=
  let name_lower := lower (strip mobile_name) in
  let filtered := matching_rows mobile_df name_lower in
  match filtered with
  | [] => mret None
  | _ =>
      phone ← zoom np_lens (choice filtered);
      imei ← zoom py_lens (randint 100000000000000 999999999999999);
      condition ← zoom py_lens (choice conditions);
      mret (Some {| make := Brand phone; series := Series phone; model := Model phone;
                    launch_year := Launch_Year phone; purchased_year := None;
                    condition := condition; price := Price phone;
                    imei_number := str_of_Z imei |})
  end.

Definition details_events (d : PhoneInfo) : list UiEvent :=
  [UiSuccess "Here are the details:";
   UiWrite ("**Make:** " +:+ make d);
   UiWrite ("**Series:** " +:+ series d);
   UiWrite ("**Model:** " +:+ model d);
   UiWrite ("**Launch Year:** " +:+ str_of_Z (launch_year d));
   UiWrite ("**Condition:** " +:+ condition d);
   UiWrite ("**Price:** " +:+ price d);
   UiWrite ("**IMEI Number:** " +:+ imei_number d)].

(** Lines 45-53: mobile.py's own copy of [analyze_sentiment], the same
    threshold chain and labels as main1.py's. *)
Definition analyze_sentiment (text : string) : string :=
  let polarity := polarity text in
  if Qlt_le_dec tenth polarity then "Positive 😊"
  else if Qlt_le_dec polarity (- tenth) then "Negative 😞"
  else "Neutral 😐".

(** Lines 78-80: the sentiment of a non-blank comment. *)
Definition comment_events (user_review : string) : list UiEvent :=
  if str_truthy (strip user_review)
  then [UiInfo ("**Sentiment Analysis of your comment:** " +:+ analyze_sentiment user_review)]
  else [].

(** Lines 65-84: the "Get Mobile Info" button. *)
Definition on_get_info (mobile_df : list CsvRow) (user_input user_review : string) (clicked : bool)
  : PyM (Gens G H) (list UiEvent) :=
  if clicked then
    if str_truthy (strip user_input) then
      data ← get_mobile_info mobile_df user_input;
      match data with
      | Some d => mret (details_events d ++ comment_events user_review)
      | None => mret [UiError "❌ Sorry, no data found for this mobile."]
      end
    else mret [UiWarning "Please enter a mobile model."]
  else mret [].

(** Lines 58-65: what every run draws before the button's outcome. *)
Definition page_widgets : list UiEvent :=
  [UiPageConfig " Mobile Info Chatbot" "🤖"; UiTitle " Mobile Info Chatbot";
   UiWrite "Type any mobile model to see full details:";
   UiTextInput "Enter Mobile Model (e.g., iPhone 15)";
   UiTextArea "Write your comment about the phone (optional)"; UiButton "Get Mobile Info"].

(** Lines 58-84: one run of the page on the loaded catalogue, with the
    two widgets' values and whether the button was clicked. *)
Definition mobile_page (mobile_df : list CsvRow) (user_input user_review : string) (clicked : bool)
  : PyM (Gens G H) (list UiEvent) :=
  evs ← on_get_info mobile_df user_input user_review clicked;
  mret (page_widgets ++ evs).
End Lookup.

(** ** The generator script (lines 88-118, commented out in the file) *)
Definition brands_series : list (string * list string) :=
  [("Apple", ["iPhone"]); ("Samsung", ["Galaxy S"; "Galaxy Note"]); ("OnePlus", ["OnePlus"]);
   ("Xiaomi", ["Redmi Note"; "Mi"]); ("Realme", ["Realme"]); ("Vivo", ["V"]);
   ("Oppo", ["Oppo"]); ("Motorola", ["Moto"]); ("Poco", ["Poco"]); ("Nothing", ["Nothing"])].

(** [range(1, 21)] *)
Definition model_numbers : list Z := map Z.of_nat (seq 1 20).

Definition model_name (series : string) (i : Z) : string := series +:+ " " +:+ str_of_Z i.

Section Generator.
Context {G : Type} `{PyRandom G}.

Definition gen_row (brand series : string) (i : Z) : PyM G CsvRow :=
  launch_year ← randint 2018 2025;
  p ← randint 8000 100000;
  mret (mkRow brand series (model_name series i) launch_year (rupee +:+ str_of_Z p)).

Definition generate_catalog : PyM G (list CsvRow) :=
  rows ← py_mapM (fun bs =>
            rs ← py_mapM (fun series => py_mapM (gen_row (fst bs) series) model_numbers) (snd bs);
            mret (List.concat rs)) brands_series;
  mret (List.concat rows).
End Generator.

(** The model names the generator writes, in order. *)
Definition catalog_models : list string :=
  List.concat (map (fun bs => List.concat (map (fun s => map (model_name s) model_numbers) (snd bs)))
              brands_series).

End Mobile.

(** ** Lemmas *)
Module MobileProps.
Import Mobile.

(** A row written by the generator: year and price in range. *)
Definition row_ok (r : CsvRow) : Prop :=
  2018 <= Launch_Year r <= 2025 /\ exists n, 8000 <= n <= 100000 /\ Price r = rupee +:+ str_of_Z n.

(** The (brand, series, i) triples of the three nested loops, in the
    order the loops visit them. *)
Definition catalog_keys : list (string * string * Z) :=
  List.concat (map (fun bs => List.concat (map (fun s => map (fun i => (fst bs, s, i)) model_numbers)
                                               (snd bs)))
                   brands_series).

(** What the generator knows of the row written for a triple. *)
Definition row_of_key (k : string * string * Z) (r : CsvRow) : Prop :=
  Brand r = k.1.1 /\ Series r = k.1.2 /\ Model r = model_name k.1.2 k.2 /\ row_ok r.

(** mobile.py's copy of [analyze_sentiment] is main1.py's. *)
Lemma analyze_sentiment_copy `{TextScorer} text : analyze_sentiment text = Sentiment.analyze_sentiment text.
Proof.
  unfold analyze_sentiment, Sentiment.analyze_sentiment, classify.
  destruct (Qlt_le_dec tenth (polarity text)); [reflexivity|].
  destruct (Qlt_le_dec (polarity text) (- tenth)); reflexivity.
Qed.

Section GenLemmas.
Context {G : Type} `{PyRandom G}.

Definition gen_key (k : string * string * Z) : PyM G CsvRow := gen_row k.1.1 k.1.2 k.2.

Lemma gen_row_ok b s i (g : G) :
  exists r g', run (gen_row b s i) g = (inr r, g') /\ row_of_key (b, s, i) r.
Proof.
  unfold gen_row. pym_simpl. do 2 (rand_step; pym_simpl).
  eexists _, _. split; [reflexivity|]. split; [reflexivity|]. split; [reflexivity|].
  split; [reflexivity|]. split; [cbn; lia|]. exists x0. split; [lia|reflexivity].
Qed.

Lemma generate_catalog_flat_eq (g : G) :
  run generate_catalog g = run (py_mapM gen_key catalog_keys) g.
Proof.
  unfold generate_catalog, catalog_keys. rewrite <- (py_mapM_concat _ gen_key), !run_bind.
  erewrite py_mapM_ext; [reflexivity|]. intros bs s0 _.
  cbv beta. rewrite <- (py_mapM_concat _ gen_key), !run_bind. erewrite py_mapM_ext; [reflexivity|].
  intros series s1 _. cbv beta. rewrite py_mapM_map. reflexivity.
Qed.

Lemma generate_catalog_keys (g : G) :
  exists rows g', run generate_catalog g = (inr rows, g') /\ Forall2 row_of_key catalog_keys rows.
Proof.
  rewrite generate_catalog_flat_eq. apply py_mapM_ok. intros [[b s] i] g0 _. apply gen_row_ok.
Qed.

Lemma generate_catalog_ok (g : G) :
  exists rows g', run generate_catalog g = (inr rows, g') /\
    map Model rows = catalog_models /\ Forall row_ok rows.
Proof.
  destruct (generate_catalog_keys g) as (rows & g' & E & F). exists rows, g'. split; [exact E|]. split.
  - transitivity (map (fun k => model_name k.1.2 k.2) catalog_keys); [|vm_compute; reflexivity].
    apply Forall2_map_eq. eapply Forall2_impl; [exact F|]. intros ? ? (_ & _ & ? & _); assumption.
  - eapply Forall2_r_Forall; [exact F|]. intros ? ? (_ & _ & _ & ?); assumption.
Qed.

(** The generator script never raises and writes 240 rows (20 per
    series, 12 series), each with a launch year in [2018, 2025] and a
    price "₹n" with [8000 <= n <= 100000]. *)
Theorem generated_catalog_wf (g : G) :
  exists rows g', run generate_catalog g = (inr rows, g') /\ List.length rows = 240%nat /\
    Forall row_ok rows.
Proof.
  destruct (generate_catalog_ok g) as (rows & g' & E & Hm & Hf).
  exists rows, g'. split; [exact E|]. split; [|exact Hf].
  rewrite <- (length_map Model rows), Hm. vm_compute. reflexivity.
Qed.
End GenLemmas.

Lemma matching_rows_In df name r :
  In r (matching_rows df name) <-> In r df /\ lower (Model r) = name.
Proof. unfold matching_rows. rewrite filter_In, String.eqb_eq. reflexivity. Qed.

Lemma filter_none {A} (p : A -> bool) l : (forall y, In y l -> p y = false) -> List.filter p l = [].
Proof. induction l as [|y l IH]; cbn; intros Hp; [reflexivity|]. rewrite Hp by auto. auto. Qed.

(** A decision procedure for distinct strings. *)
Fixpoint nodupb (l : list string) : bool :=
  match l with
  | [] => true
  | x :: l' => negb (existsb (String.eqb x) l') && nodupb l'
  end.

Lemma nodupb_NoDup l : nodupb l = true -> List.NoDup l.
Proof.
  induction l as [|x l IH]; cbn; intros Hl; [constructor|].
  apply andb_true_iff in Hl as [Hx Hl]. constructor; [|auto].
  intros Hin. apply negb_true_iff in Hx. rewrite (existsb_In_true _ _ x Hin) in Hx;
    [discriminate|apply String.eqb_refl].
Qed.

(** A key that the rows' keys hit exactly once selects that row. *)
Lemma filter_unique {A} (f : A -> string) (l : list A) x :
  List.NoDup (map f l) -> In x l -> List.filter (fun y => String.eqb (f y) (f x)) l = [x].
Proof.
  induction l as [|y l IH]; cbn; [tauto|]. intros Hnd Hin. apply NoDup_cons_iff in Hnd as [Hy Hnd].
  destruct Hin as [<-|Hin].
  - rewrite String.eqb_refl. f_equal. apply filter_none. intros z Hz.
    apply String.eqb_neq. intros Heq. apply Hy. rewrite <- Heq. apply in_map, Hz.
  - destruct (String.eqb_spec (f y) (f x)) as [Heq|]; [|apply IH; assumption].
    exfalso. apply Hy. rewrite Heq. apply in_map, Hin.
Qed.

Section LookupProps.
Context {G H : Type} `{PyRandom G} `{PyRandom H} `{TextScorer}.

Lemma lookup_nil df q (gs : Gens G H) :
  matching_rows df (lower (strip q)) = [] -> run (get_mobile_info df q) gs = (inr None, gs).
Proof. intros E. unfold get_mobile_info. rewrite E. reflexivity. Qed.

Lemma lookup_cons df q r0 rs (gs : Gens G H) :
  matching_rows df (lower (strip q)) = r0 :: rs ->
  exists row d gs', run (get_mobile_info df q) gs = (inr (Some d), gs') /\ In row (r0 :: rs) /\
    make d = Brand row /\ series d = Series row /\ model d = Model row /\
    launch_year d = Launch_Year row /\ price d = Price row /\ purchased_year d = None /\
    String.length (imei_number d) = 15%nat /\ In (condition d) conditions.
Proof.
  intros E. unfold get_mobile_info. rewrite E. pym_simpl.
  destruct (choice_ok (r0 :: rs) (view np_lens gs) ltac:(discriminate)) as (row & h & Erow & Hrow).
  rewrite Erow. pym_simpl. cbn [view update py_lens np_lens py_rng np_rng].
  destruct (randint_ok 100000000000000 999999999999999 (py_rng gs) ltac:(lia)) as (i & g1 & Ei & Hi).
  rewrite Ei. pym_simpl. cbn [view update py_lens np_lens py_rng np_rng].
  destruct (choice_ok conditions g1 ltac:(discriminate)) as (c & g2 & Ec & Hc).
  rewrite Ec. pym_simpl.
  destruct (str_of_Z_length i 14) as [Hl _]; [cbn; lia|].
  eexists row, _, _. split; [reflexivity|]. split; [exact Hrow|]. cbn. auto 10.
Qed.

(** A query matching a row has a non-empty list of matches. *)
Lemma matching_rows_cons df q r :
  In r df -> lower (Model r) = lower (strip q) ->
  exists r0 rs, matching_rows df (lower (strip q)) = r0 :: rs.
Proof.
  intros Hr Hm. assert (Hin : In r (matching_rows df (lower (strip q)))) by (apply matching_rows_In; auto).
  destruct (matching_rows df (lower (strip q))) as [|r0 rs]; [destruct Hin|eauto].
Qed.

(** The button on a non-blank name that the lookup finds. *)
Lemma on_get_info_some df u review d (gs gs' : Gens G H) :
  str_truthy (strip u) = true -> run (get_mobile_info df u) gs = (inr (Some d), gs') ->
  run (on_get_info df u review true) gs = (inr (details_events d ++ comment_events review), gs').
Proof. intros Hu E. unfold on_get_info. rewrite Hu, run_bind, E. reflexivity. Qed.

Lemma catalog_models_nodup : List.NoDup (map lower catalog_models).
Proof. apply nodupb_NoDup. vm_compute. reflexivity. Qed.

Lemma catalog_models_stripped m : In m catalog_models -> strip m = m.
Proof.
  intros Hm. assert (Hall : forallb (fun m => String.eqb (strip m) m) catalog_models = true)
    by (vm_compute; reflexivity).
  rewrite forallb_forall in Hall. apply String.eqb_eq, Hall, Hm.
Qed.

Lemma generated_models (g : G) rows g' :
  run generate_catalog g = (inr rows, g') -> map Model rows = catalog_models.
Proof.
  intros Eg. destruct (generate_catalog_ok g) as (rows' & g'' & E' & Hm & _).
  rewrite Eg in E'. injection E' as <- <-. exact Hm.
Qed.

(** In a generated catalogue, a query matching a row matches only it:
    the 240 model names are distinct even lower-cased. *)
Lemma generated_matching (g : G) rows g' r q :
  run generate_catalog g = (inr rows, g') -> In r rows -> lower (strip q) = lower (Model r) ->
  matching_rows rows (lower (strip q)) = [r].
Proof.
  intros Eg Hr Hq. pose proof (generated_models g rows g' Eg) as Hm.
  assert (Hnd : List.NoDup (map (fun y => lower (Model y)) rows)).
  { replace (map (fun y => lower (Model y)) rows) with (map lower (map Model rows))
      by (rewrite map_map; reflexivity).
    rewrite Hm. exact catalog_models_nodup. }
  rewrite Hq. apply (filter_unique (fun y => lower (Model y))); assumption.
Qed.

(** C16: A query that equals no row's model, case-insensitively and
    after stripping, returns None and draws nothing from either random
    generator. *)
Theorem get_mobile_info_not_found df q (gs : Gens G H) :
  (forall r, In r df -> lower (Model r) <> lower (strip q)) ->
  run (get_mobile_info df q) gs = (inr None, gs).
Proof.
  intros Hn. apply lookup_nil, filter_none. intros r Hr. apply String.eqb_neq, Hn, Hr.
Qed.

(** C17: A query that equals some row's model (case-insensitively, after
    stripping) never raises and returns the data of a matching row (brand,
    series, model, launch year and price as the CSV holds them, no
    purchase year) with a 15-digit IMEI and a condition among
    New/Used/Refurbished. *)
Theorem get_mobile_info_found df q r (gs : Gens G H) :
  In r df -> lower (Model r) = lower (strip q) ->
  exists row d gs', run (get_mobile_info df q) gs = (inr (Some d), gs') /\
    In row df /\ lower (Model row) = lower (strip q) /\
    make d = Brand row /\ series d = Series row /\ model d = Model row /\
    launch_year d = Launch_Year row /\ price d = Price row /\ purchased_year d = None /\
    String.length (imei_number d) = 15%nat /\ In (condition d) conditions.
Proof.
  intros Hr Hm. destruct (matching_rows_cons df q r Hr Hm) as (r0 & rs & E).
  destruct (lookup_cons df q r0 rs gs E) as (row & d & gs' & Er & Hrow & Hd).
  rewrite <- E in Hrow. apply matching_rows_In in Hrow as [Hrow Hk]. eauto 15.
Qed.

(** Round trip through the generated catalogue: for every catalogue
    the generator script can write, looking up the model of any of its
    rows returns exactly that row's brand, series, model, year and price
    (the 240 model names are distinct even lower-cased). *)
Theorem generated_lookup_roundtrip (g : G) rows g' r (gs : Gens G H) :
  run generate_catalog g = (inr rows, g') -> In r rows ->
  exists d gs', run (get_mobile_info rows (Model r)) gs = (inr (Some d), gs') /\
    make d = Brand r /\ series d = Series r /\ model d = Model r /\
    launch_year d = Launch_Year r /\ price d = Price r.
Proof.
  intros Eg Hr. assert (Hs : strip (Model r) = Model r).
  { apply catalog_models_stripped. rewrite <- (generated_models g rows g' Eg). apply in_map, Hr. }
  pose proof (generated_matching g rows g' r (Model r) Eg Hr ltac:(rewrite Hs; reflexivity)) as Hf.
  destruct (lookup_cons rows (Model r) r [] gs Hf) as (row & d & gs' & Er & [<-|[]] & Hd).
  exists d, gs'. split; [exact Er|]. tauto.
Qed.

(** In every generated catalogue, "Nonexistent Model 9999" is not
    found (spec scenario 4): the lookup returns None and the generators
    are untouched. *)
Theorem generated_nonexistent_not_found (g : G) rows g' (gs : Gens G H) :
  run generate_catalog g = (inr rows, g') ->
  run (get_mobile_info rows "Nonexistent Model 9999") gs = (inr None, gs).
Proof.
  intros Eg. pose proof (generated_models g rows g' Eg) as Hm.
  apply lookup_nil, filter_none. intros y Hy. apply String.eqb_neq. intros Heq.
  assert (Hin : In (lower (Model y)) (map lower catalog_models)).
  { rewrite <- Hm, map_map. apply (in_map (fun y => lower (Model y))), Hy. }
  assert (Hno : existsb (String.eqb (lower (strip "Nonexistent Model 9999"))) (map lower catalog_models) = false)
    by (vm_compute; reflexivity).
  rewrite (existsb_In_true _ _ _ Hin) in Hno; [discriminate|]. rewrite Heq. apply String.eqb_refl.
Qed.

(** C19: The button handler's other paths: no click shows nothing; a
    blank model name shows the warning "Please enter a mobile model.";
    a name without a match shows the error "❌ Sorry, no data found for
    this mobile."; none of them draws a random number. *)
Theorem on_get_info_errors df u review (gs : Gens G H) :
  run (on_get_info df u review false) gs = (inr [], gs) /\
  (str_truthy (strip u) = false ->
   run (on_get_info df u review true) gs = (inr [UiWarning "Please enter a mobile model."], gs)) /\
  (str_truthy (strip u) = true -> (forall r, In r df -> lower (Model r) <> lower (strip u)) ->
   run (on_get_info df u review true) gs = (inr [UiError "❌ Sorry, no data found for this mobile."], gs)).
Proof.
  split; [reflexivity|]. split; intros Hu; unfold on_get_info; rewrite Hu; [reflexivity|].
  intros Hn. rewrite run_bind, lookup_nil; [reflexivity|].
  apply filter_none. intros r Hr. apply String.eqb_neq, Hn, Hr.
Qed.

(** C26: The button with a model name that matches a row shows
    "Here are the details:" and the seven fields of the record it found
    (whose model matches the query, with a 15-digit IMEI), followed by
    the sentiment of the comment exactly when the comment is not blank. *)
Theorem on_get_info_found df u review r (gs : Gens G H) :
  str_truthy (strip u) = true -> In r df -> lower (Model r) = lower (strip u) ->
  exists d gs', run (on_get_info df u review true) gs = (inr (details_events d ++ comment_events review), gs') /\
    lower (model d) = lower (strip u) /\ String.length (imei_number d) = 15%nat.
Proof.
  intros Hu Hr Hm. destruct (matching_rows_cons df u r Hr Hm) as (r0 & rs & E).
  destruct (lookup_cons df u r0 rs gs E) as (row & d & gs' & Er & Hrow & _ & _ & Hmod & _ & _ & _ & Himei & _).
  rewrite <- E in Hrow. apply matching_rows_In in Hrow as [_ Hk].
  exists d, gs'. rewrite (on_get_info_some df u review d gs gs' Hu Er). split; [reflexivity|].
  rewrite Hmod. auto.
Qed.

End LookupProps.

Section Sampling.
Context {G : Type} `{PyRandom G}.

(** C29: When several rows match (duplicate model names, up to case),
    [filtered.sample(1)] can return any of them: for every matching row
    there is an outcome of numpy's generator with which the lookup returns
    that row's brand, series, model, year and price. With C17, the rows
    the lookup can return are exactly the matching rows. *)
Theorem lookup_every_match_possible df q r (g : G) :
  In r df -> lower (Model r) = lower (strip q) ->
  exists k d gs', run (get_mobile_info df q) (mkGens g (mkConst k)) = (inr (Some d), gs') /\
    make d = Brand r /\ series d = Series r /\ model d = Model r /\
    launch_year d = Launch_Year r /\ price d = Price r.
Proof.
  intros Hr Hm.
  assert (Hin : In r (matching_rows df (lower (strip q)))) by (apply matching_rows_In; auto).
  apply In_nth_error in Hin as [i Hi]. exists (Z.of_nat i).
  destruct (matching_rows df (lower (strip q))) as [|r0 rs] eqn:E; [destruct i; discriminate|].
  unfold get_mobile_info. rewrite E. pym_simpl. cbn [view update py_lens np_lens py_rng np_rng].
  rewrite (const_choice_nth _ i r Hi). pym_simpl. cbn [view update py_lens np_lens py_rng np_rng].
  destruct (randint_ok 100000000000000 999999999999999 g ltac:(lia)) as (x & g1 & -> & _).
  pym_simpl. cbn [view update py_lens np_lens py_rng np_rng].
  destruct (choice_ok conditions g1 ltac:(discriminate)) as (c & g2 & -> & _). pym_simpl.
  eexists _, _. split; [reflexivity|]. cbn. auto.
Qed.
End Sampling.

(** ** Concrete runs *)
#[local] Instance neutral_scorer : TextScorer := {| polarity _ := 0%Q |}.

Definition demo_df : list CsvRow :=
  [mkRow "Apple" "iPhone" "iPhone 15" 2023 "₹79900"; mkRow "Samsung" "Galaxy S" "Galaxy S 23" 2023 "₹64999"].

Definition demo_gens : Gens Tape Tape := mkGens (mkTape [42; 1]) (mkTape [0]).

Definition demo_catalog : list CsvRow :=
  match fst (run (generate_catalog (G:=Tape)) (mkTape [])) with inr rows => rows | inl _ => [] end.

Lemma demo_catalog_run :
  run (generate_catalog (G:=Tape)) (mkTape []) = (inr demo_catalog, snd (run generate_catalog (mkTape []))).
Proof. vm_compute. reflexivity. Qed.

Lemma get_mobile_info_not_found_witness :
  run (get_mobile_info demo_df "Pixel 8") demo_gens = (inr None, demo_gens).
Proof.
  apply get_mobile_info_not_found. intros r [<-|[<-|[]]]; vm_compute; discriminate.
Defined.

Lemma get_mobile_info_found_witness :
  exists row d gs', run (get_mobile_info demo_df "  IPHONE 15 ") demo_gens = (inr (Some d), gs') /\
    price d = Price row /\ In row demo_df.
Proof.
  destruct (get_mobile_info_found demo_df "  IPHONE 15 " (mkRow "Apple" "iPhone" "iPhone 15" 2023 "₹79900")
              demo_gens (or_introl eq_refl) ltac:(vm_compute; reflexivity))
    as (row & d & gs' & E & Hrow & _ & _ & _ & _ & _ & Hp & _).
  exists row, d, gs'. split; [exact E|]. split; [exact Hp|exact Hrow].
Defined.

Lemma generated_lookup_roundtrip_example :
  exists d gs', run (get_mobile_info demo_catalog "iPhone 15") demo_gens = (inr (Some d), gs') /\
    model d = "iPhone 15".
Proof.
  assert (Hin : In (nth 14 demo_catalog (mkRow "" "" "" 0 "")) demo_catalog)
    by (apply nth_In; vm_compute; lia).
  destruct (generated_lookup_roundtrip (mkTape []) demo_catalog _ _ demo_gens demo_catalog_run Hin)
    as (d & gs' & E & _ & _ & M & _).
  exists d, gs'. vm_compute in E, M. split; [exact E|exact M].
Defined.


Lemma on_get_info_errors_witness :
  run (on_get_info demo_df "   " "" true) demo_gens = (inr [UiWarning "Please enter a mobile model."], demo_gens).
Proof. apply (on_get_info_errors demo_df "   " "" demo_gens). reflexivity. Defined.
Lemma on_get_info_found_witness :
  exists d gs', run (on_get_info demo_df "iphone 15" "Great phone" true) demo_gens =
    (inr (details_events d ++ [UiInfo ("**Sentiment Analysis of your comment:** " +:+ "Neutral 😐")]), gs').
Proof.
  destruct (on_get_info_found demo_df "iphone 15" "Great phone" (mkRow "Apple" "iPhone" "iPhone 15" 2023 "₹79900")
              demo_gens eq_refl (or_introl eq_refl) ltac:(vm_compute; reflexivity))
    as (d & gs' & E & _). exists d, gs'. exact E.
Defined.
Lemma lookup_every_match_possible_witness :
  exists k d gs', run (get_mobile_info [mkRow "Apple" "iPhone" "iPhone 15" 2023 "₹79900";
                                         mkRow "Apple" "iPhone" "IPHONE 15" 2024 "₹69900"] "iphone 15")
                      (mkGens (mkTape []) (mkConst k)) = (inr (Some d), gs') /\ price d = "₹69900".
Proof.
  destruct (lookup_every_match_possible [mkRow "Apple" "iPhone" "iPhone 15" 2023 "₹79900";
                                         mkRow "Apple" "iPhone" "IPHONE 15" 2024 "₹69900"] "iphone 15"
              (mkRow "Apple" "iPhone" "IPHONE 15" 2024 "₹69900") (mkTape [])
              ltac:(cbn; tauto) ltac:(vm_compute; reflexivity))
    as (k & d & gs' & E & _ & _ & _ & _ & P). exists k, d, gs'. auto.
Defined.
End MobileProps.
