(* ===== verification/Csv.v ===== *)
(** * The catalogue file: [df.to_csv] and [pd.read_csv] (mobile.py)

    The generator script of mobile.py ends with
    [pd.DataFrame(data).to_csv("mobile_phones.csv", index=False)] (lines
    117-118); the page loads the file with [load_mobile_data], i.e.
    [pd.read_csv] (lines 9-13). [to_csv] writes a header line with the five
    column names, then one line per row, fields joined by commas and quoted
    when they hold a comma, a quote or a line break (QUOTE_MINIMAL); lines
    end with "\n" (os.linesep on POSIX).

    [read_csv] describes pandas on a subset of files, and is [None] on the
    others ("outside the model", not "pandas fails"). A file is in the
    subset when it has no quote and no carriage return; its first non-blank
    line is exactly the five column names; and every other non-blank line
    has five fields. In those lines Launch_Year must be a decimal integer
    of int64. The other four fields must be text pandas keeps as a str:
    not an NA token, not a number or boolean literal, with no surrounding
    whitespace. On that subset pandas reads every column as the model does:
    Launch_Year as int64, the others as str, rows in file order.

    [mobile_script] composes the loading with the page of lines 58-84.

    Theorems: writing then reading gives the rows back for rows whose
    fields are in the subset; every catalogue the generator writes is
    such a list of rows; and on the file it writes the page shows the
    row a query names. *)

From Stdlib Require Import QArith.
From S2P Require Import Prelude PyStr PyRandom PhoneGen Sentiment Catalog.

Local Open Scope Z_scope.

Definition csv_quotechar : ascii := ascii_of_nat 34.
Definition lf : ascii := ascii_of_nat 10.
Definition cr : ascii := ascii_of_nat 13.

(** Characters that make the csv writer quote a field. *)
Definition csv_plain_char (c : ascii) : bool :=
  negb (Ascii.eqb c ",") && negb (Ascii.eqb c csv_quotechar) && negb (Ascii.eqb c lf) &&
  negb (Ascii.eqb c cr).

Fixpoint double_quotes (s : string) : string :=
  match s with
  | EmptyString => EmptyString
  | String c r =>
      if Ascii.eqb c csv_quotechar then String c (String c (double_quotes r)) else String c (double_quotes r)
  end.

(** QUOTE_MINIMAL *)
Definition csv_quote (s : string) : string :=
  if all_chars csv_plain_char s then s
  else String csv_quotechar (double_quotes s +:+ String csv_quotechar EmptyString).

Fixpoint join_with (sep : string) (xs : list string) : string :=
  match xs with
  | [] => ""
  | [x] => x
  | x :: xs' => x +:+ sep +:+ join_with sep xs'
  end.

Definition csv_line (fields : list string) : string :=
  join_with "," (map csv_quote fields) +:+ String lf EmptyString.

Definition csv_columns : list string := ["Brand"; "Series"; "Model"; "Launch_Year"; "Price"].

Definition row_fields (r : CsvRow) : list string :=
  [Brand r; Series r; Model r; str_of_Z (Launch_Year r); Price r].

Fixpoint csv_lines (rows : list CsvRow) : string :=
  match rows with
  | [] => ""
  | r :: rs => csv_line (row_fields r) +:+ csv_lines rs
  end.

(** Lines 117-118: [df.to_csv(..., index=False)] of the generated rows. *)
Definition to_csv (rows : list CsvRow) : string := csv_line csv_columns +:+ csv_lines rows.

(** ** Reading *)

(** [s.split(sep)] *)
Fixpoint split_on (sep : ascii) (s : string) : list string :=
  match s with
  | EmptyString => [""]
  | String c r =>
      let rest := split_on sep r in
      if Ascii.eqb c sep then "" :: rest
      else match rest with
           | [] => [String c EmptyString]
           | x :: xs => String c x :: xs
           end
  end.

(** pandas' default NA tokens. *)
Definition na_values : list string :=
  [""; "#N/A"; "#N/A N/A"; "#NA"; "-1.#IND"; "-1.#QNAN"; "-NaN"; "-nan"; "1.#IND"; "1.#QNAN";
   "<NA>"; "N/A"; "NA"; "NULL"; "NaN"; "None"; "n/a"; "nan"; "null"].

Definition bool_literals : list string := ["True"; "TRUE"; "true"; "False"; "FALSE"; "false"].

Fixpoint span_digits (s : string) : nat * string :=
  match s with
  | String c r => if is_digit c then let '(k, t) := span_digits r in (S k, t) else (O, s)
  | EmptyString => (O, EmptyString)
  end.

Definition strip_sign (s : string) : string :=
  match s with
  | String c r => if Ascii.eqb c "+" || Ascii.eqb c "-" then r else s
  | EmptyString => s
  end.

(** Nothing, or [e] / [E] followed by a signed integer. *)
Definition exponent_ok (s : string) : bool :=
  match s with
  | EmptyString => true
  | String c r =>
      (Ascii.eqb c "e" || Ascii.eqb c "E") &&
      (let '(k, u) := span_digits (strip_sign r) in Nat.ltb 0 k && negb (str_truthy u))
  end.

Definition decimal_ok (s : string) : bool :=
  let '(k1, r1) := span_digits s in
  match r1 with
  | String c r2 =>
      if Ascii.eqb c "." then let '(k2, r3) := span_digits r2 in Nat.ltb 0 (k1 + k2) && exponent_ok r3
      else Nat.ltb 0 k1 && exponent_ok r1
  | EmptyString => Nat.ltb 0 k1
  end.

(** A field pandas' parser reads as a number. *)
Definition float_literal (s : string) : bool :=
  let t := strip_sign s in
  decimal_ok t || existsb (String.eqb (lower t)) ["inf"; "infinity"; "nan"].

(** A field of the subset that pandas keeps as a str. *)
Definition text_field (s : string) : bool :=
  all_chars csv_plain_char s && String.eqb (strip s) s &&
  negb (existsb (String.eqb s) na_values) && negb (existsb (String.eqb s) bool_literals) &&
  negb (float_literal s).

Definition int64_range (n : Z) : bool := (- 2 ^ 63 <=? n) && (n <? 2 ^ 63).

(** A Launch_Year field: an optional minus and decimal digits. *)
Definition parse_year (s : string) : option Z :=
  let digits := match s with String "-" r => r | _ => s end in
  if str_truthy digits && all_chars is_digit digits then
    match py_int s with
    | Some n => if int64_range n then Some n else None
    | None => None
    end
  else None.

Definition parse_row (line : string) : option CsvRow :=
  match split_on "," line with
  | [b; s; m; y; p] =>
      if forallb text_field [b; s; m; p] then option_map (fun n => mkRow b s m n p) (parse_year y)
      else None
  | _ => None
  end.

Fixpoint parse_rows (lines : list string) : option (list CsvRow) :=
  match lines with
  | [] => Some []
  | l :: ls =>
      match parse_row l, parse_rows ls with
      | Some r, Some rs => Some (r :: rs)
      | _, _ => None
      end
  end.

(** Characters outside the subset: carriage return and quote. *)
Definition no_cr_quote (c : ascii) : bool := negb (Ascii.eqb c cr) && negb (Ascii.eqb c csv_quotechar).

Definition read_csv (text : string) : option (list CsvRow) :=
  if all_chars no_cr_quote text then
    match List.filter str_truthy (split_on lf text) with
    | header :: lines =>
        if forallb (fun '(a, b) => String.eqb a b) (combine (split_on "," header) csv_columns) &&
           Nat.eqb (List.length (split_on "," header)) 5
        then parse_rows lines else None
    | [] => None
    end
  else None.

(** Lines 9-11: [pd.read_csv(csv_file)] on the file's contents. *)
Definition load_mobile_data (csv_file : string) : option (list CsvRow) := read_csv csv_file.

(** The whole of mobile.py on the contents of [mobile_phones.csv]: line 13
    loads the catalogue, lines 58-84 draw the page on it. [None] when the
    file is outside the subset [read_csv] describes. *)
Definition mobile_script {G H} `{PyRandom G} `{PyRandom H} `{TextScorer} (csv_file : string)
    (user_input user_review : string) (clicked : bool) : option (PyM (Mobile.Gens G H) (list Mobile.UiEvent)) :=
  match load_mobile_data csv_file with
  | Some mobile_df => Some (Mobile.mobile_page mobile_df user_input user_review clicked)
  | None => None
  end.

(** ** Round trip *)

(** The rows the subset holds: text fields pandas keeps as str and a
    non-negative int64 year. *)
Definition csv_safe_row (r : CsvRow) : bool :=
  forallb text_field [Brand r; Series r; Model r; Price r] && (0 <=? Launch_Year r) &&
  (Launch_Year r <? 2 ^ 63).

Definition not_char (c : ascii) : ascii -> bool := fun x => negb (Ascii.eqb x c).

Lemma split_on_app sep x y :
  all_chars (not_char sep) x = true -> split_on sep (x +:+ String sep y) = x :: split_on sep y.
Proof.
  induction x as [|c x IH]; cbn; [rewrite Ascii.eqb_refl; reflexivity|].
  unfold not_char at 1. rewrite andb_true_iff, negb_true_iff. intros [-> Hx]. rewrite IH by exact Hx.
  reflexivity.
Qed.

Lemma split_on_none sep x : all_chars (not_char sep) x = true -> split_on sep x = [x].
Proof.
  induction x as [|c x IH]; cbn; [reflexivity|].
  unfold not_char at 1. rewrite andb_true_iff, negb_true_iff. intros [-> Hx]. rewrite IH by exact Hx.
  reflexivity.
Qed.

Lemma split_join sep xs :
  xs <> [] -> Forall (fun x => all_chars (not_char sep) x = true) xs ->
  split_on sep (join_with (String sep EmptyString) xs) = xs.
Proof.
  induction xs as [|x [|y l] IH]; intros Hne Hall; [congruence| |].
  - inversion Hall. apply split_on_none. assumption.
  - inversion Hall as [|? ? Hx Hl].
    change (join_with (String sep EmptyString) (x :: y :: l))
      with (x +:+ String sep EmptyString +:+ join_with (String sep EmptyString) (y :: l)).
    cbn [String.append]. rewrite split_on_app by exact Hx. rewrite IH; [reflexivity|discriminate|exact Hl].
Qed.

Lemma all_chars_join f sep xs :
  all_chars f sep = true -> Forall (fun x => all_chars f x = true) xs -> all_chars f (join_with sep xs) = true.
Proof.
  intros Hs. induction 1 as [|x l Hx Hl IH]; [reflexivity|].
  destruct l as [|y l]; [exact Hx|].
  change (join_with sep (x :: y :: l)) with (x +:+ sep +:+ join_with sep (y :: l)).
  rewrite !all_chars_app, Hx, Hs, IH. reflexivity.
Qed.

Lemma plain_char_facts c :
  csv_plain_char c = true ->
  not_char "," c = true /\ not_char lf c = true /\ negb (Ascii.eqb c cr) && negb (Ascii.eqb c csv_quotechar) = true.
Proof. unfold csv_plain_char, not_char. rewrite !andb_true_iff. tauto. Qed.

Lemma text_field_facts s : text_field s = true -> all_chars csv_plain_char s = true /\ str_truthy s = true.
Proof.
  unfold text_field. rewrite !andb_true_iff. intros ((((Hp & _) & Hna) & _) & _).
  split; [exact Hp|]. destruct s; [discriminate Hna|reflexivity].
Qed.

Lemma digit_plain c : is_digit c = true -> csv_plain_char c = true.
Proof.
  unfold csv_plain_char. intros Hc.
  destruct (Ascii.eqb_spec c ","); [subst; vm_compute in Hc; discriminate|].
  destruct (Ascii.eqb_spec c csv_quotechar); [subst; vm_compute in Hc; discriminate|].
  destruct (Ascii.eqb_spec c lf); [subst; vm_compute in Hc; discriminate|].
  destruct (Ascii.eqb_spec c cr); [subst; vm_compute in Hc; discriminate|]. reflexivity.
Qed.

Lemma parse_year_nonneg n : 0 <= n < 2 ^ 63 -> parse_year (str_of_Z n) = Some n.
Proof.
  intros Hn. unfold parse_year. pose proof (str_of_Z_digits n ltac:(lia)) as Hd.
  rewrite py_int_str_of_nonneg by lia.
  assert (Hr : int64_range n = true) by (unfold int64_range; apply andb_true_iff; split; [apply Z.leb_le|apply Z.ltb_lt]; lia).
  rewrite Hr. destruct (str_of_Z n) as [|c r] eqn:E.
  - pose proof (py_int_str_of_nonneg n ltac:(lia)) as Hp. rewrite E in Hp. discriminate Hp.
  - cbn in Hd. apply andb_true_iff in Hd as [Hc Hr'].
    destruct (Ascii.eqb_spec c "-") as [->|]; [discriminate Hc|].
    assert (Hm : (match String c r with String "-" r0 => r0 | _ => String c r end) = String c r)
      by (destruct c as [[] [] [] [] [] [] [] []]; try reflexivity; congruence).
    rewrite Hm. cbn [str_truthy all_chars]. rewrite Hc, Hr'. reflexivity.
Qed.

Definition row_line (r : CsvRow) : string := join_with "," (row_fields r).

Lemma plain_impl (f : ascii -> bool) s :
  (forall c, csv_plain_char c = true -> f c = true) -> all_chars csv_plain_char s = true -> all_chars f s = true.
Proof. apply all_chars_impl. Qed.

(** One line of the file. *)
Lemma row_line_ok r :
  csv_safe_row r = true ->
  csv_line (row_fields r) = row_line r +:+ String lf EmptyString /\
  all_chars (not_char lf) (row_line r) = true /\ all_chars no_cr_quote (row_line r) = true /\
  str_truthy (row_line r) = true /\ parse_row (row_line r) = Some r.
Proof.
  destruct r as [b s m y p]. unfold csv_safe_row. cbn [Brand Series Model Launch_Year Price forallb].
  rewrite !andb_true_iff, Z.leb_le, Z.ltb_lt. intros (((Hb & Hs & Hm & Hp & _) & Hy0) & Hy1).
  destruct (text_field_facts _ Hb) as [Pb Tb]. destruct (text_field_facts _ Hs) as [Ps _].
  destruct (text_field_facts _ Hm) as [Pm _]. destruct (text_field_facts _ Hp) as [Pp _].
  pose proof (all_chars_impl _ _ _ digit_plain (str_of_Z_digits y ltac:(lia))) as Py.
  assert (Hall : Forall (fun x => all_chars csv_plain_char x = true) [b; s; m; str_of_Z y; p])
    by (repeat constructor; assumption).
  unfold csv_line, row_line, row_fields. cbn [Brand Series Model Launch_Year Price].
  split; [|split; [|split; [|split]]].
  - unfold csv_quote. cbn [map]. rewrite Pb, Ps, Pm, Py, Pp. reflexivity.
  - apply all_chars_join; [reflexivity|]. eapply Forall_impl; [exact Hall|].
    intros x Hx. apply (plain_impl (not_char lf)); [|exact Hx]. intros c Hc. apply (plain_char_facts c Hc).
  - apply all_chars_join; [reflexivity|]. eapply Forall_impl; [exact Hall|].
    intros x Hx. apply (plain_impl no_cr_quote); [|exact Hx]. intros c Hc. apply (plain_char_facts c Hc).
  - destruct b; [discriminate Tb|reflexivity].
  - unfold parse_row. rewrite split_join; [|discriminate|].
    + cbn [forallb]. rewrite Hb, Hs, Hm, Hp, parse_year_nonneg by lia. reflexivity.
    + eapply Forall_impl; [exact Hall|]. intros x Hx. apply (plain_impl (not_char ",")); [|exact Hx].
      intros c Hc. apply (plain_char_facts c Hc).
Qed.

(** The data lines of the file. *)
Lemma csv_lines_ok rows :
  Forall (fun r => csv_safe_row r = true) rows ->
  List.filter str_truthy (split_on lf (csv_lines rows)) = map row_line rows /\
  all_chars no_cr_quote (csv_lines rows) = true /\ parse_rows (map row_line rows) = Some rows.
Proof.
  induction 1 as [|r rows Hr _ (IH1 & IH2 & IH3)]; [split; [|split]; reflexivity|].
  destruct (row_line_ok r Hr) as (El & Hlf & Hcq & Ht & Hp). cbn [csv_lines].
  rewrite El, string_app_assoc. cbn [String.append]. split; [|split].
  - rewrite split_on_app by exact Hlf. cbn [List.filter]. rewrite Ht, IH1. reflexivity.
  - rewrite all_chars_app, Hcq. cbn. rewrite IH2. reflexivity.
  - cbn [map parse_rows]. rewrite Hp, IH3. reflexivity.
Qed.

(** Reading the file [to_csv] writes gives the rows back, for rows of the
    subset. *)
Lemma csv_roundtrip rows :
  Forall (fun r => csv_safe_row r = true) rows -> read_csv (to_csv rows) = Some rows.
Proof.
  intros Hall. destruct (csv_lines_ok rows Hall) as (E1 & E2 & E3). unfold read_csv, to_csv.
  rewrite all_chars_app, E2.
  change (csv_line csv_columns +:+ csv_lines rows)
    with ("Brand,Series,Model,Launch_Year,Price" +:+ String lf (csv_lines rows)).
  rewrite split_on_app by reflexivity. cbn [List.filter]. rewrite E1. exact E3.
Qed.

(** ** The generated catalogue *)

(** A price the generator writes, [f"₹{n}"], is a text field: it starts
    with the three bytes of the rupee sign, so it is no NA token, no
    boolean and no number. *)
Lemma price_text_field n : 0 <= n -> text_field (rupee +:+ str_of_Z n) = true.
Proof.
  intros Hn. unfold text_field.
  rewrite strip_no_space
    by (rewrite all_chars_app, str_of_Z_nonneg_no_space by exact Hn; reflexivity).
  rewrite all_chars_app, (all_chars_impl _ _ _ digit_plain (str_of_Z_digits n Hn)), String.eqb_refl.
  unfold rupee. cbn. reflexivity.
Qed.

(** The brand, series and model name of every triple the loops visit are
    text fields. *)
Definition key_fields_ok (k : string * string * Z) : bool :=
  forallb text_field [k.1.1; k.1.2; Mobile.model_name k.1.2 k.2].

Lemma catalog_keys_ok : Forall (fun k => key_fields_ok k = true) MobileProps.catalog_keys.
Proof.
  assert (H : forallb key_fields_ok MobileProps.catalog_keys = true) by (vm_compute; reflexivity).
  apply List.Forall_forall. intros k Hk. exact (proj1 (forallb_forall _ _) H k Hk).
Qed.

Lemma generated_rows_safe keys rows :
  Forall (fun k => key_fields_ok k = true) keys -> Forall2 MobileProps.row_of_key keys rows ->
  Forall (fun r => csv_safe_row r = true) rows.
Proof.
  intros Hk HF. induction HF as [|k r ks rs (Hb & Hs & Hm & (Hy & n & Hn & Hp)) _ IH]; [constructor|].
  inversion Hk as [|? ? Hk1 Hks]; subst. constructor; [|exact (IH Hks)].
  unfold key_fields_ok in Hk1. cbn [forallb] in Hk1. rewrite !andb_true_iff in Hk1.
  destruct Hk1 as (Tb & Ts & Tm & _).
  unfold csv_safe_row. cbn [forallb]. rewrite Hb, Hs, Hm, Hp, Tb, Ts, Tm, price_text_field by lia.
  cbn. apply andb_true_iff; split; [apply Z.leb_le|apply Z.ltb_lt]; lia.
Qed.

(** Every catalogue the generator writes is in the subset. *)
Lemma generated_catalog_safe {G} `{PyRandom G} (g : G) rows g' :
  run Mobile.generate_catalog g = (inr rows, g') -> Forall (fun r => csv_safe_row r = true) rows.
Proof.
  intros E. destruct (MobileProps.generate_catalog_keys g) as (rows' & g'' & E' & HF).
  rewrite E in E'. injection E' as <- _. exact (generated_rows_safe _ _ catalog_keys_ok HF).
Qed.

(** C35: Whatever the random draws, the catalogue the generator script
    writes with [df.to_csv] is read back by [load_mobile_data]
    ([pd.read_csv]) as exactly the rows generated, in order: brand, series
    and model as str, the launch year as an integer and the price string
    with its rupee sign. *)
Theorem generated_csv_roundtrip {G} `{PyRandom G} (g : G) rows g' :
  run Mobile.generate_catalog g = (inr rows, g') -> load_mobile_data (to_csv rows) = Some rows.
Proof. intros E. apply csv_roundtrip, (generated_catalog_safe g rows g' E). Qed.

Lemma generated_csv_roundtrip_witness :
  load_mobile_data (to_csv MobileProps.demo_catalog) = Some MobileProps.demo_catalog.
Proof. exact (generated_csv_roundtrip _ _ _ MobileProps.demo_catalog_run). Defined.

Section EndToEnd.
Context {G H : Type} `{PyRandom G} `{PyRandom H} `{TextScorer}.
Import Mobile MobileProps.

Lemma catalog_models_nonempty m : In m catalog_models -> str_truthy m = true.
Proof.
  intros Hm. assert (Hall : forallb str_truthy catalog_models = true) by (vm_compute; reflexivity).
  rewrite forallb_forall in Hall. exact (Hall m Hm).
Qed.

(** C18: The generator, the file and the page together. For every
    catalogue the generator script writes to mobile_phones.csv, the page
    of mobile.py loads it, and a click on "Get Mobile Info" with any name
    equal to a row's model (case-insensitively, after stripping) draws
    the widgets, then exactly that row's make, series, model, launch year
    and price, then the comment's sentiment when there is one; with
    "Nonexistent Model 9999" it draws the widgets and the error message. *)
Theorem generated_file_page (g : G) rows g' r u review (gs : Gens G H) :
  run generate_catalog g = (inr rows, g') -> In r rows -> lower (strip u) = lower (Model r) ->
  (exists page, mobile_script (to_csv rows) u review true = Some page /\
    exists d gs', run page gs = (inr (page_widgets ++ details_events d ++ comment_events review), gs') /\
      make d = Brand r /\ series d = Series r /\ model d = Model r /\
      launch_year d = Launch_Year r /\ price d = Price r) /\
  (exists page, mobile_script (to_csv rows) "Nonexistent Model 9999" review true = Some page /\
    run page gs = (inr (page_widgets ++ [UiError "❌ Sorry, no data found for this mobile."]), gs)).
Proof.
  intros Eg Hr Hu.
  assert (Hl : mobile_script (G:=G) (H:=H) (to_csv rows) = fun u' rv c => Some (mobile_page rows u' rv c)).
  { unfold mobile_script, load_mobile_data. rewrite (csv_roundtrip rows (generated_catalog_safe g rows g' Eg)).
    reflexivity. }
  rewrite Hl. split; eexists; (split; [reflexivity|]); unfold mobile_page; rewrite run_bind.
  - assert (Hs : str_truthy (strip u) = true).
    { pose proof (catalog_models_nonempty (Model r)) as Hm.
      rewrite <- (generated_models g rows g' Eg) in Hm. specialize (Hm (in_map _ _ _ Hr)).
      destruct (strip u) as [|c t]; [|reflexivity]. destruct (Model r); [discriminate Hm|discriminate Hu]. }
    destruct (lookup_cons rows u r [] gs (generated_matching g rows g' r u Eg Hr Hu))
      as (row & d & gs' & Er & [<-|[]] & Hd).
    rewrite (on_get_info_some rows u review d gs gs' Hs Er). eexists d, gs'. split; [reflexivity|]. tauto.
  - assert (Hn : str_truthy (strip "Nonexistent Model 9999") = true) by (vm_compute; reflexivity).
    unfold on_get_info. rewrite Hn, run_bind, (generated_nonexistent_not_found g rows g' gs Eg). reflexivity.
Qed.
End EndToEnd.

#[local] Instance neutral_scorer : TextScorer := {| polarity _ := 0%Q |}.

Lemma generated_file_page_witness :
  (exists page, mobile_script (G:=Tape) (H:=Tape) (to_csv MobileProps.demo_catalog) "iphone 15" "" true = Some page /\
    exists d gs', run page MobileProps.demo_gens =
      (inr (Mobile.page_widgets ++ Mobile.details_events d ++ Mobile.comment_events ""), gs') /\
      make d = "Apple" /\ series d = "iPhone" /\ model d = "iPhone 15" /\
      launch_year d = Launch_Year (nth 14 MobileProps.demo_catalog (mkRow "" "" "" 0 "")) /\
      price d = Price (nth 14 MobileProps.demo_catalog (mkRow "" "" "" 0 ""))) /\
  (exists page, mobile_script (to_csv MobileProps.demo_catalog) "Nonexistent Model 9999" "" true = Some page /\
    run page MobileProps.demo_gens =
      (inr (Mobile.page_widgets ++ [Mobile.UiError "❌ Sorry, no data found for this mobile."]), MobileProps.demo_gens)).
Proof.
  exact (generated_file_page (mkTape []) MobileProps.demo_catalog _ (nth 14 MobileProps.demo_catalog (mkRow "" "" "" 0 ""))
           "iphone 15" "" MobileProps.demo_gens MobileProps.demo_catalog_run
           ltac:(vm_compute; tauto) ltac:(vm_compute; reflexivity)).
Defined.
