(* ===== verification/MobileApp.v ===== *)
(** * mobile.py as a running Streamlit app: [st.cache_data] and reruns

    Streamlit reruns the whole of mobile.py on every interaction. Line 13
    calls [load_mobile_data()], which lines 9-11 decorate with
    [@st.cache_data]: the first call reads mobile_phones.csv with
    [pd.read_csv] and stores the result under the call's arguments; every
    later call, in this or any later run, returns the stored result
    without opening the file. An exception (a missing file) is not
    stored, so the next run tries again. There is no [ttl] and no
    invalidation.

    [App] is the state the runs share: the file system ([files], path to
    contents), the cache of [load_mobile_data] ([cache], argument to
    result, an stdpp [gmap]) and the two random generators. [mobile_run]
    is one run of the script.

    Theorems: from a state whose cache agrees with the files
    ([cache_inv]), once a result is cached, edits to the file, even
    deleting it, are never seen; a missing file raises
    [FileNotFoundError] and caches nothing. *)

From stdpp Require Import gmap.
From Stdlib Require Import QArith.
From S2P Require Import Prelude PyStr PyRandom PhoneGen Sentiment Catalog Csv.

Import Mobile.

#[export] Instance CsvRow_eq_dec : EqDecision CsvRow.
Proof. solve_decision. Defined.

Record App (G H : Type) := mkApp {
  files : gmap string string;
  cache : gmap string (option (list CsvRow));
  gens : Gens G H
}.
Arguments mkApp {G H} _ _ _.
Arguments files {G H} _.
Arguments cache {G H} _.
Arguments gens {G H} _.

Section Streamlit.
Context {G H : Type} `{PyRandom G} `{PyRandom H} `{TextScorer}.

(** The default argument of [load_mobile_data]. *)
Definition csv_path : string := "mobile_phones.csv".

Definition gens_lens : Lens (App G H) (Gens G H) :=
  {| view := gens; update g a := mkApp (files a) (cache a) g |}.

(** [pd.read_csv(path)]: [FileNotFoundError] when there is no such file;
    otherwise the reading of [Csv.read_csv] ([None]: outside its subset). *)
Definition pd_read_csv (path : string) : PyM (App G H) (option (list CsvRow)) :=
  a ← py_get;
  match files a !! path with
  | Some text => mret (read_csv text)
  | None => raise! (FileNotFoundError path)
  end.

(** Lines 9-11: [@st.cache_data] around [load_mobile_data(csv_file)]. A
    hit returns the stored value; a miss runs the body and stores what it
    returns; an exception propagates and stores nothing. *)
Definition load_mobile_data_cached (csv_file : string) : PyM (App G H) (option (list CsvRow)) :=
  a ← py_get;
  match cache a !! csv_file with
  | Some v => mret v
  | None =>
      v ← pd_read_csv csv_file;
      py_modify (fun a => mkApp (files a) (<[csv_file := v]> (cache a)) (gens a));;
      mret v
  end.

(** Lines 58-84 on the loaded catalogue. *)
Definition page_of (df : option (list CsvRow)) (user_input user_review : string) (clicked : bool)
  : PyM (App G H) (option (list UiEvent)) :=
  match df with
  | Some mobile_df => evs ← zoom gens_lens (mobile_page mobile_df user_input user_review clicked);
                      mret (Some evs)
  | None => mret None
  end.

(** One run of mobile.py: line 13, [mobile_df = load_mobile_data()], then
    the page. *)
Definition mobile_run (user_input user_review : string) (clicked : bool)
  : PyM (App G H) (option (list UiEvent)) :=
  mobile_df ← load_mobile_data_cached csv_path;
  page_of mobile_df user_input user_review clicked.

(** The cache agrees with the file system: every stored result is the
    reading of the file now under that path. *)
Definition cache_inv (a : App G H) : Prop :=
  map_Forall (fun p v => read_csv <$> files a !! p = Some v) (cache a).

(** Replacing the file system between runs (editing, writing or deleting
    files). *)
Definition set_files (fs : gmap string string) (a : App G H) : App G H := mkApp fs (cache a) (gens a).

End Streamlit.

(** ** Lemmas *)
Section CacheLemmas.
Context {G H : Type} `{PyRandom G} `{PyRandom H} `{TextScorer}.
Implicit Types (a : App G H).

Lemma pd_read_csv_found a p text :
  files a !! p = Some text -> run (pd_read_csv p) a = (inr (read_csv text), a).
Proof. intros E. unfold pd_read_csv. pym_simpl. rewrite E. reflexivity. Qed.

Lemma pd_read_csv_missing a p :
  files a !! p = None -> run (pd_read_csv (G:=G) (H:=H) p) a = (inl (FileNotFoundError p), a).
Proof. intros E. unfold pd_read_csv. pym_simpl. rewrite E. reflexivity. Qed.

Lemma load_hit a p v : cache a !! p = Some v -> run (load_mobile_data_cached p) a = (inr v, a).
Proof. intros E. unfold load_mobile_data_cached. pym_simpl. rewrite E. reflexivity. Qed.

Lemma load_miss a p text :
  cache a !! p = None -> files a !! p = Some text ->
  run (load_mobile_data_cached p) a =
    (inr (read_csv text), mkApp (files a) (<[p := read_csv text]> (cache a)) (gens a)).
Proof.
  intros E F. unfold load_mobile_data_cached. pym_simpl. rewrite E, run_bind, (pd_read_csv_found a p text F).
  reflexivity.
Qed.

Lemma load_missing a p :
  cache a !! p = None -> files a !! p = None ->
  run (load_mobile_data_cached (G:=G) (H:=H) p) a = (inl (FileNotFoundError p), a).
Proof.
  intros E F. unfold load_mobile_data_cached. pym_simpl. rewrite E, run_bind, (pd_read_csv_missing a p F).
  reflexivity.
Qed.

(** The page touches only the generators: its result and the generators
    it leaves do not depend on the files or the cache. *)
Lemma page_of_frame df u r c (g : Gens G H) :
  exists res g', forall fs cc, run (page_of df u r c) (mkApp fs cc g) = (res, mkApp fs cc g').
Proof.
  destruct df as [rows|]; [|exists (inr None), g; reflexivity].
  destruct (run (mobile_page rows u r c) g) as [res g'] eqn:E.
  exists (match res with inl e => inl e | inr evs => inr (Some evs) end), g'. intros fs cc.
  unfold page_of. pym_simpl. cbn [view update gens_lens gens files cache]. rewrite E. cbn [fst snd].
  destruct res; reflexivity.
Qed.

(** A run whose catalogue file exists, with nothing else stored for it,
    leaves that file's reading in the cache. *)
Lemma mobile_run_caches a text u r c :
  files a !! csv_path = Some text -> (forall v, cache a !! csv_path = Some v -> v = read_csv text) ->
  cache (snd (run (mobile_run u r c) a)) !! csv_path = Some (read_csv text) /\
  files (snd (run (mobile_run u r c) a)) = files a.
Proof.
  destruct a as [fs cc g]; cbn [files cache gens]. intros F Hv. unfold mobile_run. rewrite run_bind.
  destruct (cc !! csv_path) as [v|] eqn:E.
  - rewrite (load_hit (mkApp fs cc g) _ v E), <- (Hv v eq_refl).
    destruct (page_of_frame v u r c g) as (res & g' & ->). split; [exact E|reflexivity].
  - rewrite (load_miss (mkApp fs cc g) _ text E F). cbn [files cache gens].
    destruct (page_of_frame (read_csv text) u r c g) as (res & g' & ->). cbn.
    split; [apply lookup_insert_eq|reflexivity].
Qed.

End CacheLemmas.

Section CacheTheorems.
Context {G H : Type} `{PyRandom G} `{PyRandom H} `{TextScorer}.

(** C24: [st.cache_data] is never refreshed. After a run that found
    mobile_phones.csv, every later run, whatever happens to the file in
    between (rewritten or deleted), shows the page of the catalogue as
    the file was at that first run. *)
Theorem cache_never_refreshed (a : App G H) text fs u r c u' r' c' :
  cache_inv a -> files a !! csv_path = Some text ->
  run (mobile_run u' r' c') (set_files fs (snd (run (mobile_run u r c) a))) =
  run (page_of (read_csv text) u' r' c') (set_files fs (snd (run (mobile_run u r c) a))).
Proof.
  intros Hi F.
  destruct (mobile_run_caches a text u r c F) as [Ec _].
  { intros v E. pose proof (Hi csv_path v E) as Hv. cbn in Hv. rewrite F in Hv. injection Hv as <-. reflexivity. }
  set (a1 := snd (run (mobile_run u r c) a)) in *. unfold mobile_run. rewrite run_bind, (load_hit (set_files fs a1) _ _ Ec). reflexivity.
Qed.

(** C27: A missing mobile_phones.csv makes the run raise
    [FileNotFoundError] with the state untouched: nothing is cached and
    no random number is drawn. So the first run after the file is written
    reads it and caches its reading. *)
Theorem missing_file_not_cached (a : App G H) text u r c u' r' c' :
  cache a !! csv_path = None -> files a !! csv_path = None ->
  run (mobile_run u r c) a = (inl (FileNotFoundError csv_path), a) /\
  cache (snd (run (mobile_run u' r' c') (set_files (<[csv_path := text]> (files a)) a))) !! csv_path =
    Some (read_csv text).
Proof.
  intros E F. split.
  - unfold mobile_run. rewrite run_bind, load_missing by assumption. reflexivity.
  - apply mobile_run_caches; cbn [set_files files cache]; [apply lookup_insert_eq|].
    intros v Ev. congruence.
Qed.
End CacheTheorems.

(** ** Concrete runs *)
#[local] Instance neutral_scorer : TextScorer := {| polarity _ := 0%Q |}.

Definition demo_csv : string :=
  "Brand,Series,Model,Launch_Year,Price" +:+ String lf ("Apple,iPhone,iPhone 15,2023,₹79900" +:+ String lf "").

Definition demo_app : App Tape Tape := mkApp {[csv_path := demo_csv]} ∅ MobileProps.demo_gens.

Definition demo_app_missing : App Tape Tape := mkApp ∅ ∅ MobileProps.demo_gens.

Lemma cache_never_refreshed_witness :
  run (mobile_run "iphone 15" "" true) (set_files ∅ (snd (run (mobile_run "" "" false) demo_app))) =
  run (page_of (read_csv demo_csv) "iphone 15" "" true) (set_files ∅ (snd (run (mobile_run "" "" false) demo_app))).
Proof.
  apply (cache_never_refreshed demo_app demo_csv); [|reflexivity].
  apply (bool_decide_eq_true_1 _). vm_compute. reflexivity.
Defined.

Lemma missing_file_not_cached_witness :
  run (mobile_run "iphone 15" "" true) demo_app_missing = (inl (FileNotFoundError csv_path), demo_app_missing) /\
  cache (snd (run (mobile_run "iphone 15" "" true) (set_files (<[csv_path := demo_csv]> (files demo_app_missing))
                                                             demo_app_missing))) !! csv_path =
    Some (read_csv demo_csv).
Proof. apply (missing_file_not_cached demo_app_missing); reflexivity. Defined.
